(** * Bluesky list migrator ([mig.py]): a shallow embedding and its properties

    The development follows the layout of the script:
    - [Py]        the few Python string and [datetime] operations it calls;
    - [Effects]   the outside world (remote API, clock, sleeping, the
                  Streamlit widgets) as a state-and-trace monad with
                  exceptions;
    - [Mig]       [get_list_members], [create_new_list],
                  [add_members_to_list] and the "Migrate List" handler;
    - [Trace]     what can be read off the events of a run;
    - [Scripted]  a service that answers from a script, to run the
                  functions on concrete inputs;
    - [Spec]      the notions the properties are stated with;
    - the properties, function by function, then the handler, then the
      concrete runs. *)

From Stdlib Require Import List String Ascii Bool Arith NArith Lia.
From Stdlib Require DecimalString.
Import ListNotations.

Local Open Scope string_scope.
Local Open Scope list_scope.

(* ================================================================== *)
(** * Python values used by the script *)
(* ================================================================== *)

Module Py.

(** [s.startswith(p)] *)
Definition startswith (s p : string) : bool := String.prefix p s.

(** Truth value of a [str]: the empty string is falsy. *)
Definition truthy_str (s : string) : bool :=
  match s with EmptyString => false | String _ _ => true end.

(** Truth value of an [Optional[str]]: [None] and [""] are falsy. *)
Definition truthy_opt_str (o : option string) : bool :=
  match o with None => false | Some s => truthy_str s end.

(** Truth value of a [list]: the empty list is falsy. *)
Definition truthy_list {A : Type} (l : list A) : bool :=
  match l with [] => false | _ :: _ => true end.

(** [s.replace(old, new)] for a non-empty [old]: every occurrence, found
    left to right and never overlapping, is replaced.  [skip] counts the
    characters of a matched occurrence still to be dropped. *)
Fixpoint replace_from (old new : string) (skip : nat) (s : string) : string :=
  match s with
  | EmptyString => EmptyString
  | String c s' =>
      match skip with
      | S k => replace_from old new k s'
      | O =>
          if String.prefix old s
          then new ++ replace_from old new (String.length old - 1) s'
          else String c (replace_from old new 0 s')
      end
  end.

Definition replace (s old new : string) : string := replace_from old new 0 s.

(** [str(n)] for a non-negative [int]. *)
Definition str_of_nat (n : nat) : string :=
  DecimalString.NilZero.string_of_uint (Nat.to_uint n).

Definition str_of_N (n : N) : string :=
  DecimalString.NilZero.string_of_uint (N.to_uint n).

Definition digit_char (d : N) : ascii :=
  ascii_of_N (48 + d).

(** ["%0wd" % n] for [n >= 0]: at least [w] digits, padded on the left
    with zeros; digits beyond the width are printed in full. *)
Fixpoint zero_pad (w : nat) (n : N) : string :=
  match w with
  | O => if (n =? 0)%N then EmptyString else str_of_N n
  | S w' => zero_pad w' (n / 10) ++ String (digit_char (n mod 10)) EmptyString
  end.

(** A [datetime] whose [tzinfo] is [timezone.utc], as produced by
    [datetime.now(timezone.utc)]. *)
Record datetime := mk_datetime {
  year : N; month : N; day : N;
  hour : N; minute : N; second : N;
  microsecond : N
}.

(** The ranges the [datetime] class guarantees for its fields. *)
Definition valid_datetime (d : datetime) : bool :=
  ((1 <=? year d) && (year d <=? 9999) &&
   (1 <=? month d) && (month d <=? 12) &&
   (1 <=? day d) && (day d <=? 31) &&
   (hour d <=? 23) && (minute d <=? 59) && (second d <=? 59) &&
   (microsecond d <=? 999999))%N.

(** ["%04d-%02d-%02d"] *)
Definition format_date (d : datetime) : string :=
  zero_pad 4 (year d) ++ "-" ++ zero_pad 2 (month d) ++ "-" ++ zero_pad 2 (day d).

(** [_format_time] with [timespec='auto']: the microseconds are printed,
    as six digits after a dot, exactly when they are not zero. *)
Definition format_time (d : datetime) : string :=
  zero_pad 2 (hour d) ++ ":" ++ zero_pad 2 (minute d) ++ ":" ++ zero_pad 2 (second d)
  ++ (if (microsecond d =? 0)%N then "" else "." ++ zero_pad 6 (microsecond d)).

(** The offset of [timezone.utc] is zero and prints as ["+00:00"]. *)
Definition utc_offset : string := "+00:00".

(** [d.isoformat()] *)
Definition isoformat (d : datetime) : string :=
  format_date d ++ "T" ++ format_time d ++ utc_offset.

End Py.

(** [datetime.now(timezone.utc).isoformat().replace("+00:00", "Z")], the
    expression both record builders use for [createdAt], as a function of
    the instant [datetime.now] returned. *)
Definition created_at (now : Py.datetime) : string :=
  Py.replace (Py.isoformat now) "+00:00" "Z".

(* ================================================================== *)
(** * The outside world: remote API, clock, widgets *)
(* ================================================================== *)

Module Effects.

(** Exceptions that are instances of [Exception]: the protocol library's
    [AtProtocolError], and everything else with its class name.  [str(e)]
    is the carried message. *)
Inductive exn : Type :=
| AtProtocolError (msg : string)
| PyException (cls : string) (msg : string).

Definition str_of_exn (e : exn) : string :=
  match e with
  | AtProtocolError msg => msg
  | PyException _ msg => msg
  end.

(** What a call to the outside answers. *)
Inductive outcome (A : Type) : Type :=
| Returned (a : A)
| Raised (e : exn).
Arguments Returned {A} a.
Arguments Raised {A} e.

(** ** Data of the protocol library *)

Record ProfileView := mk_profile { did : string; handle : string }.

(** A [Client]; [me] is [None] until a login succeeds. *)
Record Client := mk_client { me : option ProfileView }.

Record ListItemView := mk_item { subject : ProfileView }.

(** [models.AppBskyGraphGetList.Params] *)
Record GetListParams := mk_params {
  params_list : string;
  params_limit : nat;
  params_cursor : option string
}.

(** Response of [app.bsky.graph.getList] *)
Record GetListResponse := mk_page {
  items : list ListItemView;
  cursor : option string
}.

(** [models.AppBskyGraphList.Record] *)
Record GraphList := mk_graph_list {
  name : string;
  purpose : string;
  description : string;
  list_createdAt : string
}.

(** The constructor of [models.AppBskyGraphList.Record] validates its
    fields, as the protocol library declares the record from the lexicon
    of [app.bsky.graph.list]: a name of 1 to 64 characters and a
    description of at most 3000 characters. *)
Definition valid_list_fields (name description : string) : bool :=
  Nat.leb 1 (String.length name) && Nat.leb (String.length name) 64
  && Nat.leb (String.length description) 3000.

(** The purposes every version of the library takes: the two the
    selectbox of the form offers, in their namespaced form. *)
Definition known_list_purposes : list string :=
  ["app.bsky.graph.defs#modlist"; "app.bsky.graph.defs#curatelist"].

(** [models.AppBskyGraphListitem.Record] *)
Record GraphListitem := mk_graph_listitem {
  item_subject : string;
  item_list : string;
  item_createdAt : string
}.

Inductive RepoRecord : Type :=
| ListRecord (r : GraphList)
| ListitemRecord (r : GraphListitem).

Definition createdAt (r : RepoRecord) : string :=
  match r with
  | ListRecord r => list_createdAt r
  | ListitemRecord r => item_createdAt r
  end.

(** [models.ids] *)
Definition AppBskyGraphList : string := "app.bsky.graph.list".
Definition AppBskyGraphListitem : string := "app.bsky.graph.listitem".

(** [models.ComAtprotoRepoCreateRecord.Data] *)
Record CreateRecordData := mk_data {
  repo : string;
  collection : string;
  record : RepoRecord
}.

Record CreateRecordResponse := mk_created { uri : string; cid : string }.

(** ** Streamlit calls, recorded as they are issued *)
Inductive Widget : Type :=
| st_error (body : string)
| st_warning (body : string)
| st_success (body : string)
| st_info (body : string)
| st_write (body : string)
| st_balloons
| st_status (label : string)
| status_update (label : string) (state : string) (expanded : bool)
| st_progress (value : nat) (text : string)
| progress_bar_progress (num den : nat) (text : string)
| progress_bar_empty.

(** ** Everything the script does to the outside, in order *)
Inductive Event : Type :=
| Login (handle password : string) (r : outcome ProfileView)
| GetList (c : Client) (p : GetListParams) (r : outcome (option GetListResponse))
| CreateRecord (c : Client) (d : CreateRecordData) (r : outcome CreateRecordResponse)
| Sleep (milliseconds : nat)
| Render (w : Widget).

(** ** The remote service and the clock, over a state [S] of their own,
    and what is left to the version of the protocol library: whether the
    list record takes a purpose other than the known ones (the lexicon
    lists known values of a string that a version may or may not
    enforce), and the text of the [ValidationError] of a list record it
    refuses *)
Record Remote (S : Type) : Type := mk_remote {
  api_login : string -> string -> S -> outcome ProfileView * S;
  api_get_list : Client -> GetListParams -> S -> outcome (option GetListResponse) * S;
  api_create_record : Client -> CreateRecordData -> S -> outcome CreateRecordResponse * S;
  api_now : S -> Py.datetime * S;
  other_purpose_accepted : string -> bool;
  validation_text : GraphList -> string
}.
Arguments other_purpose_accepted {S} _ _.
Arguments validation_text {S} _ _.
Arguments api_login {S} _ _ _ _.
Arguments api_get_list {S} _ _ _ _.
Arguments api_create_record {S} _ _ _ _.
Arguments api_now {S} _ _.

(** ** The monad: state of the outside, trace of events, exceptions.
    [Fuel] marks a run cut off inside the pagination loop; the trace so
    far is kept. *)
Inductive res (A : Type) : Type :=
| Ret (a : A)
| Raise (e : exn)
| Fuel.
Arguments Ret {A} a.
Arguments Raise {A} e.
Arguments Fuel {A}.

Definition M (S A : Type) : Type := S -> res A * S * list Event.

Section Monad.
Context {S : Type}.

Definition ret {A} (a : A) : M S A := fun s => (Ret a, s, []).

Definition bind {A B} (m : M S A) (k : A -> M S B) : M S B := fun s =>
  match m s with
  | (Ret a, s1, t1) =>
      match k a s1 with (r, s2, t2) => (r, s2, t1 ++ t2) end
  | (Raise e, s1, t1) => (Raise e, s1, t1)
  | (Fuel, s1, t1) => (Fuel, s1, t1)
  end.

Definition raise {A} (e : exn) : M S A := fun s => (Raise e, s, []).

Definition out_of_fuel {A} : M S A := fun s => (Fuel, s, []).

(** [try: body  except Exception as e: handler e] *)
Definition try_except {A} (body : M S A) (handler : exn -> M S A) : M S A := fun s =>
  match body s with
  | (Raise e, s1, t1) =>
      match handler e s1 with (r, s2, t2) => (r, s2, t1 ++ t2) end
  | other => other
  end.

Definition emit (ev : Event) : M S unit := fun s => (Ret tt, s, [ev]).

Definition show (w : Widget) : M S unit := emit (Render w).

(** [time.sleep(seconds)], the delay kept in milliseconds *)
Definition sleep (milliseconds : nat) : M S unit := emit (Sleep milliseconds).

Definition lift {A} (o : outcome A) : res A :=
  match o with Returned a => Ret a | Raised e => Raise e end.

Variable W : Remote S.

(** [client.login(handle, password)]: on success the client remembers the
    profile in [me]. *)
Definition login (c : Client) (handle password : string) : M S Client := fun s =>
  let (r, s1) := api_login W handle password s in
  (match r with
   | Returned p => Ret (mk_client (Some p))
   | Raised e => Raise e
   end, s1, [Login handle password r]).

(** [client.app.bsky.graph.get_list(params)] *)
Definition get_list (c : Client) (p : GetListParams) : M S (option GetListResponse) := fun s =>
  let (r, s1) := api_get_list W c p s in (lift r, s1, [GetList c p r]).

(** [client.com.atproto.repo.create_record(data)] *)
Definition create_record (c : Client) (d : CreateRecordData) : M S CreateRecordResponse := fun s =>
  let (r, s1) := api_create_record W c d s in (lift r, s1, [CreateRecord c d r]).

(** [datetime.now(timezone.utc)] *)
Definition datetime_now : M S Py.datetime := fun s =>
  let (d, s1) := api_now W s in (Ret d, s1, []).

(** The purposes the list record takes. *)
Definition valid_list_purpose (purpose : string) : bool :=
  existsb (String.eqb purpose) known_list_purposes || other_purpose_accepted W purpose.

(** What the constructor of the list record checks. *)
Definition list_record_valid (r : GraphList) : bool :=
  valid_list_fields (name r) (description r) && valid_list_purpose (purpose r).

(** [models.AppBskyGraphList.Record(name=..., purpose=..., description=...,
    createdAt=...)]: the record, or the [ValidationError] of the
    constructor when a field is refused. *)
Definition new_list_record (name purpose description createdAt : string) : M S GraphList :=
  let r := mk_graph_list name purpose description createdAt in
  if list_record_valid r then ret r
  else raise (PyException "ValidationError" (validation_text W r)).

(** [client.me.<attribute>], up to the choice of the attribute: an
    [AttributeError] when no login has filled [me]. *)
Definition client_me (c : Client) (attribute : string) : M S ProfileView :=
  match me c with
  | Some p => ret p
  | None =>
      raise (PyException "AttributeError"
               ("'NoneType' object has no attribute '" ++ attribute ++ "'"))
  end.

(** [a / b] on integers: the quotient, kept exact as numerator and
    denominator; [ZeroDivisionError] when [b] is zero. *)
Definition truediv (a b : nat) : M S (nat * nat) :=
  if (b =? 0)%nat then raise (PyException "ZeroDivisionError" "division by zero")
  else ret (a, b).

End Monad.

Declare Scope mig_scope.
Delimit Scope mig_scope with mig.
Notation "x <- m ;; k" := (bind m (fun x => k))
  (at level 61, m at next level, right associativity) : mig_scope.
Notation "' p <- m ;; k" := (bind m (fun p => k))
  (at level 61, p pattern, m at next level, right associativity) : mig_scope.
Notation "m ;; k" := (bind m (fun _ => k))
  (at level 61, right associativity) : mig_scope.

End Effects.

(* ================================================================== *)
(** * The script *)
(* ================================================================== *)

Module Mig.
Import Effects.
Local Open Scope mig_scope.

(** The fields of the form, as the widgets hand them over: the input
    for the list name is declared with [max_chars=64] and the text area
    for the description with [max_chars=300], so no longer value reaches
    the handler; the purpose comes from a selectbox with
    [options=["curatelist", "modlist"]], so it is one of the two. *)
Record Form := mk_form {
  source_handle : string;
  source_password : string;
  source_list_uri : string;
  dest_handle : string;
  dest_password : string;
  dest_list_name : string;
  dest_list_purpose : string;
  dest_list_desc : string;
  dest_list_name_max_chars : Nat.leb (String.length dest_list_name) 64 = true;
  dest_list_purpose_option :
    existsb (String.eqb dest_list_purpose) ["curatelist"; "modlist"] = true;
  dest_list_desc_max_chars : Nat.leb (String.length dest_list_desc) 300 = true
}.

Section Script.
Context {S : Type}.
Variable W : Remote S.

(** ** Core migration logic *)

Definition item_did (item : ListItemView) : string := did (subject item).

(** The [while True] loop of [get_list_members]; [fuel] bounds the number
    of pages requested. *)
Fixpoint get_list_members_loop (fuel : nat) (client : Client) (list_uri : string)
    (members : list string) (cursor : option string) : M S (list string) :=
  match fuel with
  | O => out_of_fuel
  | Datatypes.S fuel' =>
      let params := mk_params list_uri 100 cursor in
      response <- get_list W client params ;;
      match response with
      | None => ret members                       (* not response *)
      | Some response =>
          if negb (Py.truthy_list (items response)) then ret members
          else
            let members := members ++ map item_did (items response) in
            let cursor := Effects.cursor response in
            if negb (Py.truthy_opt_str cursor) then ret members
            else
              sleep 100 ;;
              get_list_members_loop fuel' client list_uri members cursor
      end
  end.

(** Fetches all member DIDs from a given list URI. *)
Definition get_list_members (fuel : nat) (client : Client) (list_uri : string)
    : M S (option (list string)) :=
  try_except
    (members <- get_list_members_loop fuel client list_uri [] None ;;
     ret (Some members))
    (fun e =>
       match e with
       | AtProtocolError _ =>
           show (st_error ("Error fetching list members from " ++ list_uri ++ ": "
                           ++ str_of_exn e)) ;;
           ret None
       | PyException _ _ =>
           show (st_error ("An unexpected error occurred while fetching members: "
                           ++ str_of_exn e)) ;;
           ret None
       end).

Definition purpose_prefix : string := "app.bsky.graph.defs#".

(** The purpose as [create_new_list] stores it. *)
Definition normalize_purpose (purpose : string) : string :=
  if negb (Py.startswith purpose purpose_prefix)
  then purpose_prefix ++ purpose
  else purpose.

(** Creates a new list record on the target account. *)
Definition create_new_list (client : Client) (name description purpose : string)
    : M S (option string) :=
  try_except
    (let purpose := normalize_purpose purpose in
     now <- datetime_now W ;;
     list_record <- new_list_record W name purpose description (created_at now) ;;
     me <- client_me client "did" ;;
     response <- create_record W client
                   (mk_data (did me) AppBskyGraphList (ListRecord list_record)) ;;
     show (st_success ("Successfully created new list: " ++ uri response)) ;;
     ret (Some (uri response)))
    (fun e =>
       match e with
       | AtProtocolError _ =>
           show (st_error ("Error creating new list: " ++ str_of_exn e)) ;;
           ret None
       | PyException _ _ =>
           show (st_error ("An unexpected error occurred while creating the list: "
                           ++ str_of_exn e)) ;;
           ret None
       end).

(** The [try] statement in the body of the loop of [add_members_to_list],
    with its two [except] clauses; it yields the two counters as the
    clauses leave them. *)
Definition try_add_member (client : Client) (list_uri member_did : string)
    (success_count fail_count : nat) : M S (nat * nat) :=
  try_except
    (now <- datetime_now W ;;
     let list_item_record := mk_graph_listitem member_did list_uri (created_at now) in
     me <- client_me client "did" ;;
     create_record W client
       (mk_data (did me) AppBskyGraphListitem (ListitemRecord list_item_record)) ;;
     sleep 200 ;;
     ret (success_count + 1, fail_count))
    (fun e =>
       match e with
       | AtProtocolError _ =>
           show (st_warning ("Failed to add member " ++ member_did ++ ": "
                             ++ str_of_exn e)) ;;
           sleep 1000 ;;
           ret (success_count, fail_count + 1)
       | PyException _ _ =>
           show (st_warning ("Unexpected error adding member " ++ member_did ++ ": "
                             ++ str_of_exn e)) ;;
           sleep 1000 ;;
           ret (success_count, fail_count + 1)
       end).

(** The [for i, member_did in enumerate(members)] loop of
    [add_members_to_list].  Both [except] clauses end normally, so the
    [finally] suite runs right after the [try] statement on every path;
    an exception of the [finally] suite itself would leave the function. *)
Fixpoint add_members_loop (client : Client) (list_uri : string) (total : nat)
    (i : nat) (members : list string) (success_count fail_count : nat)
    : M S (nat * nat) :=
  match members with
  | [] => ret (success_count, fail_count)
  | member_did :: rest =>
      '(success_count, fail_count) <-
        try_add_member client list_uri member_did success_count fail_count ;;
      '(num, den) <- truediv (i + 1) total ;;
      show (progress_bar_progress num den
              ("Adding members (" ++ Py.str_of_nat (i + 1) ++ "/" ++ Py.str_of_nat total
               ++ ")... " ++ Py.str_of_nat fail_count ++ " failed.")) ;;
      add_members_loop client list_uri total (i + 1) rest success_count fail_count
  end.

(** Adds members to the specified list, one by one. *)
Definition add_members_to_list (client : Client) (list_uri : string) (members : list string)
    : M S (nat * nat) :=
  let total := List.length members in
  show (st_progress 0 ("Adding members (0/" ++ Py.str_of_nat total ++ ")...")) ;;
  counts <- add_members_loop client list_uri total 0 members 0 0 ;;
  show progress_bar_empty ;;
  ret counts.


(** ** The "Migrate List" button *)

(** Basic validation: every field but the description must be non-empty. *)
Definition all_required_fields (f : Form) : bool :=
  Py.truthy_str (source_handle f) && Py.truthy_str (source_password f) &&
  Py.truthy_str (source_list_uri f) && Py.truthy_str (dest_handle f) &&
  Py.truthy_str (dest_password f) && Py.truthy_str (dest_list_name f) &&
  Py.truthy_str (dest_list_purpose f).

(** 1. and 3.: the login block, the same for both accounts up to the
    texts.  Yields the client and the new value of [migration_ok]. *)
Definition login_block (status_label account : string) (client : Client)
    (handle_ password : string) : M S (Client * bool) :=
  show (st_status status_label) ;;
  try_except
    (show (st_write ("Attempting login for " ++ handle_ ++ "...")) ;;
     client <- login W client handle_ password ;;
     me <- client_me client "handle" ;;
     show (st_write ("Logged in as " ++ handle me ++ " (" ++ did me ++ ")")) ;;
     show (status_update "Login Successful!" "complete" false) ;;
     ret (client, true))
    (fun e =>
       match e with
       | AtProtocolError _ =>
           show (st_error ("Login failed for " ++ account ++ ": " ++ str_of_exn e)) ;;
           show (status_update "Login Failed!" "error" true) ;;
           ret (client, false)
       | PyException _ _ =>
           show (st_error ("An unexpected error occurred during " ++ account ++ " login: "
                           ++ str_of_exn e)) ;;
           show (status_update "Login Failed!" "error" true) ;;
           ret (client, false)
       end).

(** 1. Login to Source Account *)
Definition login_source (f : Form) (source_client : Client) : M S (Client * bool) :=
  login_block "Logging into Source Account (Account A)..." "Account A"
    source_client (source_handle f) (source_password f).

(** 2. Fetch Members from Source List *)
Definition fetch_members (fuel : nat) (f : Form) (source_client : Client)
    : M S (option (list string) * bool) :=
  show (st_status ("Fetching members from list " ++ source_list_uri f ++ "...")) ;;
  members_to_add <- get_list_members fuel source_client (source_list_uri f) ;;
  match members_to_add with
  | Some members =>
      show (st_write ("Found " ++ Py.str_of_nat (List.length members)
                      ++ " members in the source list.")) ;;
      show (status_update "Fetched Members Successfully!" "complete" false) ;;
      ret (members_to_add, true)
  | None =>
      show (st_error "Failed to fetch members. Cannot continue.") ;;
      show (status_update "Fetching Members Failed!" "error" true) ;;
      ret (members_to_add, false)
  end.

(** 3. Login to Destination Account *)
Definition login_destination (f : Form) (dest_client : Client) : M S (Client * bool) :=
  login_block "Logging into Destination Account (Account B)..." "Account B"
    dest_client (dest_handle f) (dest_password f).

(** 4. Create New List on Destination Account *)
Definition create_destination_list (f : Form) (dest_client : Client)
    : M S (option string * bool) :=
  show (st_status ("Creating new list '" ++ dest_list_name f ++ "' on Account B...")) ;;
  new_list_uri <- create_new_list dest_client (dest_list_name f) (dest_list_desc f)
                    (dest_list_purpose f) ;;
  match new_list_uri with
  | Some u =>
      if Py.truthy_str u then
        show (st_write ("New list created with URI: " ++ u)) ;;
        show (status_update "List Creation Successful!" "complete" false) ;;
        ret (new_list_uri, true)
      else
        show (st_error "Failed to create the new list. Cannot continue.") ;;
        show (status_update "List Creation Failed!" "error" true) ;;
        ret (new_list_uri, false)
  | None =>
      show (st_error "Failed to create the new list. Cannot continue.") ;;
      show (status_update "List Creation Failed!" "error" true) ;;
      ret (new_list_uri, false)
  end.

(** 5. Add Members to New List *)
Definition add_members (dest_client : Client) (migration_ok : bool)
    (members_to_add : option (list string)) (new_list_uri : option string) : M S unit :=
  match members_to_add, new_list_uri with
  | Some members, Some u =>
      if migration_ok && Py.truthy_list members && Py.truthy_str u then
        show (st_info ("Starting to add " ++ Py.str_of_nat (List.length members)
                       ++ " members to the new list. This may take a while...")) ;;
        '(success, failed) <- add_members_to_list dest_client u members ;;
        show (st_success ("Finished adding members. Successfully added: "
                          ++ Py.str_of_nat success ++ ", Failed: " ++ Py.str_of_nat failed)) ;;
        show st_balloons
      else if migration_ok then
        show (st_warning "No members found in the source list or new list wasn't created. Nothing to add.")
      else ret tt
  | _, _ =>
      if migration_ok then
        show (st_warning "No members found in the source list or new list wasn't created. Nothing to add.")
      else ret tt
  end.

(** The body of [if st.button("Migrate List", type="primary"):]. *)
Definition migrate_list (fuel : nat) (f : Form) : M S unit :=
  if negb (all_required_fields f) then
    show (st_error "Please fill in all required fields.")
  else
    let source_client := mk_client None in
    let dest_client := mk_client None in
    let members_to_add : option (list string) := None in
    let new_list_uri : option string := None in
    let migration_ok := true in
    '(source_client, migration_ok) <- login_source f source_client ;;
    '(members_to_add, migration_ok) <-
      (if migration_ok then fetch_members fuel f source_client
       else ret (members_to_add, migration_ok)) ;;
    '(dest_client, migration_ok) <-
      (if migration_ok then login_destination f dest_client
       else ret (dest_client, migration_ok)) ;;
    '(new_list_uri, migration_ok) <-
      (if migration_ok then create_destination_list f dest_client
       else ret (new_list_uri, migration_ok)) ;;
    add_members dest_client migration_ok members_to_add new_list_uri ;;
    if negb migration_ok then
      show (st_error "Migration process stopped due to errors.")
    else ret tt.

End Script.

(** What a run leaves behind: the trace of events. *)
Definition events {S A : Type} (r : res A * S * list Event) : list Event := snd r.
Definition result {S A : Type} (r : res A * S * list Event) : res A := fst (fst r).
Definition final {S A : Type} (r : res A * S * list Event) : S := snd (fst r).

End Mig.

(* ================================================================== *)
(** * Reading a trace *)
(* ================================================================== *)

Module Trace.
Import Effects.

(** The create-record calls of a trace, oldest first. *)
Definition create_calls (tr : list Event)
    : list (CreateRecordData * outcome CreateRecordResponse) :=
  flat_map (fun ev => match ev with CreateRecord _ d r => [(d, r)] | _ => [] end) tr.

(** The list-membership requests of a trace. *)
Definition get_list_calls (tr : list Event) : list GetListParams :=
  flat_map (fun ev => match ev with GetList _ p _ => [p] | _ => [] end) tr.

(** The widget calls of a trace. *)
Definition widgets (tr : list Event) : list Widget :=
  flat_map (fun ev => match ev with Render w => [w] | _ => [] end) tr.

(** The purposes of the list records sent for creation. *)
Definition stored_purposes (tr : list Event) : list string :=
  flat_map (fun c => match record (fst c) with
                     | ListRecord r => [purpose r]
                     | ListitemRecord _ => []
                     end) (create_calls tr).

(** The subjects of the membership records sent for creation. *)
Definition attempted_members (tr : list Event) : list string :=
  flat_map (fun c => match record (fst c) with
                     | ListitemRecord r => [item_subject r]
                     | ListRecord _ => []
                     end) (create_calls tr).

(** The [createdAt] of every record sent for creation. *)
Definition stamps (tr : list Event) : list string :=
  map (fun c => createdAt (record (fst c))) (create_calls tr).

Definition is_raised {A} (o : outcome A) : bool :=
  match o with Raised _ => true | Returned _ => false end.

(** How many create-record calls raised, how many returned. *)
Definition failed_creates (tr : list Event) : nat :=
  List.length (filter (fun c => is_raised (snd c)) (create_calls tr)).

Definition succeeded_creates (tr : list Event) : nat :=
  List.length (filter (fun c => negb (is_raised (snd c))) (create_calls tr)).

Definition warnings (tr : list Event) : list string :=
  flat_map (fun w => match w with st_warning b => [b] | _ => [] end) (widgets tr).

(** The fractions handed to [progress_bar.progress]. *)
Definition progress_updates (tr : list Event) : list (nat * nat) :=
  flat_map (fun w => match w with progress_bar_progress n d _ => [(n, d)] | _ => [] end)
           (widgets tr).

End Trace.

(* ================================================================== *)
(** * A scripted outside, for running the script on concrete inputs *)
(* ================================================================== *)

Module Scripted.
Import Effects.

(** The answers still to be given, per operation. *)
Record Script := mk_script {
  logins : list (outcome ProfileView);
  pages : list (outcome (option GetListResponse));
  creations : list (outcome CreateRecordResponse)
}.

Definition exhausted {A} : outcome A :=
  Raised (PyException "ConnectionError" "no answer").

(** The scripted service, with a clock that reads [now]. *)
Definition world (now : Py.datetime) : Remote Script :=
  mk_remote Script
    (fun _ _ s =>
       match logins s with
       | [] => (exhausted, s)
       | r :: rest => (r, mk_script rest (pages s) (creations s))
       end)
    (fun _ _ s =>
       match pages s with
       | [] => (exhausted, s)
       | r :: rest => (r, mk_script (logins s) rest (creations s))
       end)
    (fun _ _ s =>
       match creations s with
       | [] => (exhausted, s)
       | r :: rest => (r, mk_script (logins s) (pages s) rest)
       end)
    (fun s => (now, s))
    (fun _ => true)
    (fun _ => "1 validation error for Record").

Definition alice : ProfileView := mk_profile "did:plc:alice" "alice.bsky.social".
Definition bob : ProfileView := mk_profile "did:plc:bob" "bob.bsky.social".
Definition member (d : string) : ListItemView := mk_item (mk_profile d (d ++ ".test")).

Definition noon : Py.datetime := Py.mk_datetime 2024 1 2 12 0 0 0.
Definition noon_and_a_bit : Py.datetime := Py.mk_datetime 2024 1 2 12 0 0 123456.

Definition form : Mig.Form :=
  Mig.mk_form "alice.bsky.social" "app-pw-a" "at://did:plc:alice/app.bsky.graph.list/3k"
              "bob.bsky.social" "app-pw-b" "Friends" "curatelist" "" eq_refl eq_refl eq_refl.

Definition source_client : Client := mk_client (Some alice).
Definition dest_client : Client := mk_client (Some bob).

Definition first_page : GetListResponse :=
  mk_page [member "did:plc:d1"; member "did:plc:d2"] (Some "cursor-1").
Definition last_page : GetListResponse := mk_page [member "did:plc:d3"] None.
Definition empty_page : GetListResponse := mk_page [] None.

Definition new_list : CreateRecordResponse :=
  mk_created "at://did:plc:bob/app.bsky.graph.list/1" "cid-1".


(** A page, then a failure. *)
Definition page_then_failure : Script :=
  mk_script [] [Returned (Some first_page); Raised (AtProtocolError "Rate Limit Exceeded")] [].

(** Both logins succeed, the source list is empty, the list is created. *)
Definition empty_source_list : Script :=
  mk_script [Returned alice; Returned bob] [Returned (Some empty_page)] [Returned new_list].

(** The source account logs in, the listing succeeds, the destination
    login is rejected. *)
Definition destination_login_rejected : Script :=
  mk_script [Returned alice; Raised (AtProtocolError "Invalid identifier or password")]
            [Returned (Some last_page)] [Returned new_list].

(** Three members over two pages; the second membership record is
    rejected. *)
Definition second_member_rejected : Script :=
  mk_script [Returned alice; Returned bob]
            [Returned (Some first_page); Returned (Some last_page)]
            [Returned new_list;
             Returned (mk_created "at://did:plc:bob/app.bsky.graph.listitem/1" "cid-2");
             Raised (AtProtocolError "Rate Limit Exceeded");
             Returned (mk_created "at://did:plc:bob/app.bsky.graph.listitem/3" "cid-4")].

End Scripted.

(* ================================================================== *)
(** * Notions the properties are stated with *)
(* ================================================================== *)

Module Spec.
Import Effects Mig.

(** ** Pagination *)

Section Pages.
Context {S : Type}.
Variable W : Remote S.
Variable client : Client.
Variable list_uri : string.

(** [pages_served s cur ps s' cur']: asked for pages of 100 from the
    cursor [cur] on and then from the cursor of each page in turn, the
    service in state [s] answers with the pages [ps], and is left in state
    [s'] with [cur'] the cursor to ask for next. *)
Inductive pages_served : S -> option string -> list GetListResponse -> S -> option string -> Prop :=
| served_nothing s cur : pages_served s cur [] s cur
| served_page s cur p s1 ps s2 cur2 :
    api_get_list W client (mk_params list_uri 100 cur) s = (Returned (Some p), s1) ->
    pages_served s1 (cursor p) ps s2 cur2 ->
    pages_served s cur (p :: ps) s2 cur2.

End Pages.

(** A page after which the listing goes on: it has items and a cursor. *)
Definition continues (p : GetListResponse) : Prop :=
  items p <> [] /\ Py.truthy_opt_str (cursor p) = true.

(** The member identifiers of a page, in the order the page lists them. *)
Definition page_dids (p : GetListResponse) : list string := map item_did (items p).

(** The events of fetching the pages [ps] one after the other, starting
    from the cursor [cur]: each request, its answer, and the pause. *)
Fixpoint page_requests (client : Client) (list_uri : string) (cur : option string)
    (ps : list GetListResponse) : list Event :=
  match ps with
  | [] => []
  | p :: ps' =>
      GetList client (mk_params list_uri 100 cur) (Returned (Some p))
      :: Sleep 100 :: page_requests client list_uri (cursor p) ps'
  end.

(** The error [get_list_members] shows for an exception [e]. *)
Definition fetch_error (list_uri : string) (e : exn) : Widget :=
  match e with
  | AtProtocolError msg =>
      st_error ("Error fetching list members from " ++ list_uri ++ ": " ++ msg)
  | PyException _ msg =>
      st_error ("An unexpected error occurred while fetching members: " ++ msg)
  end.

(** ** Shapes of timestamps *)

Definition is_digit (c : ascii) : bool :=
  ((48 <=? N_of_ascii c) && (N_of_ascii c <=? 57))%N.

(** [matches pattern s]: [s] has the length of [pattern], a digit where
    the pattern has [d] and the pattern's own character elsewhere. *)
Fixpoint matches (pattern s : string) : bool :=
  match pattern, s with
  | EmptyString, EmptyString => true
  | String p pattern', String c s' =>
      (if Ascii.eqb p "d" then is_digit c else Ascii.eqb p c) && matches pattern' s'
  | _, _ => false
  end.

(** ISO-8601 in UTC, whole seconds, [Z] suffix. *)
Definition seconds_Z_form (s : string) : bool := matches "dddd-dd-ddTdd:dd:ddZ" s.

(** The same with six digits of microseconds. *)
Definition microseconds_Z_form (s : string) : bool := matches "dddd-dd-ddTdd:dd:dd.ddddddZ" s.

Definition utc_Z_form (s : string) : bool := seconds_Z_form s || microseconds_Z_form s.

(** Every character of [s] passes [f]. *)
Fixpoint all_chars (f : ascii -> bool) (s : string) : bool :=
  match s with
  | EmptyString => true
  | String c s' => f c && all_chars f s'
  end.

Definition not_plus (c : ascii) : bool := negb (Ascii.eqb c "+").

(** The [w] low-order decimal digits of [n], most significant first. *)
Fixpoint low_digits (w : nat) (n : N) : string :=
  match w with
  | O => EmptyString
  | Datatypes.S w' => low_digits w' (n / 10) ++ String (Py.digit_char (n mod 10)) EmptyString
  end.

(** [needle in hay] *)
Fixpoint contains (needle hay : string) : bool :=
  String.prefix needle hay ||
  match hay with
  | EmptyString => false
  | String _ hay' => contains needle hay'
  end.

(** ** Order of the create-record calls *)

(** [guarded created calls]: every membership record among [calls] names
    a list that an earlier, successful creation of a list record returned
    ([created] is the reference returned last, if any). *)
Fixpoint guarded (created : option string)
    (calls : list (CreateRecordData * outcome CreateRecordResponse)) : bool :=
  match calls with
  | [] => true
  | (d, r) :: rest =>
      match record d with
      | ListRecord _ =>
          guarded (match r with Returned resp => Some (uri resp) | Raised _ => created end) rest
      | ListitemRecord item =>
          match created with
          | Some u => String.eqb (item_list item) u && guarded created rest
          | None => false
          end
      end
  end.

(** The call [c] sends a membership record for the list [u]. *)
Definition item_of (u : string) (c : CreateRecordData * outcome CreateRecordResponse) : bool :=
  match record (fst c) with
  | ListitemRecord item =>
      String.eqb (item_list item) u && String.eqb (collection (fst c)) AppBskyGraphListitem
  | ListRecord _ => false
  end.

(** ** What the operator is shown *)

(** The error a login block shows for an exception [e]. *)
Definition login_error (account : string) (e : exn) : Widget :=
  match e with
  | AtProtocolError msg => st_error ("Login failed for " ++ account ++ ": " ++ msg)
  | PyException _ msg =>
      st_error ("An unexpected error occurred during " ++ account ++ " login: " ++ msg)
  end.

(** The events of a login block whose login call was answered by [r]. *)
Definition login_events (status_label account handle_ password : string)
    (r : outcome ProfileView) : list Event :=
  [Render (st_status status_label);
   Render (st_write ("Attempting login for " ++ handle_ ++ "..."));
   Login handle_ password r]
  ++ match r with
     | Returned p =>
         [Render (st_write ("Logged in as " ++ handle p ++ " (" ++ did p ++ ")"));
          Render (status_update "Login Successful!" "complete" false)]
     | Raised e =>
         [Render (login_error account e);
          Render (status_update "Login Failed!" "error" true)]
     end.

Definition source_login_events (f : Form) : outcome ProfileView -> list Event :=
  login_events "Logging into Source Account (Account A)..." "Account A"
    (source_handle f) (source_password f).

Definition dest_login_events (f : Form) : outcome ProfileView -> list Event :=
  login_events "Logging into Destination Account (Account B)..." "Account B"
    (dest_handle f) (dest_password f).

(** The events around a listing that returned [members]. *)
Definition fetch_events (f : Form) (listing : list Event) (members : list string)
    : list Event :=
  [Render (st_status ("Fetching members from list " ++ source_list_uri f ++ "..."))]
  ++ listing
  ++ [Render (st_write ("Found " ++ Py.str_of_nat (List.length members)
                        ++ " members in the source list."));
      Render (status_update "Fetched Members Successfully!" "complete" false)].

Definition is_progress_bar (w : Widget) : bool :=
  match w with
  | st_progress _ _ | progress_bar_progress _ _ _ | progress_bar_empty => true
  | _ => false
  end.

Definition nothing_to_add : Widget :=
  st_warning "No members found in the source list or new list wasn't created. Nothing to add.".

Definition migration_stopped : Widget :=
  st_error "Migration process stopped due to errors.".

(** The texts a widget call carries. *)
Definition widget_texts (w : Widget) : list string :=
  match w with
  | st_error b | st_warning b | st_success b | st_info b | st_write b => [b]
  | st_balloons | progress_bar_empty => []
  | st_status l => [l]
  | status_update l st _ => [l; st]
  | st_progress _ t | progress_bar_progress _ _ t => [t]
  end.

(** Some text shown during the run contains [label]. *)
Definition shown (label : string) (tr : list Event) : bool :=
  existsb (fun w => existsb (contains label) (widget_texts w)) (Trace.widgets tr).

End Spec.

(* ================================================================== *)
(** * Further notions, for the properties beyond the pagination,
      the counters and the order of the record creations *)
(* ================================================================== *)

Module Observed.
Import Effects Mig.

(** ** Listing *)

(** The list-membership requests of a trace with their answers. *)
Definition get_list_exchanges (tr : list Event)
    : list (GetListParams * outcome (option GetListResponse)) :=
  flat_map (fun ev => match ev with GetList _ p r => [(p, r)] | _ => [] end) tr.

Definition opt_str_eqb (a b : option string) : bool :=
  match a, b with
  | None, None => true
  | Some x, Some y => String.eqb x y
  | _, _ => false
  end.

(** The answer is a page with items and a cursor: the listing goes on. *)
Definition listing_goes_on (r : outcome (option GetListResponse)) : bool :=
  match r with
  | Returned (Some page) => Py.truthy_list (items page) && Py.truthy_opt_str (cursor page)
  | _ => false
  end.

Definition answered_cursor (r : outcome (option GetListResponse)) : option string :=
  match r with
  | Returned (Some page) => cursor page
  | _ => None
  end.

(** [chained list_uri cur xs]: every request of [xs] asks for [list_uri]
    with limit 100; the first carries the cursor [cur], each later one the
    cursor of the answer before it; and an answer on which the listing
    does not go on is the last exchange. *)
Fixpoint chained (list_uri : string) (cur : option string)
    (xs : list (GetListParams * outcome (option GetListResponse))) : bool :=
  match xs with
  | [] => true
  | (p, r) :: rest =>
      String.eqb (params_list p) list_uri
      && Nat.eqb (params_limit p) 100
      && opt_str_eqb (params_cursor p) cur
      && (if listing_goes_on r then chained list_uri (answered_cursor r) rest
          else match rest with [] => true | _ :: _ => false end)
  end.

(** The milliseconds slept during a run, in total. *)
Definition total_sleep (tr : list Event) : nat :=
  list_sum (flat_map (fun ev => match ev with Sleep ms => [ms] | _ => [] end) tr).

(** ** Logins *)

(** The login attempts of a trace: handle, password, and whether the
    login returned. *)
Definition login_attempts (tr : list Event) : list (string * string * bool) :=
  flat_map (fun ev => match ev with
                      | Login h p r => [(h, p, negb (Trace.is_raised r))]
                      | _ => []
                      end) tr.

(** ** Records *)

(** The error [create_new_list] shows for an exception [e]. *)
Definition create_error (e : exn) : Widget :=
  match e with
  | AtProtocolError msg => st_error ("Error creating new list: " ++ msg)
  | PyException _ msg =>
      st_error ("An unexpected error occurred while creating the list: " ++ msg)
  end.

(** The text of the warning [add_members_to_list] shows when the record
    for [member_did] failed with [e]. *)
Definition member_warning (member_did : string) (e : exn) : string :=
  match e with
  | AtProtocolError msg => "Failed to add member " ++ member_did ++ ": " ++ msg
  | PyException _ msg => "Unexpected error adding member " ++ member_did ++ ": " ++ msg
  end.

(** The exception of reading [did] off a client that never logged in. *)
Definition no_login : exn :=
  PyException "AttributeError" "'NoneType' object has no attribute 'did'".

(** The membership records of a trace whose creation raised: the member
    and the exception. *)
Definition failed_members (tr : list Event) : list (string * exn) :=
  flat_map (fun c => match record (fst c), snd c with
                     | ListitemRecord item, Raised e => [(item_subject item, e)]
                     | _, _ => []
                     end) (Trace.create_calls tr).

(** The call is made in the repository [owner]. *)
Definition sent_as (owner : string) (c : CreateRecordData * outcome CreateRecordResponse)
    : bool :=
  String.eqb (repo (fst c)) owner.

(** The list record the handler sends for the form [f], as [owner], at
    the instant [now]. *)
Definition list_data (f : Form) (owner : ProfileView) (now : Py.datetime) : CreateRecordData :=
  mk_data (did owner) AppBskyGraphList
    (ListRecord (mk_graph_list (dest_list_name f) (normalize_purpose (dest_list_purpose f))
                   (dest_list_desc f) (created_at now))).

(** The events of the stage that creates the list, when the call for the
    record [d] was answered by [r]. *)
Definition creation_events (f : Form) (client : Client) (d : CreateRecordData)
    (r : outcome CreateRecordResponse) : list Event :=
  [Render (st_status ("Creating new list '" ++ dest_list_name f ++ "' on Account B..."));
   CreateRecord client d r]
  ++ match r with
     | Returned created =>
         Render (st_success ("Successfully created new list: " ++ uri created))
         :: (if Py.truthy_str (uri created)
             then [Render (st_write ("New list created with URI: " ++ uri created));
                   Render (status_update "List Creation Successful!" "complete" false)]
             else [Render (st_error "Failed to create the new list. Cannot continue.");
                   Render (status_update "List Creation Failed!" "error" true)])
     | Raised e =>
         [Render (create_error e);
          Render (st_error "Failed to create the new list. Cannot continue.");
          Render (status_update "List Creation Failed!" "error" true)]
     end.

(** The events around a listing that failed. *)
Definition fetch_failed_events (f : Form) (listing : list Event) : list Event :=
  [Render (st_status ("Fetching members from list " ++ source_list_uri f ++ "..."))]
  ++ listing
  ++ [Render (st_error "Failed to fetch members. Cannot continue.");
      Render (status_update "Fetching Members Failed!" "error" true)].

(** The closing report of a run that added members. *)
Definition summary (success failed : nat) : list Event :=
  [Render (st_success ("Finished adding members. Successfully added: "
                       ++ Py.str_of_nat success ++ ", Failed: " ++ Py.str_of_nat failed));
   Render st_balloons].

Definition is_raise {A : Type} (r : res A) : bool :=
  match r with Raise _ => true | _ => false end.

(** The library takes the list record [create_new_list] builds from
    these arguments: a name of 1 to 64 characters, a description of at
    most 3000, and a purpose that, once namespaced, is a known one or one
    this version of the library lets through. *)
Definition list_accepted {S : Type} (W : Remote S) (name description purpose : string) : bool :=
  valid_list_fields name description && valid_list_purpose W (normalize_purpose purpose).

(** The exception of building a list record whose fields are refused. *)
Definition invalid_record {S : Type} (W : Remote S) (name purpose description createdAt : string)
    : exn :=
  PyException "ValidationError"
    (validation_text W (mk_graph_list name purpose description createdAt)).

(** The instants [add_members_to_list] reads off the clock, one at the
    start of each turn of its loop, in order: the clock is read in the
    state the turn before has left, after the create-record call of that
    turn when the client is logged in. *)
Fixpoint clock_readings {S : Type} (W : Remote S) (client : Client) (list_uri : string)
    (members : list string) (s : S) : list Py.datetime :=
  match members with
  | [] => []
  | member_did :: rest =>
      let now := fst (api_now W s) in
      let s1 := snd (api_now W s) in
      let s2 :=
        match me client with
        | Some p =>
            snd (api_create_record W client
                   (mk_data (did p) AppBskyGraphListitem
                      (ListitemRecord (mk_graph_listitem member_did list_uri (created_at now))))
                   s1)
        | None => s1
        end in
      now :: clock_readings W client list_uri rest s2
  end.

(** The widget reports how many members were added and how many failed,
    or is the balloons that follow that report. *)
Definition is_summary (w : Widget) : bool :=
  match w with
  | st_success body => Py.startswith body "Finished adding members."
  | st_balloons => true
  | _ => false
  end.

End Observed.

(* ================================================================== *)
(** * More scripted runs *)
(* ================================================================== *)

Module Scenarios.
Import Effects Mig Scripted.

(** A page whose cursor is the empty string. *)
Definition page_with_empty_cursor : GetListResponse :=
  mk_page [member "did:plc:d3"] (Some "").

(** A page, a page with an empty cursor, and a page never asked for. *)
Definition empty_cursor_then_more : Script :=
  mk_script []
    [Returned (Some first_page); Returned (Some page_with_empty_cursor);
     Returned (Some last_page)] [].

(** A page, then no response. *)
Definition page_then_no_response : Script :=
  mk_script [] [Returned (Some first_page); Returned None] [].

Definition rejected : exn := AtProtocolError "Invalid identifier or password".
Definition rate_limited : exn := AtProtocolError "Rate Limit Exceeded".

(** The name of the new list was left empty. *)
Definition form_without_name : Form :=
  mk_form "alice.bsky.social" "app-pw-a" "at://did:plc:alice/app.bsky.graph.list/3k"
          "bob.bsky.social" "app-pw-b" "" "curatelist" "A description" eq_refl eq_refl eq_refl.

(** The source login is rejected; everything else would succeed. *)
Definition source_login_rejected : Script :=
  mk_script [Raised rejected; Returned bob] [Returned (Some last_page)] [Returned new_list].

(** The listing fails on its first request. *)
Definition listing_rate_limited : Script :=
  mk_script [Returned alice; Returned bob] [Raised rate_limited] [Returned new_list].

(** The list record is rejected. *)
Definition list_record_rejected : Script :=
  mk_script [Returned alice; Returned bob] [Returned (Some last_page)]
            [Raised (AtProtocolError "Invalid record")].

(** The list record is accepted, but the answer carries no reference. *)
Definition list_without_reference : Script :=
  mk_script [Returned alice; Returned bob] [Returned (Some last_page)]
            [Returned (mk_created "" "cid-1");
             Returned (mk_created "at://did:plc:bob/app.bsky.graph.listitem/1" "cid-2")].

(** The record the scripted destination account sends for [form] at noon. *)
Definition friends_list : CreateRecordData := Observed.list_data form bob noon.

(** What is left of a script after a login, after [n] listing requests,
    after a create-record call. *)
Definition after_login (sc : Script) : Script :=
  mk_script (tl (logins sc)) (pages sc) (creations sc).

Definition after_requests (n : nat) (sc : Script) : Script :=
  mk_script (logins sc) (skipn n (pages sc)) (creations sc).

Definition after_creation (sc : Script) : Script :=
  mk_script (logins sc) (pages sc) (tl (creations sc)).

(** The one request that lists [last_page] for [form]. *)
Definition one_page_listing : list Event :=
  [GetList source_client (mk_params (source_list_uri form) 100 None)
     (Returned (Some last_page))].

(** The two requests that list [first_page] and [last_page] for [form]. *)
Definition two_page_listing : list Event :=
  Spec.page_requests source_client (source_list_uri form) None [first_page]
  ++ [GetList source_client (mk_params (source_list_uri form) 100 (Some "cursor-1"))
        (Returned (Some last_page))].

End Scenarios.

(* ================================================================== *)
(** * Facts about traces and about the monad *)
(* ================================================================== *)

Module TraceFacts.
Import Effects Trace.

Lemma create_calls_app t1 t2 : create_calls (t1 ++ t2) = create_calls t1 ++ create_calls t2.
Proof. apply flat_map_app. Qed.

Lemma get_list_calls_app t1 t2 :
  get_list_calls (t1 ++ t2) = get_list_calls t1 ++ get_list_calls t2.
Proof. apply flat_map_app. Qed.

Lemma widgets_app t1 t2 : widgets (t1 ++ t2) = widgets t1 ++ widgets t2.
Proof. apply flat_map_app. Qed.

Lemma stored_purposes_app t1 t2 :
  stored_purposes (t1 ++ t2) = stored_purposes t1 ++ stored_purposes t2.
Proof. unfold stored_purposes. now rewrite create_calls_app, flat_map_app. Qed.

Lemma attempted_members_app t1 t2 :
  attempted_members (t1 ++ t2) = attempted_members t1 ++ attempted_members t2.
Proof. unfold attempted_members. now rewrite create_calls_app, flat_map_app. Qed.

Lemma stamps_app t1 t2 : stamps (t1 ++ t2) = stamps t1 ++ stamps t2.
Proof. unfold stamps. now rewrite create_calls_app, map_app. Qed.

Lemma failed_creates_app t1 t2 :
  failed_creates (t1 ++ t2) = failed_creates t1 + failed_creates t2.
Proof. unfold failed_creates. now rewrite create_calls_app, filter_app, length_app. Qed.

Lemma succeeded_creates_app t1 t2 :
  succeeded_creates (t1 ++ t2) = succeeded_creates t1 + succeeded_creates t2.
Proof. unfold succeeded_creates. now rewrite create_calls_app, filter_app, length_app. Qed.

Lemma warnings_app t1 t2 : warnings (t1 ++ t2) = warnings t1 ++ warnings t2.
Proof. unfold warnings. now rewrite widgets_app, flat_map_app. Qed.

Lemma progress_updates_app t1 t2 :
  progress_updates (t1 ++ t2) = progress_updates t1 ++ progress_updates t2.
Proof. unfold progress_updates. now rewrite widgets_app, flat_map_app. Qed.

End TraceFacts.

(** ** [createdAt] on two instants *)

Example created_at_whole_second :
  created_at (Py.mk_datetime 2024 1 2 3 4 5 0) = "2024-01-02T03:04:05Z".
Proof. reflexivity. Qed.

Example created_at_with_microseconds :
  created_at (Py.mk_datetime 2024 1 2 3 4 5 123456) = "2024-01-02T03:04:05.123456Z".
Proof. vm_compute. reflexivity. Qed.


(* ================================================================== *)
(** * Properties of [create_new_list] *)
(* ================================================================== *)

Import Effects Mig Trace Spec TraceFacts.

Lemma startswith_append (p rest : string) : Py.startswith (p ++ rest) p = true.
Proof.
  unfold Py.startswith.
  induction p as [|a p IH]; simpl.
  - now destruct rest.
  - destruct (ascii_dec a a) as [_|ne]; [exact IH | now elim ne].
Qed.

Lemma normalize_purpose_namespaced (purpose : string) :
  Py.startswith (normalize_purpose purpose) purpose_prefix = true.
Proof.
  unfold normalize_purpose.
  destruct (Py.startswith purpose purpose_prefix) eqn:E; cbn [negb].
  - exact E.
  - apply startswith_append.
Qed.

Lemma normalize_purpose_unchanged (rest : string) :
  normalize_purpose (purpose_prefix ++ rest) = (purpose_prefix ++ rest)%string.
Proof.
  unfold normalize_purpose. now rewrite startswith_append.
Qed.

Import Observed.

Section CreateNewList.
Context {S : Type}.
Variable W : Remote S.

(** [create_new_list], by cases on the fields, on the login and on the
    answer.  The clock is read before the record is built. *)
Lemma create_new_list_run (client : Client) (name description purpose : string) (s : S) :
  create_new_list W client name description purpose s
  = if list_accepted W name description purpose then
      match me client with
      | None => (Ret None, snd (api_now W s), [Render (create_error no_login)])
      | Some p =>
          let d := mk_data (did p) AppBskyGraphList
                     (ListRecord (mk_graph_list name (normalize_purpose purpose) description
                                    (created_at (fst (api_now W s))))) in
          match api_create_record W client d (snd (api_now W s)) with
          | (Returned created, s2) =>
              (Ret (Some (uri created)), s2,
               [CreateRecord client d (Returned created);
                Render (st_success ("Successfully created new list: " ++ uri created))])
          | (Raised e, s2) =>
              (Ret None, s2, [CreateRecord client d (Raised e); Render (create_error e)])
          end
      end
    else
      (Ret None, snd (api_now W s),
       [Render (create_error
                  (invalid_record W name (normalize_purpose purpose) description
                     (created_at (fst (api_now W s)))))]).
Proof.
  unfold create_new_list, try_except, bind, datetime_now, new_list_record, client_me,
    create_record, show, emit, ret, raise, list_record_valid, list_accepted, invalid_record.
  destruct (api_now W s) as [now s1].
  cbn [fst snd Effects.name Effects.description Effects.purpose].
  destruct (valid_list_fields name description
            && valid_list_purpose W (normalize_purpose purpose)); [|reflexivity].
  destruct (me client) as [p|]; [|reflexivity].
  cbn zeta.
  destruct (api_create_record W client _ s1) as [[created | [msg | cls msg]] s2];
    reflexivity.
Qed.

(** The one call [create_new_list] makes when the fields are accepted and
    the client is logged in. *)
Lemma create_new_list_calls (p : ProfileView) (name description purpose : string) (s : S) :
  list_accepted W name description purpose = true ->
  create_calls (events (create_new_list W (mk_client (Some p)) name description purpose s))
  = let d := mk_data (did p) AppBskyGraphList
               (ListRecord (mk_graph_list name (normalize_purpose purpose) description
                              (created_at (fst (api_now W s))))) in
    [(d, fst (api_create_record W (mk_client (Some p)) d (snd (api_now W s))))].
Proof.
  intro Hvalid. rewrite create_new_list_run, Hvalid. cbn [me]. cbn zeta.
  destruct (api_create_record W _ _ (snd (api_now W s))) as [[created | e] s2];
    reflexivity.
Qed.

(** Without a login nothing is sent. *)
Lemma create_new_list_calls_no_login (name description purpose : string) (s : S) :
  create_calls (events (create_new_list W (mk_client None) name description purpose s)) = [].
Proof.
  rewrite create_new_list_run. cbn [me].
  destruct (list_accepted W name description purpose); reflexivity.
Qed.

(** With a refused name or description nothing is sent either. *)
Lemma create_new_list_calls_invalid (client : Client) (name description purpose : string)
    (s : S) :
  list_accepted W name description purpose = false ->
  create_calls (events (create_new_list W client name description purpose s)) = [].
Proof.
  intro Hinvalid. rewrite create_new_list_run, Hinvalid. reflexivity.
Qed.

End CreateNewList.

(** A record with a name and a description in range and one of the two
    purposes of the form is accepted. *)
Lemma list_accepted_known {S : Type} (W : Remote S) (name description purpose : string) :
  valid_list_fields name description = true ->
  existsb (String.eqb (normalize_purpose purpose)) known_list_purposes = true ->
  list_accepted W name description purpose = true.
Proof.
  intros Hfields Hknown. unfold list_accepted, valid_list_purpose.
  now rewrite Hfields, Hknown.
Qed.

(** A name or a description out of range is refused, whatever the
    purpose. *)
Lemma list_accepted_fields {S : Type} (W : Remote S) (name description purpose : string) :
  valid_list_fields name description = false ->
  list_accepted W name description purpose = false.
Proof. intro Hfields. unfold list_accepted. now rewrite Hfields. Qed.

(** The purposes [create_new_list] stores for a logged-in client, when the
    record is accepted. *)
Lemma create_new_list_stored {S : Type} (W : Remote S) (p : ProfileView)
    (name description purpose : string) (s : S) :
  list_accepted W name description purpose = true ->
  stored_purposes (events (create_new_list W (mk_client (Some p)) name description purpose s))
  = [normalize_purpose purpose].
Proof.
  intro Hvalid. unfold stored_purposes.
  now rewrite (create_new_list_calls W p name description purpose s Hvalid).
Qed.

(** C5. [create_new_list] always stores the purpose as a namespaced tag.
    Whatever the inputs and whatever the service answers, every list
    record it sends carries [normalize_purpose purpose], which starts
    with ["app.bsky.graph.defs#"].  When the record is accepted and the
    client is logged in, exactly one record is stored and its purpose is:
    for any raw input, one that does not start with the prefix, the
    prefix followed by the input; for any input that already starts with
    the prefix, the input unchanged.  In particular, with a name and a
    description in range, ["curatelist"] is stored as
    ["app.bsky.graph.defs#curatelist"] and ["modlist"] as
    ["app.bsky.graph.defs#modlist"], and these two namespaced tags are
    stored as they are. *)
Theorem create_new_list_namespaced_purpose :
  forall (S : Type) (W : Remote S) (client : Client) (p : ProfileView)
         (name description purpose : string) (s : S),
    (Forall (eq (normalize_purpose purpose))
       (stored_purposes (events (create_new_list W client name description purpose s)))
     /\ Py.startswith (normalize_purpose purpose) "app.bsky.graph.defs#" = true)
    /\ (list_accepted W name description purpose = true ->
        stored_purposes
          (events (create_new_list W (mk_client (Some p)) name description purpose s))
        = [normalize_purpose purpose]
        /\ (Py.startswith purpose "app.bsky.graph.defs#" = false ->
            stored_purposes
              (events (create_new_list W (mk_client (Some p)) name description purpose s))
            = [("app.bsky.graph.defs#" ++ purpose)%string])
        /\ (Py.startswith purpose "app.bsky.graph.defs#" = true ->
            stored_purposes
              (events (create_new_list W (mk_client (Some p)) name description purpose s))
            = [purpose]))
    /\ (valid_list_fields name description = true ->
        stored_purposes
          (events (create_new_list W (mk_client (Some p)) name description "curatelist" s))
        = ["app.bsky.graph.defs#curatelist"]
        /\ stored_purposes
             (events (create_new_list W (mk_client (Some p)) name description "modlist" s))
           = ["app.bsky.graph.defs#modlist"]
        /\ stored_purposes
             (events (create_new_list W (mk_client (Some p)) name description
                        "app.bsky.graph.defs#curatelist" s))
           = ["app.bsky.graph.defs#curatelist"]
        /\ stored_purposes
             (events (create_new_list W (mk_client (Some p)) name description
                        "app.bsky.graph.defs#modlist" s))
           = ["app.bsky.graph.defs#modlist"]).
Proof.
  intros S W client p name description purpose s.
  split; [split|split].
  - destruct (list_accepted W name description purpose) eqn:Hvalid.
    + destruct client as [[p'|]]; unfold stored_purposes.
      * rewrite (create_new_list_calls W p' name description purpose s Hvalid).
        simpl. now constructor.
      * rewrite create_new_list_calls_no_login. constructor.
    + unfold stored_purposes.
      rewrite (create_new_list_calls_invalid W client name description purpose s Hvalid).
      constructor.
  - apply normalize_purpose_namespaced.
  - intro Hvalid.
    rewrite (create_new_list_stored W p name description purpose s Hvalid).
    repeat split.
    + intro Hraw. unfold normalize_purpose, purpose_prefix. now rewrite Hraw.
    + intro Hpre. unfold normalize_purpose, purpose_prefix. now rewrite Hpre.
  - intro Hfields.
    repeat split;
      (rewrite create_new_list_stored;
       [reflexivity | now apply list_accepted_known]).
Qed.

(** C5 on the scripted service: the name ["Friends"], no description, the
    raw purpose ["modlist"]. *)
Lemma create_new_list_namespaced_purpose_witness :
  list_accepted (Scripted.world Scripted.noon) "Friends" "" "modlist" = true
  /\ valid_list_fields "Friends" "" = true
  /\ Py.startswith "modlist" "app.bsky.graph.defs#" = false
  /\ stored_purposes
       (events (create_new_list (Scripted.world Scripted.noon)
                  (mk_client (Some Scripted.bob)) "Friends" "" "modlist"
                  (Scripted.mk_script [] [] [])))
     = ["app.bsky.graph.defs#modlist"]
  /\ stored_purposes
       (events (create_new_list (Scripted.world Scripted.noon)
                  (mk_client (Some Scripted.bob)) "Friends" "" "curatelist"
                  (Scripted.mk_script [] [] [])))
     = ["app.bsky.graph.defs#curatelist"].
Proof.
  destruct (create_new_list_namespaced_purpose Scripted.Script (Scripted.world Scripted.noon)
              (mk_client (Some Scripted.bob)) Scripted.bob "Friends" "" "modlist"
              (Scripted.mk_script [] [] [])) as (_ & Hraw & Hknown).
  destruct (Hraw eq_refl) as (_ & Hprefixed & _).
  destruct (Hknown eq_refl) as (Hcurate & _).
  split; [reflexivity|]. split; [reflexivity|]. split; [reflexivity|].
  split; [exact (Hprefixed eq_refl) | exact Hcurate].
Defined.

(* ================================================================== *)
(** * Properties of [add_members_to_list] *)
(* ================================================================== *)

Section AddMembers.
Context {S : Type}.
Variable W : Remote S.
Variable client : Client.
Variable list_uri : string.

(** One turn of the [try] statement: it ends normally, moves exactly one
    of the counters by one, warns exactly when it counts a failure, and
    sends at most one record, for the member at hand. *)
Lemma try_add_member_spec (member_did : string) (sc fc : nat) (s : S) :
  exists sc' fc' s' tr,
    try_add_member W client list_uri member_did sc fc s = (Ret (sc', fc'), s', tr)
    /\ sc' + fc' = sc + fc + 1
    /\ fc' = fc + List.length (warnings tr)
    /\ progress_updates tr = []
    /\ forallb (item_of list_uri) (create_calls tr) = true
    /\ match me client with
       | Some _ =>
           attempted_members tr = [member_did]
           /\ fc' = fc + failed_creates tr
           /\ sc' = sc + succeeded_creates tr
       | None => create_calls tr = [] /\ sc' = sc
       end.
Proof.
  unfold try_add_member, try_except, bind, datetime_now, client_me, create_record,
    show, sleep, emit, ret, raise.
  destruct (api_now W s) as [now s1].
  destruct client as [[p|]]; cbn [me].
  - destruct (api_create_record W _ _ s1) as [[resp|[msg|cls msg]] s2]; cbn;
      do 4 eexists; (split; [reflexivity|]);
      unfold failed_creates, succeeded_creates, item_of; cbn;
      rewrite ?String.eqb_refl; repeat split; lia.
  - cbn. do 4 eexists. split; [reflexivity|].
    cbn. repeat split; lia.
Qed.

Lemma add_members_loop_spec (total : nat) :
  forall (members : list string) (i sc fc : nat) (s : S),
    i + List.length members <= total ->
    exists sc' fc' s' tr,
      add_members_loop W client list_uri total i members sc fc s = (Ret (sc', fc'), s', tr)
      /\ sc' + fc' = sc + fc + List.length members
      /\ fc' = fc + List.length (warnings tr)
      /\ progress_updates tr
         = map (fun k => (k, total)) (seq (i + 1) (List.length members))
      /\ forallb (item_of list_uri) (create_calls tr) = true
      /\ match me client with
         | Some _ =>
             attempted_members tr = members
             /\ fc' = fc + failed_creates tr
             /\ sc' = sc + succeeded_creates tr
         | None => create_calls tr = [] /\ sc' = sc
         end.
Proof.
  induction members as [|member_did rest IH]; intros i sc fc s Hle.
  - cbn. exists sc, fc, s, []. cbn.
    repeat split; try lia. destruct (me client); repeat split; cbn; lia.
  - cbn [List.length] in Hle.
    cbn [add_members_loop]. unfold bind at 1.
    destruct (try_add_member_spec member_did sc fc s)
      as (sc1 & fc1 & s1 & t1 & E1 & Hsum1 & Hw1 & Hp1 & Hc1 & Hme1).
    rewrite E1.
    unfold truediv.
    destruct (Nat.eqb total 0) eqn:Ez; [apply Nat.eqb_eq in Ez; lia|].
    unfold bind at 1, ret at 1. unfold bind at 1, show at 1, emit at 1.
    destruct (IH (i + 1) sc1 fc1 s1 ltac:(lia))
      as (sc2 & fc2 & s2 & t2 & E2 & Hsum2 & Hw2 & Hp2 & Hc2 & Hme2).
    rewrite E2.
    do 4 eexists. split; [reflexivity|].
    rewrite !warnings_app, !progress_updates_app, !create_calls_app, !length_app,
      !forallb_app, Hp1, Hp2, Hc1, Hc2.
    cbn [List.length seq map].
    repeat split; try (cbn; lia).
    + cbn. do 2 f_equal. now rewrite Nat.add_1_r.
    + destruct (me client).
      * destruct Hme1 as (Ha1 & Hf1 & Hs1), Hme2 as (Ha2 & Hf2 & Hs2).
        rewrite !attempted_members_app, !failed_creates_app, !succeeded_creates_app,
          Ha1, Ha2.
        cbn. repeat split; lia.
      * destruct Hme1 as (Hn1 & Hs1), Hme2 as (Hn2 & Hs2).
        rewrite Hn1, Hn2. split; [reflexivity | lia].
Qed.

End AddMembers.

Section AddMembersToList.
Context {S : Type}.
Variable W : Remote S.
Variable client : Client.
Variable list_uri : string.

(** The whole function: the loop between the two calls on the progress
    bar. *)
Lemma add_members_to_list_spec (members : list string) (s : S) :
  exists sc fc s' tr,
    add_members_to_list W client list_uri members s = (Ret (sc, fc), s', tr)
    /\ sc + fc = List.length members
    /\ fc = List.length (warnings tr)
    /\ progress_updates tr
       = map (fun k => (k, List.length members)) (seq 1 (List.length members))
    /\ forallb (item_of list_uri) (create_calls tr) = true
    /\ match me client with
       | Some _ =>
           attempted_members tr = members
           /\ fc = failed_creates tr
           /\ sc = succeeded_creates tr
       | None => create_calls tr = [] /\ sc = 0
       end.
Proof.
  unfold add_members_to_list, bind, show, emit, ret.
  destruct (add_members_loop_spec W client list_uri (List.length members) members 0 0 0 s
              ltac:(lia))
    as (sc & fc & s' & tr & E & Hsum & Hw & Hp & Hc & Hme).
  rewrite E.
  do 4 eexists. split; [reflexivity|].
  rewrite app_nil_r.
  change (?e :: tr ++ ?l) with ([e] ++ tr ++ l).
  rewrite !warnings_app, !progress_updates_app, !create_calls_app, !length_app,
    !forallb_app, !attempted_members_app, !failed_creates_app, !succeeded_creates_app,
    Hp, Hc.
  cbn. rewrite !app_nil_r, ?Nat.add_0_r.
  repeat split; try lia.
  destruct (me client).
  - destruct Hme as (Ha & Hf & Hs). repeat split; [exact Ha | lia | lia].
  - exact Hme.
Qed.

End AddMembersToList.

(** The division of the progress fraction does fail on a zero total. *)
Example truediv_by_zero :
  truediv 1 0 tt = (Raise (PyException "ZeroDivisionError" "division by zero"), tt, []).
Proof. reflexivity. Qed.

(** C3. Whatever the service answers to each create-record call,
    [add_members_to_list] returns a pair (success count, failure count)
    whose sum is the length of the input member list. *)
Theorem add_members_to_list_counts_sum :
  forall (S : Type) (W : Remote S) (client : Client) (list_uri : string)
         (members : list string) (s : S),
    exists success_count fail_count,
      result (add_members_to_list W client list_uri members s)
      = Ret (success_count, fail_count)
      /\ success_count + fail_count = List.length members.
Proof.
  intros S W client list_uri members s.
  destruct (add_members_to_list_spec W client list_uri members s)
    as (sc & fc & s' & tr & E & Hsum & _).
  exists sc, fc. rewrite E. split; [reflexivity | exact Hsum].
Qed.

(** C4. A failing create-record call never stops the loop:
    [add_members_to_list] always returns (it raises nothing and is not
    cut off); there is one progress update per member, numbered 1 to n
    over the total n; the failure count is the number of warnings shown;
    and for a logged-in client the records sent are, in order, one per
    input member, whatever the answers to the earlier ones were, the
    failure count being the number of calls that raised and the success
    count the number that returned.  A client without a login fails on
    every member before anything is sent. *)
Theorem add_members_to_list_continues_after_failure :
  forall (S : Type) (W : Remote S) (client : Client) (list_uri : string)
         (members : list string) (s : S),
    exists success_count fail_count,
      result (add_members_to_list W client list_uri members s)
      = Ret (success_count, fail_count)
      /\ List.length (warnings (events (add_members_to_list W client list_uri members s)))
         = fail_count
      /\ progress_updates (events (add_members_to_list W client list_uri members s))
         = map (fun k => (k, List.length members)) (seq 1 (List.length members))
      /\ match me client with
         | Some _ =>
             attempted_members (events (add_members_to_list W client list_uri members s))
             = members
             /\ failed_creates (events (add_members_to_list W client list_uri members s))
                = fail_count
             /\ succeeded_creates (events (add_members_to_list W client list_uri members s))
                = success_count
         | None =>
             create_calls (events (add_members_to_list W client list_uri members s)) = []
             /\ fail_count = List.length members
         end.
Proof.
  intros S W client list_uri members s.
  destruct (add_members_to_list_spec W client list_uri members s)
    as (sc & fc & s' & tr & E & Hsum & Hw & Hp & Hc & Hme).
  exists sc, fc. rewrite E. unfold result, events. cbn [fst snd].
  repeat split; auto.
  destruct (me client).
  - destruct Hme as (Ha & Hf & Hs). repeat split; congruence.
  - destruct Hme as (Hn & Hz). split; [exact Hn | lia].
Qed.

(** C10. Called with an empty member list, [add_members_to_list] returns
    exactly (0, 0) and leaves the service untouched: it only creates the
    progress bar and clears it.  No create-record call is issued and the
    progress fraction is never computed, so the zero total is never
    divided by. *)
Theorem add_members_to_list_empty :
  forall (S : Type) (W : Remote S) (client : Client) (list_uri : string) (s : S),
    add_members_to_list W client list_uri [] s
    = (Ret (0, 0), s,
       [Render (st_progress 0 "Adding members (0/0)..."); Render progress_bar_empty])
    /\ create_calls (events (add_members_to_list W client list_uri [] s)) = []
    /\ progress_updates (events (add_members_to_list W client list_uri [] s)) = [].
Proof.
  intros. repeat split.
Qed.

(* ================================================================== *)
(** * Properties of [get_list_members] *)
(* ================================================================== *)

Section GetListMembers.
Context {S : Type}.
Variable W : Remote S.
Variable client : Client.
Variable list_uri : string.

Lemma truthy_list_nonempty {A : Type} (l : list A) : l <> [] -> Py.truthy_list l = true.
Proof. destruct l; [congruence | reflexivity]. Qed.

(** While the pages go on, the loop requests them one by one, appends
    their members and pauses; it then carries on from the last cursor. *)
Lemma get_list_members_loop_pages :
  forall (ps : list GetListResponse) (s0 : S) (cur0 : option string) (s1 : S)
         (cur : option string),
    pages_served W client list_uri s0 cur0 ps s1 cur ->
    Forall continues ps ->
    forall (fuel : nat) (acc : list string),
      get_list_members_loop W (List.length ps + fuel) client list_uri acc cur0 s0
      = match get_list_members_loop W fuel client list_uri
                (acc ++ List.concat (map page_dids ps)) cur s1 with
        | (r, s2, t) => (r, s2, page_requests client list_uri cur0 ps ++ t)
        end.
Proof.
  intros ps s0 cur0 s1 cur Hserved.
  induction Hserved as [s cur | s cur p s1 ps s2 cur2 Hask Hrest IH];
    intros Hcont fuel acc.
  - cbn. rewrite app_nil_r.
    now destruct (get_list_members_loop W fuel client list_uri acc cur s) as [[r s2] t].
  - inversion Hcont as [|p' ps' [Hitems Hcursor] Hcont']; subst.
    cbn [List.length Nat.add get_list_members_loop].
    unfold bind at 1, get_list at 1. rewrite Hask. cbn [lift].
    rewrite (truthy_list_nonempty _ Hitems), Hcursor. cbn [negb].
    unfold bind at 1, sleep at 1, emit at 1.
    rewrite (IH Hcont' fuel (acc ++ map item_did (items p))).
    cbn [map concat page_requests]. unfold page_dids at 2.
    rewrite <- app_assoc.
    now destruct (get_list_members_loop W fuel client list_uri _ cur2 s2) as [[r s3] t].
Qed.

(** The last request of a listing: the page that stops it. *)
Lemma get_list_members_loop_last (fuel : nat) (acc : list string) (cur : option string)
    (s1 s2 : S) (q : GetListResponse) :
  api_get_list W client (mk_params list_uri 100 cur) s1 = (Returned (Some q), s2) ->
  Py.truthy_opt_str (cursor q) = false \/ items q = [] ->
  get_list_members_loop W (Datatypes.S fuel) client list_uri acc cur s1
  = (Ret (acc ++ page_dids q), s2,
     [GetList client (mk_params list_uri 100 cur) (Returned (Some q))]).
Proof.
  intros Hask Hstop.
  cbn [get_list_members_loop]. unfold bind, get_list. rewrite Hask. cbn [lift].
  unfold page_dids.
  destruct (items q) as [|item rest] eqn:Hitems; cbn.
  - now rewrite app_nil_r.
  - destruct Hstop as [Hcur | Hnil]; [|discriminate].
    rewrite Hcur. reflexivity.
Qed.

(** The listing also stops on an answer that is no response at all. *)
Lemma get_list_members_loop_no_response (fuel : nat) (acc : list string)
    (cur : option string) (s1 s2 : S) :
  api_get_list W client (mk_params list_uri 100 cur) s1 = (Returned None, s2) ->
  get_list_members_loop W (Datatypes.S fuel) client list_uri acc cur s1
  = (Ret acc, s2, [GetList client (mk_params list_uri 100 cur) (Returned None)]).
Proof.
  intro Hask. cbn [get_list_members_loop]. unfold bind, get_list. rewrite Hask.
  reflexivity.
Qed.

(** Without fuel the loop is cut off before any request. *)
Lemma get_list_members_loop_cut_off (acc : list string) (cur : option string) (s : S) :
  get_list_members_loop W 0 client list_uri acc cur s = (Fuel, s, []).
Proof. reflexivity. Qed.

End GetListMembers.


(** C2. Let the service answer the successive requests with the pages
    [ps], each with items and a cursor, and then raise [e] on the next
    request.  Then [get_list_members] returns [None], whatever the pages
    already fetched held; the failed request is the last call it makes
    (it is not repeated), and the last event is the error shown to the
    operator, which carries the message of [e]. *)
Theorem get_list_members_fetch_failure :
  forall (S : Type) (W : Remote S) (client : Client) (list_uri : string)
         (ps : list GetListResponse) (e : exn)
         (s0 s1 s2 : S) (cur : option string) (fuel : nat),
    pages_served W client list_uri s0 None ps s1 cur ->
    Forall continues ps ->
    api_get_list W client (mk_params list_uri 100 cur) s1 = (Raised e, s2) ->
    List.length ps < fuel ->
    get_list_members W fuel client list_uri s0
    = (Ret None, s2,
       page_requests client list_uri None ps
       ++ [GetList client (mk_params list_uri 100 cur) (Raised e);
           Render (fetch_error list_uri e)])
    /\ List.length (get_list_calls (events (get_list_members W fuel client list_uri s0)))
       = List.length ps + 1.
Proof.
  intros S W client list_uri ps e s0 s1 s2 cur fuel Hserved Hcont Hask Hfuel.
  assert (Hrun : get_list_members W fuel client list_uri s0
    = (Ret None, s2,
       page_requests client list_uri None ps
       ++ [GetList client (mk_params list_uri 100 cur) (Raised e);
           Render (fetch_error list_uri e)])).
  { replace fuel with (List.length ps + Datatypes.S (fuel - List.length ps - 1)) by lia.
    unfold get_list_members, try_except, bind.
    rewrite (get_list_members_loop_pages W client list_uri ps s0 None s1 cur Hserved Hcont).
    cbn [get_list_members_loop]. unfold bind, get_list. rewrite Hask. cbn [lift].
    destruct e as [msg | cls msg]; cbn; now rewrite <- app_assoc. }
  split; [exact Hrun|].
  rewrite Hrun. unfold events. cbn [snd].
  rewrite get_list_calls_app. cbn. rewrite length_app. cbn.
  f_equal. clear. generalize (@None string).
  induction ps as [|p ps IH]; intro c; cbn; [reflexivity | now rewrite IH].
Qed.

(* ================================================================== *)
(** * The [createdAt] timestamp *)
(* ================================================================== *)

Section Timestamps.

Lemma digit_char_cases (P : ascii -> Prop) :
  P "0"%char -> P "1"%char -> P "2"%char -> P "3"%char -> P "4"%char ->
  P "5"%char -> P "6"%char -> P "7"%char -> P "8"%char -> P "9"%char ->
  forall n : N, P (Py.digit_char (n mod 10)).
Proof.
  intros H0 H1 H2 H3 H4 H5 H6 H7 H8 H9 n.
  assert (Hlt : (n mod 10 < 10)%N) by (apply N.mod_lt; discriminate).
  generalize dependent (n mod 10)%N. intros d Hlt.
  assert (Hcases : (d = 0 \/ d = 1 \/ d = 2 \/ d = 3 \/ d = 4 \/ d = 5 \/ d = 6
                    \/ d = 7 \/ d = 8 \/ d = 9)%N) by lia.
  repeat (destruct Hcases as [-> | Hcases]; [assumption|]).
  now rewrite Hcases.
Qed.

Lemma is_digit_digit_char (n : N) : is_digit (Py.digit_char (n mod 10)) = true.
Proof. apply digit_char_cases; reflexivity. Qed.

Lemma not_plus_digit_char (n : N) : not_plus (Py.digit_char (n mod 10)) = true.
Proof. apply digit_char_cases; reflexivity. Qed.

Lemma digit_char_not_dash (n : N) : Ascii.eqb "-" (Py.digit_char (n mod 10)) = false.
Proof. apply digit_char_cases; reflexivity. Qed.

(** Within its width, ["%0wd"] prints the low-order digits. *)
Lemma zero_pad_low_digits (w : nat) :
  forall n : N, (n < 10 ^ N.of_nat w)%N -> Py.zero_pad w n = low_digits w n.
Proof.
  induction w as [|w IH]; intros n Hn.
  - cbn in *. assert (n = 0%N) as -> by lia. reflexivity.
  - cbn [Py.zero_pad low_digits]. rewrite IH; [reflexivity|].
    rewrite Nat2N.inj_succ, N.pow_succ_r' in Hn.
    apply N.Div0.div_lt_upper_bound. exact Hn.
Qed.

Lemma all_chars_append (f : ascii -> bool) (a b : string) :
  all_chars f (a ++ b) = all_chars f a && all_chars f b.
Proof.
  induction a as [|c a IH]; cbn; [reflexivity|].
  now rewrite IH, andb_assoc.
Qed.

(** Replacing the offset at the end of a text that holds no other [+]. *)
Lemma replace_offset (body : string) :
  all_chars not_plus body = true ->
  Py.replace (body ++ "+00:00") "+00:00" "Z" = (body ++ "Z")%string.
Proof.
  unfold Py.replace.
  induction body as [|c body IH]; intro Hbody.
  - reflexivity.
  - cbn in Hbody. apply andb_true_iff in Hbody as [Hc Hrest].
    cbn [append Py.replace_from String.prefix].
    destruct (ascii_dec "+" c) as [<- | _]; [discriminate Hc|].
    now rewrite (IH Hrest).
Qed.

Lemma all_chars_low_digits (w : nat) : forall n, all_chars not_plus (low_digits w n) = true.
Proof.
  induction w as [|w IH]; intro n; cbn [low_digits]; [reflexivity|].
  rewrite all_chars_append, IH. cbn. now rewrite not_plus_digit_char.
Qed.

Lemma valid_datetime_bounds (d : Py.datetime) :
  Py.valid_datetime d = true ->
  (Py.year d < 10 ^ N.of_nat 4 /\ Py.month d < 10 ^ N.of_nat 2 /\ Py.day d < 10 ^ N.of_nat 2
   /\ Py.hour d < 10 ^ N.of_nat 2 /\ Py.minute d < 10 ^ N.of_nat 2
   /\ Py.second d < 10 ^ N.of_nat 2 /\ Py.microsecond d < 10 ^ N.of_nat 6)%N.
Proof.
  unfold Py.valid_datetime. rewrite !andb_true_iff, !N.leb_le.
  cbn. lia.
Qed.

Lemma created_at_valid (now : Py.datetime) :
  Py.valid_datetime now = true ->
  created_at now
  = ((low_digits 4 (Py.year now) ++ "-" ++ low_digits 2 (Py.month now) ++ "-"
      ++ low_digits 2 (Py.day now) ++ "T"
      ++ low_digits 2 (Py.hour now) ++ ":" ++ low_digits 2 (Py.minute now) ++ ":"
      ++ low_digits 2 (Py.second now)
      ++ (if (Py.microsecond now =? 0)%N then ""
          else "." ++ low_digits 6 (Py.microsecond now)))
     ++ "Z")%string.
Proof.
  intro Hvalid.
  destruct (valid_datetime_bounds now Hvalid) as (Hy & Hmo & Hd & Hh & Hmi & Hs & Hus).
  unfold created_at, Py.isoformat, Py.format_date, Py.format_time, Py.utc_offset.
  rewrite !zero_pad_low_digits by assumption.
  rewrite <- replace_offset.
  - f_equal.
  - rewrite !all_chars_append, !all_chars_low_digits.
    destruct (Py.microsecond now =? 0)%N; [reflexivity|].
    rewrite all_chars_append, all_chars_low_digits. reflexivity.
Qed.

Lemma created_at_forms (now : Py.datetime) :
  Py.valid_datetime now = true ->
  seconds_Z_form (created_at now) = (Py.microsecond now =? 0)%N
  /\ microseconds_Z_form (created_at now) = negb (Py.microsecond now =? 0)%N.
Proof.
  intro Hvalid. rewrite (created_at_valid now Hvalid).
  unfold seconds_Z_form, microseconds_Z_form.
  destruct (Py.microsecond now =? 0)%N;
    cbn [low_digits append matches Ascii.eqb Bool.eqb andb negb];
    rewrite ?is_digit_digit_char, ?digit_char_not_dash; cbn;
    split; reflexivity.
Qed.

Lemma created_at_utc_Z_form (now : Py.datetime) :
  Py.valid_datetime now = true -> utc_Z_form (created_at now) = true.
Proof.
  intro Hvalid. unfold utc_Z_form.
  destruct (created_at_forms now Hvalid) as [-> ->].
  now destruct (Py.microsecond now =? 0)%N.
Qed.

End Timestamps.

Section Stamps.
Context {S : Type}.
Variable W : Remote S.
Variable P : string -> bool.
Hypothesis clock_P : forall s : S, P (created_at (fst (api_now W s))) = true.

Lemma create_new_list_stamps (client : Client) (name description purpose : string) (s : S) :
  forallb P (stamps (events (create_new_list W client name description purpose s))) = true.
Proof.
  unfold stamps. destruct (list_accepted W name description purpose) eqn:Hvalid.
  - destruct client as [[p|]].
    + rewrite (create_new_list_calls W p name description purpose s Hvalid).
      cbn -[created_at]. now rewrite clock_P.
    + now rewrite create_new_list_calls_no_login.
  - now rewrite (create_new_list_calls_invalid W client name description purpose s Hvalid).
Qed.

Lemma try_add_member_stamps (client : Client) (list_uri member_did : string)
    (sc fc : nat) (s : S) :
  forallb P (stamps (events (try_add_member W client list_uri member_did sc fc s))) = true.
Proof.
  unfold try_add_member, try_except, bind, datetime_now, client_me, create_record,
    show, sleep, emit, ret, raise, events.
  pose proof (clock_P s) as Hs.
  destruct (api_now W s) as [now s1]. cbn [fst] in Hs.
  destruct client as [[p|]]; cbn [me].
  - destruct (api_create_record W _ _ s1) as [[resp|[msg|cls msg]] s2];
      cbn -[created_at]; now rewrite Hs.
  - reflexivity.
Qed.

Lemma add_members_loop_stamps (client : Client) (list_uri : string) (total : nat) :
  forall (members : list string) (i sc fc : nat) (s : S),
    forallb P (stamps (events (add_members_loop W client list_uri total i members sc fc s)))
    = true.
Proof.
  induction members as [|member_did rest IH]; intros i sc fc s; [reflexivity|].
  cbn [add_members_loop]. unfold bind at 1.
  pose proof (try_add_member_stamps client list_uri member_did sc fc s) as H1.
  destruct (try_add_member W client list_uri member_did sc fc s) as [[r s1] t1].
  unfold events in H1. cbn [snd] in H1.
  destruct r as [[sc1 fc1] | e |]; [|exact H1|exact H1].
  unfold truediv.
  destruct (Nat.eqb total 0).
  - unfold bind, raise, events. cbn. now rewrite app_nil_r.
  - unfold bind at 1, ret at 1. unfold bind at 1, show at 1, emit at 1.
    specialize (IH (i + 1) sc1 fc1 s1).
    destruct (add_members_loop W client list_uri total (i + 1) rest sc1 fc1 s1)
      as [[r2 s2] t2].
    unfold events in *. cbn [snd] in *.
    rewrite !stamps_app, !forallb_app, H1, IH. reflexivity.
Qed.

Lemma add_members_to_list_stamps (client : Client) (list_uri : string)
    (members : list string) (s : S) :
  forallb P (stamps (events (add_members_to_list W client list_uri members s))) = true.
Proof.
  unfold add_members_to_list, bind, show, emit, ret.
  pose proof (add_members_loop_stamps client list_uri (List.length members) members 0 0 0 s)
    as Hloop.
  destruct (add_members_loop W client list_uri (List.length members) 0 members 0 0 s)
    as [[r s1] t1].
  unfold events in *. cbn [snd] in *.
  destruct r as [[sc fc] | e |]; cbn [snd];
    rewrite !stamps_app, !forallb_app, Hloop; reflexivity.
Qed.

End Stamps.

(** The run the claim on whole seconds fails on: the clock reads
    12:00:00.123456. *)
Example created_at_run_with_microseconds :
  stamps (events (create_new_list (Scripted.world Scripted.noon_and_a_bit)
                    (mk_client (Some Scripted.bob)) "Friends" "" "curatelist"
                    (Scripted.mk_script [] []
                       [Returned (mk_created "at://did:plc:bob/app.bsky.graph.list/1" "c1")])))
  = ["2024-01-02T12:00:00.123456Z"].
Proof. vm_compute. reflexivity. Qed.

(** C6, as stated, fails: with a valid clock reading that has
    microseconds, the [createdAt] that [create_new_list] and
    [add_members_to_list] send ends in [Z] but is not in the form limited
    to whole seconds. *)
Lemma createdAt_keeps_microseconds :
  Py.valid_datetime Scripted.noon_and_a_bit = true
  /\ stamps (events (create_new_list (Scripted.world Scripted.noon_and_a_bit)
                       (mk_client (Some Scripted.bob)) "Friends" "" "curatelist"
                       (Scripted.mk_script [] []
                          [Returned (mk_created "at://did:plc:bob/app.bsky.graph.list/1" "c1")])))
     = ["2024-01-02T12:00:00.123456Z"]
  /\ stamps (events (add_members_to_list (Scripted.world Scripted.noon_and_a_bit)
                       (mk_client (Some Scripted.bob))
                       "at://did:plc:bob/app.bsky.graph.list/1" ["did:plc:carol"]
                       (Scripted.mk_script [] []
                          [Returned (mk_created "at://did:plc:bob/app.bsky.graph.listitem/1" "c2")])))
     = ["2024-01-02T12:00:00.123456Z"]
  /\ seconds_Z_form "2024-01-02T12:00:00.123456Z" = false.
Proof. vm_compute. repeat split; reflexivity. Qed.


(* ================================================================== *)
(** * The stages of the "Migrate List" handler *)
(* ================================================================== *)

Lemma bind_ret {S A B : Type} (m : M S A) (k : A -> M S B) (s s1 : S) (a : A)
    (t1 : list Event) :
  m s = (Ret a, s1, t1) ->
  bind m k s = match k a s1 with (r, s2, t2) => (r, s2, t1 ++ t2) end.
Proof. intro E. unfold bind. now rewrite E. Qed.

Lemma bind_fuel {S A B : Type} (m : M S A) (k : A -> M S B) (s s1 : S) (t1 : list Event) :
  m s = (Fuel, s1, t1) -> bind m k s = (Fuel, s1, t1).
Proof. intro E. unfold bind. now rewrite E. Qed.

Lemma guarded_items (u : string) (calls : list (CreateRecordData * outcome CreateRecordResponse)) :
  forallb (item_of u) calls = true -> guarded (Some u) calls = true.
Proof.
  induction calls as [|[d r] calls IH]; [reflexivity|].
  cbn [forallb guarded]. unfold item_of at 1. cbn [fst].
  destruct (record d) as [l | item]; [discriminate|].
  rewrite !andb_true_iff. intros [[Hu _] Hrest].
  now rewrite Hu, IH.
Qed.

Section Stages.
Context {S : Type}.
Variable W : Remote S.

(** A login block never raises: it yields the logged-in client and
    [True], or the client as it was and [False]. *)
Lemma login_block_run (status_label account : string) (client : Client)
    (handle_ password : string) (s : S) :
  login_block W status_label account client handle_ password s
  = (Ret (match fst (api_login W handle_ password s) with
          | Returned p => (mk_client (Some p), true)
          | Raised _ => (client, false)
          end),
     snd (api_login W handle_ password s),
     login_events status_label account handle_ password
       (fst (api_login W handle_ password s))).
Proof.
  unfold login_block, try_except, bind, login, client_me, show, emit, ret.
  destruct (api_login W handle_ password s) as [[p | [msg | cls msg]] s1]; reflexivity.
Qed.

(** The pagination loop talks to the listing endpoint only. *)
Lemma get_list_members_loop_quiet (client : Client) (list_uri : string) :
  forall (fuel : nat) (acc : list string) (cur : option string) (s : S),
    create_calls (events (get_list_members_loop W fuel client list_uri acc cur s)) = []
    /\ widgets (events (get_list_members_loop W fuel client list_uri acc cur s)) = [].
Proof.
  induction fuel as [|fuel IH]; intros acc cur s; [split; reflexivity|].
  cbn [get_list_members_loop]. unfold bind at 1 3, get_list.
  destruct (api_get_list W client _ s) as [[[q|] | e] s1]; cbn [lift];
    try (split; reflexivity).
  destruct (Py.truthy_list (items q)); cbn [negb]; [|split; reflexivity].
  destruct (Py.truthy_opt_str (cursor q)); cbn [negb]; [|split; reflexivity].
  unfold bind, sleep, emit.
  specialize (IH (acc ++ map item_did (items q)) (cursor q) s1).
  destruct (get_list_members_loop W fuel client list_uri _ (cursor q) s1) as [[r s2] t2].
  unfold events in *. cbn [snd] in *.
  destruct IH as [IHc IHw].
  rewrite !create_calls_app, !widgets_app, IHc, IHw. split; reflexivity.
Qed.

(** [get_list_members] returns a list or [None], or is cut off; it
    raises nothing, sends no record and touches no progress bar. *)
Lemma get_list_members_run (fuel : nat) (client : Client) (list_uri : string) (s : S) :
  create_calls (events (get_list_members W fuel client list_uri s)) = []
  /\ existsb is_progress_bar (widgets (events (get_list_members W fuel client list_uri s)))
     = false
  /\ match result (get_list_members W fuel client list_uri s) with
     | Raise _ => False
     | _ => True
     end.
Proof.
  unfold get_list_members, try_except, bind.
  destruct (get_list_members_loop_quiet client list_uri fuel [] None s) as [Hc Hw].
  destruct (get_list_members_loop W fuel client list_uri [] None s) as [[r s1] t1].
  unfold events, result in *. cbn [fst snd] in *.
  destruct r as [l | [msg | cls msg] |]; unfold show, emit, ret; cbn [fst snd];
    rewrite ?create_calls_app, ?widgets_app, ?Hc, ?Hw; repeat split; reflexivity.
Qed.

(** 2. on a listing that returned [members]. *)
Lemma fetch_members_found (fuel : nat) (f : Form) (client : Client) (s s1 : S)
    (members : list string) (listing : list Event) :
  get_list_members W fuel client (source_list_uri f) s = (Ret (Some members), s1, listing) ->
  fetch_members W fuel f client s = (Ret (Some members, true), s1, fetch_events f listing members).
Proof.
  intro E. unfold fetch_members, bind, show, emit, ret. rewrite E.
  unfold fetch_events. cbn [app]. rewrite ?app_nil_r. reflexivity.
Qed.

(** 2. in general: members and [True], or [None] and [False], or cut off. *)
Lemma fetch_members_run (fuel : nat) (f : Form) (client : Client) (s : S) :
  create_calls (events (fetch_members W fuel f client s)) = []
  /\ existsb is_progress_bar (widgets (events (fetch_members W fuel f client s))) = false
  /\ match result (fetch_members W fuel f client s) with
     | Ret (Some _, true) | Ret (None, false) | Fuel => True
     | _ => False
     end.
Proof.
  unfold fetch_members, bind, show, emit, ret.
  destruct (get_list_members_run fuel client (source_list_uri f) s) as (Hc & Hw & Hr).
  destruct (get_list_members W fuel client (source_list_uri f) s) as [[r s1] t1].
  unfold events, result in *. cbn [fst snd] in *.
  destruct r as [[l|] | e |]; cbn [fst snd]; try contradiction;
    rewrite ?create_calls_app, ?widgets_app, ?existsb_app, ?Hc, ?Hw;
    repeat split; reflexivity.
Qed.

(** 4.: the stage goes on exactly when one list record was sent and the
    service returned a non-empty reference for it; otherwise at most one
    list record was sent.  It sends no membership record and touches no
    progress bar. *)
Lemma create_destination_list_run (f : Form) (client : Client) (s : S) :
  exists o ok s' tr,
    create_destination_list W f client s = (Ret (o, ok), s', tr)
    /\ attempted_members tr = []
    /\ existsb is_progress_bar (widgets tr) = false
    /\ ((ok = true
         /\ exists d l resp,
              create_calls tr = [(d, Returned resp)]
              /\ record d = ListRecord l
              /\ o = Some (uri resp))
        \/ (ok = false /\ guarded None (create_calls tr) = true)).
Proof.
  unfold create_destination_list, bind at 1, show at 1, emit at 1.
  unfold bind at 1. rewrite create_new_list_run.
  destruct (list_accepted W (dest_list_name f) (dest_list_desc f) (dest_list_purpose f)).
  - destruct (me client) as [p|].
    + cbn zeta.
      destruct (api_create_record W client _ (snd (api_now W s)))
        as [[created | [msg | cls msg]] s2].
      * destruct (Py.truthy_str (uri created)) eqn:Hu;
          do 4 eexists; (split; [reflexivity|]); cbn; repeat split.
        -- left. split; [reflexivity|]. do 3 eexists. repeat split.
        -- right. split; reflexivity.
      * do 4 eexists. split; [reflexivity|]. cbn. repeat split.
        right. split; reflexivity.
      * do 4 eexists. split; [reflexivity|]. cbn. repeat split.
        right. split; reflexivity.
    + do 4 eexists. split; [reflexivity|]. cbn. repeat split.
      right. split; reflexivity.
  - do 4 eexists. split; [reflexivity|]. cbn. repeat split.
    right. split; reflexivity.
Qed.

(** 4. reports no count of added or failed members. *)
Lemma create_destination_list_no_summary (f : Form) (client : Client) (s : S) :
  existsb is_summary (widgets (events (create_destination_list W f client s))) = false.
Proof.
  unfold create_destination_list, bind at 1, show at 1, emit at 1.
  unfold bind at 1. rewrite create_new_list_run.
  destruct (list_accepted W (dest_list_name f) (dest_list_desc f) (dest_list_purpose f)).
  - destruct (me client) as [p|].
    + cbn zeta.
      destruct (api_create_record W client _ (snd (api_now W s)))
        as [[created | [msg | cls msg]] s2].
      * destruct (Py.truthy_str (uri created)); reflexivity.
      * reflexivity.
      * reflexivity.
    + reflexivity.
  - reflexivity.
Qed.

(** 5.: membership records are sent only when the earlier stages went
    well and a list reference is at hand, and then for that list. *)
Lemma add_members_calls (client : Client) (ok : bool) (mo : option (list string))
    (uo : option string) (s : S) :
  create_calls (events (add_members W client ok mo uo s)) = []
  \/ (ok = true
      /\ exists u, uo = Some u
           /\ forallb (item_of u) (create_calls (events (add_members W client ok mo uo s)))
              = true).
Proof.
  unfold add_members.
  destruct mo as [members|], uo as [u|]; destruct ok; cbn [andb];
    try (left; reflexivity).
  destruct (Py.truthy_list members && Py.truthy_str u); [|left; reflexivity].
  right. split; [reflexivity|]. exists u. split; [reflexivity|].
  unfold bind at 1, show at 1, emit at 1. unfold bind at 1.
  destruct (add_members_to_list_spec W client u members s)
    as (sc & fc & s' & tr & E & _ & _ & _ & Hc & _).
  rewrite E. unfold bind, show, emit, events. cbn [snd].
  rewrite !create_calls_app, !forallb_app, Hc. reflexivity.
Qed.

(** 5. with no member at hand: only the warning, if the run is still on. *)
Lemma add_members_none (client : Client) (ok : bool) (uo : option string) (s : S) :
  add_members W client ok (Some []) uo s
  = (Ret tt, s, if ok then [Render nothing_to_add] else []).
Proof.
  unfold add_members. destruct uo as [u|], ok; reflexivity.
Qed.

End Stages.

Lemma events_bind {S A B : Type} (m : M S A) (k : A -> M S B) (s : S) :
  events (bind m k s)
  = events (m s) ++ match result (m s) with
                    | Ret a => events (k a (final (m s)))
                    | _ => []
                    end.
Proof.
  unfold bind, events, result, final.
  destruct (m s) as [[[a | e |] s1] t1]; cbn [fst snd].
  - now destruct (k a s1) as [[r s2] t2].
  - now rewrite app_nil_r.
  - now rewrite app_nil_r.
Qed.

Lemma create_calls_login_events (status_label account handle_ password : string)
    (r : outcome ProfileView) :
  create_calls (login_events status_label account handle_ password r) = [].
Proof. destruct r as [p | [msg | cls msg]]; reflexivity. Qed.

Lemma progress_bar_login_events (status_label account handle_ password : string)
    (r : outcome ProfileView) :
  existsb is_progress_bar (widgets (login_events status_label account handle_ password r))
  = false.
Proof. destruct r as [p | [msg | cls msg]]; reflexivity. Qed.

Lemma summary_login_events (status_label account handle_ password : string)
    (r : outcome ProfileView) :
  existsb is_summary (widgets (login_events status_label account handle_ password r))
  = false.
Proof. destruct r as [p | [msg | cls msg]]; reflexivity. Qed.

(** In every run of the handler, cut off or not, the create-record calls
    pass the check [guarded]. *)
Lemma migrate_list_guarded :
  forall (S : Type) (W : Remote S) (fuel : nat) (f : Form) (s : S),
    guarded None (create_calls (events (migrate_list W fuel f s))) = true.
Proof.
  intros S W fuel f s. unfold migrate_list.
  destruct (all_required_fields f); cbn [negb]; [|reflexivity].
  (* 1. *)
  rewrite events_bind, create_calls_app.
  unfold login_source. rewrite !login_block_run.
  unfold events at 1, result at 1, final at 1. cbn [fst snd].
  rewrite create_calls_login_events, app_nil_l.
  destruct (api_login W (source_handle f) (source_password f) s) as [[pa | e] s1];
    cbn [fst snd]; [|reflexivity].
  (* 2. *)
  rewrite events_bind, create_calls_app.
  destruct (fetch_members_run W fuel f (mk_client (Some pa)) s1) as (Hc & _ & Hr).
  rewrite Hc, app_nil_l.
  destruct (fetch_members W fuel f (mk_client (Some pa)) s1) as [[r s2] t2].
  unfold result, final in *. cbn [fst snd] in *.
  destruct r as [[[l|] [|]] | e |]; try contradiction; [|reflexivity|reflexivity].
  (* 3. *)
  rewrite events_bind, create_calls_app.
  unfold login_destination. rewrite !login_block_run.
  unfold events at 1, result at 1, final at 1. cbn [fst snd].
  rewrite create_calls_login_events, app_nil_l.
  destruct (api_login W (dest_handle f) (dest_password f) s2) as [[pb | e] s3];
    cbn [fst snd]; [|reflexivity].
  (* 4. *)
  rewrite events_bind, create_calls_app.
  destruct (create_destination_list_run W f (mk_client (Some pb)) s3)
    as (o & ok & s4 & t4 & E4 & _ & _ & Hcase).
  rewrite E4. unfold events at 1, result at 1, final at 1. cbn [fst snd].
  (* 5. *)
  rewrite events_bind, create_calls_app.
  pose proof (add_members_calls W (mk_client (Some pb)) ok (Some l) o s4) as Hadd.
  destruct (add_members W (mk_client (Some pb)) ok (Some l) o s4) as [[r5 s5] t5].
  unfold events at 1, result at 1, final at 1. unfold events in Hadd. cbn [fst snd] in *.
  assert (Hlast : create_calls
            match r5 with
            | Ret _ => events ((if negb ok then show migration_stopped else ret tt) s5)
            | _ => []
            end = []).
  { destruct r5 as [[] | e |], ok; reflexivity. }
  unfold migration_stopped in Hlast. rewrite Hlast, app_nil_r.
  destruct Hcase as [(Hok & d & l0 & resp & Hcalls & Hrec & Ho) | (Hok & Hg)].
  - rewrite Hcalls. cbn [app guarded]. rewrite Hrec.
    destruct Hadd as [-> | (_ & u & Hu & Hitems)]; [reflexivity|].
    rewrite Ho in Hu. injection Hu as <-. now apply guarded_items.
  - destruct Hadd as [-> | (Hok' & _)]; [now rewrite app_nil_r | congruence].
Qed.

(** What [guarded] checks, spelled out: below a membership record there
    is a list record whose creation returned the reference it names. *)
Lemma guarded_sound :
  forall (calls : list (CreateRecordData * outcome CreateRecordResponse))
         (created : option string),
    guarded created calls = true ->
    forall pre d r post item,
      calls = pre ++ (d, r) :: post ->
      record d = ListitemRecord item ->
      created = Some (item_list item)
      \/ exists d' l resp,
           In (d', Returned resp) pre /\ record d' = ListRecord l
           /\ uri resp = item_list item.
Proof.
  induction calls as [|[d0 r0] calls IH]; intros created Hg pre d r post item Heq Hrec.
  - now destruct pre.
  - destruct pre as [|c pre]; cbn [app] in Heq; injection Heq as Hhead Htail.
    + subst d0 r0. cbn [guarded] in Hg. rewrite Hrec in Hg.
      destruct created as [u|]; [|discriminate].
      apply andb_true_iff in Hg as [Hu _]. apply String.eqb_eq in Hu. left. now rewrite Hu.
    + subst c. cbn [guarded] in Hg.
      destruct (record d0) as [l0 | item0] eqn:Hrec0.
      * destruct (IH _ Hg pre d r post item Htail Hrec) as [Hc | (d' & l & resp & Hin & Hl & Hu)].
        -- destruct r0 as [resp0 | e0]; [|now left].
           injection Hc as Hc. right. exists d0, l0, resp0.
           repeat split; [now left | assumption | assumption].
        -- right. exists d', l, resp. repeat split; [now right | assumption | assumption].
      * destruct created as [u|]; [|discriminate].
        apply andb_true_iff in Hg as [_ Hg].
        destruct (IH _ Hg pre d r post item Htail Hrec) as [Hc | (d' & l & resp & Hin & Hl & Hu)].
        -- now left.
        -- right. exists d', l, resp. repeat split; [now right | assumption | assumption].
Qed.

(** C7. In every run of the handler, cut off or not: whenever a
    create-record call for a membership record is made, an earlier
    create-record call of the same run sent a list record and returned,
    and the membership record names the list reference that call
    returned.  No membership record is attempted unless the destination
    list was successfully created first. *)
Theorem membership_only_after_list_creation :
  forall (S : Type) (W : Remote S) (fuel : nat) (f : Form) (s : S)
         (pre post : list (CreateRecordData * outcome CreateRecordResponse))
         (d : CreateRecordData) (r : outcome CreateRecordResponse) (item : GraphListitem),
    create_calls (events (migrate_list W fuel f s)) = pre ++ (d, r) :: post ->
    record d = ListitemRecord item ->
    exists d' l resp,
      In (d', Returned resp) pre
      /\ record d' = ListRecord l
      /\ uri resp = item_list item.
Proof.
  intros S W fuel f s pre post d r item Hcalls Hrec.
  destruct (guarded_sound _ None (migrate_list_guarded S W fuel f s)
              pre d r post item Hcalls Hrec) as [Hnone | Hfound].
  - discriminate Hnone.
  - exact Hfound.
Qed.

Section Runs.
Context {S : Type}.
Variable W : Remote S.
Variable fuel : nat.
Variable f : Form.

(** The run up to the destination login, when the source login and the
    listing went well. *)
Lemma migrate_list_after_fetch (s s1 s2 : S) (pa : ProfileView) (members : list string)
    (listing : list Event) :
  all_required_fields f = true ->
  api_login W (source_handle f) (source_password f) s = (Returned pa, s1) ->
  get_list_members W fuel (mk_client (Some pa)) (source_list_uri f) s1
  = (Ret (Some members), s2, listing) ->
  migrate_list W fuel f s
  = match
      match api_login W (dest_handle f) (dest_password f) s2 with
      | (Returned pb, s3) =>
          bind (create_destination_list W f (mk_client (Some pb)))
            (fun '(new_list_uri, migration_ok) =>
               bind (add_members W (mk_client (Some pb)) migration_ok (Some members)
                       new_list_uri)
                 (fun _ => if negb migration_ok then show migration_stopped else ret tt))
            s3
      | (Raised e, s3) => (Ret tt, s3, [Render migration_stopped])
      end
    with
    | (r, s', rest) =>
        (r, s',
         source_login_events f (Returned pa)
         ++ fetch_events f listing members
         ++ dest_login_events f (fst (api_login W (dest_handle f) (dest_password f) s2))
         ++ rest)
    end.
Proof.
  intros Hvalid Hlogin Hfetch. unfold migrate_list. rewrite Hvalid. cbn [negb].
  unfold login_source, login_destination.
  rewrite (bind_ret _ _ _ _ _ _ (login_block_run W _ _ _ _ _ s)), Hlogin. cbn [fst snd].
  rewrite (bind_ret _ _ _ _ _ _ (fetch_members_found W fuel f _ s1 s2 members listing Hfetch)).
  rewrite (bind_ret _ _ _ _ _ _ (login_block_run W _ _ _ _ _ s2)).
  unfold source_login_events, dest_login_events.
  destruct (api_login W (dest_handle f) (dest_password f) s2) as [[pb | e] s3];
    cbn [fst snd].
  - destruct (bind (create_destination_list W f (mk_client (Some pb))) _ s3) as [[r s'] rest].
    reflexivity.
  - destruct members; reflexivity.
Qed.

End Runs.

(** C8, amended. In every run where the destination login is reached
    (the form is filled in, the source login and the listing went well)
    and raises [e], the handler ends normally with exactly these events:
    those of the source login and of the listing, the status block
    "Logging into Destination Account (Account B)...", the login attempt,
    the error "Login failed for Account B: <message>" (for a protocol
    error; "An unexpected error occurred during Account B login:
    <message>" otherwise), the status label "Login Failed!", and the
    closing error "Migration process stopped due to errors.".  No
    create-record call is made: neither the list nor any membership
    record is sent. *)
Theorem destination_login_failure_stops_run :
  forall (S : Type) (W : Remote S) (fuel : nat) (f : Form) (s s1 s2 s3 : S)
         (pa : ProfileView) (members : list string) (listing : list Event) (e : exn),
    all_required_fields f = true ->
    api_login W (source_handle f) (source_password f) s = (Returned pa, s1) ->
    get_list_members W fuel (mk_client (Some pa)) (source_list_uri f) s1
    = (Ret (Some members), s2, listing) ->
    api_login W (dest_handle f) (dest_password f) s2 = (Raised e, s3) ->
    migrate_list W fuel f s
    = (Ret tt, s3,
       source_login_events f (Returned pa)
       ++ fetch_events f listing members
       ++ [Render (st_status "Logging into Destination Account (Account B)...");
           Render (st_write ("Attempting login for " ++ dest_handle f ++ "..."));
           Login (dest_handle f) (dest_password f) (Raised e);
           Render (login_error "Account B" e);
           Render (status_update "Login Failed!" "error" true);
           Render (st_error "Migration process stopped due to errors.")])
    /\ create_calls (events (migrate_list W fuel f s)) = [].
Proof.
  intros S W fuel f s s1 s2 s3 pa members listing e Hvalid Hlogin Hfetch Hdest.
  assert (Hrun : migrate_list W fuel f s
    = (Ret tt, s3,
       source_login_events f (Returned pa)
       ++ fetch_events f listing members
       ++ [Render (st_status "Logging into Destination Account (Account B)...");
           Render (st_write ("Attempting login for " ++ dest_handle f ++ "..."));
           Login (dest_handle f) (dest_password f) (Raised e);
           Render (login_error "Account B" e);
           Render (status_update "Login Failed!" "error" true);
           Render (st_error "Migration process stopped due to errors.")])).
  { rewrite (migrate_list_after_fetch W fuel f s s1 s2 pa members listing Hvalid Hlogin Hfetch).
    rewrite Hdest. reflexivity. }
  split; [exact Hrun|].
  rewrite Hrun. unfold events. cbn [snd].
  destruct (get_list_members_run W fuel (mk_client (Some pa)) (source_list_uri f) s1)
    as (Hquiet & _).
  rewrite Hfetch in Hquiet. unfold events in Hquiet. cbn [snd] in Hquiet.
  unfold source_login_events, fetch_events.
  rewrite !create_calls_app, create_calls_login_events, Hquiet. reflexivity.
Qed.

(** C9, amended. In every run where the form is filled in, the source
    login succeeds and the first page of the source list has no items,
    [get_list_members] returns the empty list after that one request; no
    membership record is sent and no progress bar is ever created
    ([add_members_to_list] is not called); the operator is shown "Found 0
    members in the source list."; no count of added and failed members is
    reported: nothing shown is the success "Finished adding members.
    Successfully added: ..., Failed: ..." or the balloons that follow it;
    and the last thing shown is the warning "No members found in the
    source list or new list wasn't created.  Nothing to add." or, when a
    later stage failed, the error "Migration process stopped due to
    errors.". *)
Theorem empty_source_list_adds_nothing :
  forall (S : Type) (W : Remote S) (fuel : nat) (f : Form) (s s1 s2 : S)
         (pa : ProfileView) (q : GetListResponse),
    all_required_fields f = true ->
    api_login W (source_handle f) (source_password f) s = (Returned pa, s1) ->
    api_get_list W (mk_client (Some pa)) (mk_params (source_list_uri f) 100 None) s1
    = (Returned (Some q), s2) ->
    items q = [] ->
    0 < fuel ->
    get_list_members W fuel (mk_client (Some pa)) (source_list_uri f) s1
    = (Ret (Some []), s2,
       [GetList (mk_client (Some pa)) (mk_params (source_list_uri f) 100 None)
          (Returned (Some q))])
    /\ attempted_members (events (migrate_list W fuel f s)) = []
    /\ existsb is_progress_bar (widgets (events (migrate_list W fuel f s))) = false
    /\ In (st_write "Found 0 members in the source list.")
          (widgets (events (migrate_list W fuel f s)))
    /\ existsb is_summary (widgets (events (migrate_list W fuel f s))) = false
    /\ exists before,
         widgets (events (migrate_list W fuel f s)) = before ++ [nothing_to_add]
         \/ widgets (events (migrate_list W fuel f s)) = before ++ [migration_stopped].
Proof.
  intros S W fuel f s s1 s2 pa q Hvalid Hlogin Hpage Hitems Hfuel.
  assert (Hfetch : get_list_members W fuel (mk_client (Some pa)) (source_list_uri f) s1
    = (Ret (Some []), s2,
       [GetList (mk_client (Some pa)) (mk_params (source_list_uri f) 100 None)
          (Returned (Some q))])).
  { destruct fuel as [|fuel']; [lia|].
    unfold get_list_members, try_except, bind.
    rewrite (get_list_members_loop_last W _ _ fuel' [] None s1 s2 q Hpage (or_intror Hitems)).
    unfold page_dids. rewrite Hitems. reflexivity. }
  split; [exact Hfetch|].
  rewrite (migrate_list_after_fetch W fuel f s s1 s2 pa [] _ Hvalid Hlogin Hfetch).
  destruct (api_login W (dest_handle f) (dest_password f) s2) as [[pb | e] s3];
    cbn [fst].
  - destruct (create_destination_list_run W f (mk_client (Some pb)) s3)
      as (o & ok & s4 & t4 & E4 & Ha4 & Hp4 & _).
    pose proof (create_destination_list_no_summary W f (mk_client (Some pb)) s3) as Hs4.
    rewrite E4 in Hs4. unfold events in Hs4. cbn [snd] in Hs4.
    rewrite (bind_ret _ _ _ _ _ _ E4).
    rewrite (bind_ret _ _ _ _ _ _ (add_members_none W _ ok o s4)).
    destruct ok; cbn [negb]; unfold show, emit, ret, events; cbn [snd app];
      rewrite ?app_nil_r;
      unfold source_login_events, dest_login_events, fetch_events;
      rewrite !attempted_members_app, !widgets_app, !existsb_app,
        !progress_bar_login_events, !summary_login_events, Ha4, Hp4, Hs4;
      (split; [reflexivity|]); (split; [reflexivity|]);
      (split; [|split; [reflexivity|]]).
    + apply in_or_app. right. apply in_or_app. left. cbn. auto.
    + eexists. left. rewrite !app_assoc. reflexivity.
    + apply in_or_app. right. apply in_or_app. left. cbn. auto.
    + eexists. right. rewrite !app_assoc. reflexivity.
  - unfold events. cbn [snd].
    unfold source_login_events, dest_login_events, fetch_events.
    rewrite !attempted_members_app, !widgets_app, !existsb_app, !progress_bar_login_events,
      !summary_login_events.
    (split; [reflexivity|]); (split; [reflexivity|]);
      (split; [|split; [reflexivity|]]).
    + apply in_or_app. right. apply in_or_app. left. cbn. auto.
    + eexists. right. rewrite !app_assoc. reflexivity.
Qed.

(** The check [is_summary] does find the report of the counts, whatever
    the counts. *)
Lemma summary_is_summary (success failed : nat) :
  forallb is_summary (widgets (summary success failed)) = true.
Proof. reflexivity. Qed.

(* ================================================================== *)
(** * The properties on concrete runs *)
(* ================================================================== *)

Import Scripted.

(** The first end-to-end scenario: members D1, D2, D3 over two pages,
    the record for D2 rejected. *)
Example second_member_rejected_run :
  map (fun c => is_raised (snd c))
      (create_calls (events (migrate_list (world noon) 5 form second_member_rejected)))
  = [false; false; true; false]
  /\ attempted_members (events (migrate_list (world noon) 5 form second_member_rejected))
     = ["did:plc:d1"; "did:plc:d2"; "did:plc:d3"]
  /\ In (st_success "Finished adding members. Successfully added: 2, Failed: 1")
        (widgets (events (migrate_list (world noon) 5 form second_member_rejected))).
Proof. vm_compute. repeat split. auto 40. Qed.


(** C2 on a scripted page followed by a failure. *)
Lemma get_list_members_fetch_failure_witness :
  get_list_members (world noon) 5 source_client "at://list" page_then_failure
  = (Ret None, mk_script [] [] [],
     page_requests source_client "at://list" None [first_page]
     ++ [GetList source_client (mk_params "at://list" 100 (Some "cursor-1"))
           (Raised (AtProtocolError "Rate Limit Exceeded"));
         Render (fetch_error "at://list" (AtProtocolError "Rate Limit Exceeded"))])
  /\ List.length (get_list_calls
                    (events (get_list_members (world noon) 5 source_client "at://list"
                               page_then_failure)))
     = List.length [first_page] + 1.
Proof.
  apply (get_list_members_fetch_failure Script (world noon) source_client "at://list"
           [first_page] (AtProtocolError "Rate Limit Exceeded") page_then_failure
           (mk_script [] [Raised (AtProtocolError "Rate Limit Exceeded")] [])
           (mk_script [] [] []) (Some "cursor-1") 5).
  - apply served_page
      with (s1 := mk_script [] [Raised (AtProtocolError "Rate Limit Exceeded")] []);
      [reflexivity | apply served_nothing].
  - constructor; [split; [discriminate | reflexivity] | constructor].
  - reflexivity.
  - cbn. lia.
Defined.

(** C8, as stated, fails: in this run the destination login is rejected
    and no record is sent, but nothing shown to the operator carries the
    label "Destination Account login"; the failure is reported under
    "Account B". *)
Lemma destination_login_label_not_shown :
  In (Login "bob.bsky.social" "app-pw-b"
        (Raised (AtProtocolError "Invalid identifier or password")))
     (events (migrate_list (world noon) 5 form destination_login_rejected))
  /\ create_calls (events (migrate_list (world noon) 5 form destination_login_rejected)) = []
  /\ widgets (events (migrate_list (world noon) 5 form destination_login_rejected))
     = [st_status "Logging into Source Account (Account A)...";
        st_write "Attempting login for alice.bsky.social...";
        st_write "Logged in as alice.bsky.social (did:plc:alice)";
        status_update "Login Successful!" "complete" false;
        st_status "Fetching members from list at://did:plc:alice/app.bsky.graph.list/3k...";
        st_write "Found 1 members in the source list.";
        status_update "Fetched Members Successfully!" "complete" false;
        st_status "Logging into Destination Account (Account B)...";
        st_write "Attempting login for bob.bsky.social...";
        st_error "Login failed for Account B: Invalid identifier or password";
        status_update "Login Failed!" "error" true;
        st_error "Migration process stopped due to errors."]
  /\ shown "Destination Account login"
        (events (migrate_list (world noon) 5 form destination_login_rejected)) = false.
Proof. vm_compute. repeat split. auto 40. Qed.

(** The amended C8 on the same run. *)
Lemma destination_login_failure_stops_run_witness :
  migrate_list (world noon) 5 form destination_login_rejected
  = (Ret tt, mk_script [] [] [Returned new_list],
     source_login_events form (Returned alice)
     ++ fetch_events form
          [GetList source_client (mk_params (source_list_uri form) 100 None)
             (Returned (Some last_page))]
          ["did:plc:d3"]
     ++ [Render (st_status "Logging into Destination Account (Account B)...");
         Render (st_write ("Attempting login for " ++ dest_handle form ++ "..."));
         Login (dest_handle form) (dest_password form)
           (Raised (AtProtocolError "Invalid identifier or password"));
         Render (login_error "Account B" (AtProtocolError "Invalid identifier or password"));
         Render (status_update "Login Failed!" "error" true);
         Render (st_error "Migration process stopped due to errors.")])
  /\ create_calls (events (migrate_list (world noon) 5 form destination_login_rejected)) = [].
Proof.
  apply (destination_login_failure_stops_run Script (world noon) 5 form
           destination_login_rejected
           (mk_script [Raised (AtProtocolError "Invalid identifier or password")]
              [Returned (Some last_page)] [Returned new_list])
           (mk_script [Raised (AtProtocolError "Invalid identifier or password")]
              [] [Returned new_list])
           (mk_script [] [] [Returned new_list])
           alice ["did:plc:d3"]
           [GetList source_client (mk_params (source_list_uri form) 100 None)
              (Returned (Some last_page))]
           (AtProtocolError "Invalid identifier or password"));
    reflexivity.
Defined.

(** C9, as stated, fails: in this run the source list is empty and every
    other stage succeeds; the operator is told "Found 0 members" and then
    "Nothing to add", and no count of added or failed members is shown at
    all. *)
Lemma empty_source_list_no_added_failed_summary :
  get_list_members (world noon) 5 source_client (source_list_uri form)
    (mk_script [Returned bob] [Returned (Some empty_page)] [Returned new_list])
  = (Ret (Some []), mk_script [Returned bob] [] [Returned new_list],
     [GetList source_client (mk_params (source_list_uri form) 100 None)
        (Returned (Some empty_page))])
  /\ widgets (events (migrate_list (world noon) 5 form empty_source_list))
     = [st_status "Logging into Source Account (Account A)...";
        st_write "Attempting login for alice.bsky.social...";
        st_write "Logged in as alice.bsky.social (did:plc:alice)";
        status_update "Login Successful!" "complete" false;
        st_status "Fetching members from list at://did:plc:alice/app.bsky.graph.list/3k...";
        st_write "Found 0 members in the source list.";
        status_update "Fetched Members Successfully!" "complete" false;
        st_status "Logging into Destination Account (Account B)...";
        st_write "Attempting login for bob.bsky.social...";
        st_write "Logged in as bob.bsky.social (did:plc:bob)";
        status_update "Login Successful!" "complete" false;
        st_status "Creating new list 'Friends' on Account B...";
        st_success "Successfully created new list: at://did:plc:bob/app.bsky.graph.list/1";
        st_write "New list created with URI: at://did:plc:bob/app.bsky.graph.list/1";
        status_update "List Creation Successful!" "complete" false;
        st_warning "No members found in the source list or new list wasn't created. Nothing to add."]
  /\ shown "added" (events (migrate_list (world noon) 5 form empty_source_list)) = false
  /\ shown "ailed" (events (migrate_list (world noon) 5 form empty_source_list)) = false.
Proof. vm_compute. repeat split. Qed.

(** With members to add the counts are reported: the run of the first
    scenario shows them. *)
Example second_member_rejected_summary :
  existsb is_summary
    (widgets (events (migrate_list (world noon) 5 form second_member_rejected)))
  = true.
Proof. vm_compute. reflexivity. Qed.

(** The amended C9 on the same run. *)
Lemma empty_source_list_adds_nothing_witness :
  get_list_members (world noon) 5 (mk_client (Some alice)) (source_list_uri form)
    (mk_script [Returned bob] [Returned (Some empty_page)] [Returned new_list])
  = (Ret (Some []), mk_script [Returned bob] [] [Returned new_list],
     [GetList (mk_client (Some alice)) (mk_params (source_list_uri form) 100 None)
        (Returned (Some empty_page))])
  /\ attempted_members (events (migrate_list (world noon) 5 form empty_source_list)) = []
  /\ existsb is_progress_bar
       (widgets (events (migrate_list (world noon) 5 form empty_source_list))) = false
  /\ In (st_write "Found 0 members in the source list.")
        (widgets (events (migrate_list (world noon) 5 form empty_source_list)))
  /\ existsb is_summary
       (widgets (events (migrate_list (world noon) 5 form empty_source_list))) = false
  /\ exists before,
       widgets (events (migrate_list (world noon) 5 form empty_source_list))
       = before ++ [nothing_to_add]
       \/ widgets (events (migrate_list (world noon) 5 form empty_source_list))
          = before ++ [migration_stopped].
Proof.
  apply (empty_source_list_adds_nothing Script (world noon) 5 form empty_source_list
           (mk_script [Returned bob] [Returned (Some empty_page)] [Returned new_list])
           (mk_script [Returned bob] [] [Returned new_list])
           alice empty_page).
  - reflexivity.
  - reflexivity.
  - reflexivity.
  - reflexivity.
  - lia.
Defined.

(** C7 on the run with three members: the first membership record comes
    after the creation of the list it names. *)
Lemma membership_only_after_list_creation_witness :
  exists d' l resp,
    In (d', Returned resp)
       [(mk_data "did:plc:bob" AppBskyGraphList
           (ListRecord (mk_graph_list "Friends" "app.bsky.graph.defs#curatelist" ""
                          "2024-01-02T12:00:00Z")),
         Returned new_list)]
    /\ record d' = ListRecord l
    /\ uri resp
       = item_list (mk_graph_listitem "did:plc:d1" "at://did:plc:bob/app.bsky.graph.list/1"
                      "2024-01-02T12:00:00Z").
Proof.
  apply (membership_only_after_list_creation Script (world noon) 5 form
           second_member_rejected
           [(mk_data "did:plc:bob" AppBskyGraphList
               (ListRecord (mk_graph_list "Friends" "app.bsky.graph.defs#curatelist" ""
                              "2024-01-02T12:00:00Z")),
             Returned new_list)]
           [(mk_data "did:plc:bob" AppBskyGraphListitem
               (ListitemRecord
                  (mk_graph_listitem "did:plc:d2" "at://did:plc:bob/app.bsky.graph.list/1"
                     "2024-01-02T12:00:00Z")),
             Raised (AtProtocolError "Rate Limit Exceeded"));
            (mk_data "did:plc:bob" AppBskyGraphListitem
               (ListitemRecord
                  (mk_graph_listitem "did:plc:d3" "at://did:plc:bob/app.bsky.graph.list/1"
                     "2024-01-02T12:00:00Z")),
             Returned (mk_created "at://did:plc:bob/app.bsky.graph.listitem/3" "cid-4"))]
           (mk_data "did:plc:bob" AppBskyGraphListitem
              (ListitemRecord
                 (mk_graph_listitem "did:plc:d1" "at://did:plc:bob/app.bsky.graph.list/1"
                    "2024-01-02T12:00:00Z")))
           (Returned (mk_created "at://did:plc:bob/app.bsky.graph.listitem/1" "cid-2"))
           (mk_graph_listitem "did:plc:d1" "at://did:plc:bob/app.bsky.graph.list/1"
              "2024-01-02T12:00:00Z")).
  - vm_compute. reflexivity.
  - reflexivity.
Defined.

(* ================================================================== *)
(** * More on [get_list_members] *)
(* ================================================================== *)

Import Observed.

Lemma get_list_exchanges_app t1 t2 :
  get_list_exchanges (t1 ++ t2) = get_list_exchanges t1 ++ get_list_exchanges t2.
Proof. apply flat_map_app. Qed.

Lemma total_sleep_app t1 t2 : total_sleep (t1 ++ t2) = total_sleep t1 + total_sleep t2.
Proof. unfold total_sleep. now rewrite flat_map_app, list_sum_app. Qed.

Lemma login_attempts_app t1 t2 :
  login_attempts (t1 ++ t2) = login_attempts t1 ++ login_attempts t2.
Proof. apply flat_map_app. Qed.

Lemma failed_members_app t1 t2 :
  failed_members (t1 ++ t2) = failed_members t1 ++ failed_members t2.
Proof. unfold failed_members. now rewrite create_calls_app, flat_map_app. Qed.

Lemma opt_str_eqb_refl (a : option string) : opt_str_eqb a a = true.
Proof. destruct a; [apply String.eqb_refl | reflexivity]. Qed.

Section Listing.
Context {S : Type}.
Variable W : Remote S.
Variable client : Client.
Variable list_uri : string.

(** One request of the loop, by cases on its answer. *)
Lemma get_list_members_loop_step (fuel : nat) (acc : list string) (cur : option string)
    (s : S) :
  get_list_members_loop W (Datatypes.S fuel) client list_uri acc cur s
  = match api_get_list W client (mk_params list_uri 100 cur) s with
    | (r, s1) =>
        if listing_goes_on r
        then match get_list_members_loop W fuel client list_uri
                     (acc ++ match r with
                             | Returned (Some page) => page_dids page
                             | _ => []
                             end)
                     (answered_cursor r) s1 with
             | (r', s2, t) =>
                 (r', s2, GetList client (mk_params list_uri 100 cur) r :: Sleep 100 :: t)
             end
        else (match r with
              | Returned (Some page) => Ret (acc ++ page_dids page)
              | Returned None => Ret acc
              | Raised e => Raise e
              end, s1, [GetList client (mk_params list_uri 100 cur) r])
    end.
Proof.
  cbn [get_list_members_loop]. unfold bind at 1, get_list.
  destruct (api_get_list W client (mk_params list_uri 100 cur) s) as [[[page|] | e] s1];
    cbn [lift listing_goes_on answered_cursor]; try reflexivity.
  unfold page_dids.
  destruct (items page) as [|item rest] eqn:Hitems; cbn [Py.truthy_list negb andb].
  - cbn. now rewrite app_nil_r.
  - destruct (Py.truthy_opt_str (cursor page)); cbn [negb].
    + unfold bind, sleep, emit.
      now destruct (get_list_members_loop W fuel client list_uri _ (cursor page) s1)
        as [[r' s2] t].
    + reflexivity.
Qed.

(** What holds of the loop whatever the service does. *)
Lemma get_list_members_loop_always :
  forall (fuel : nat) (acc : list string) (cur : option string) (s : S),
    chained list_uri cur
      (get_list_exchanges (events (get_list_members_loop W fuel client list_uri acc cur s)))
    = true
    /\ widgets (events (get_list_members_loop W fuel client list_uri acc cur s)) = []
    /\ login_attempts (events (get_list_members_loop W fuel client list_uri acc cur s)) = []
    /\ match result (get_list_members_loop W fuel client list_uri acc cur s) with
       | Fuel =>
           total_sleep (events (get_list_members_loop W fuel client list_uri acc cur s))
           = 100 * List.length
                     (get_list_calls
                        (events (get_list_members_loop W fuel client list_uri acc cur s)))
       | Ret _ =>
           total_sleep (events (get_list_members_loop W fuel client list_uri acc cur s)) + 100
           = 100 * List.length
                     (get_list_calls
                        (events (get_list_members_loop W fuel client list_uri acc cur s)))
       | Raise e =>
           total_sleep (events (get_list_members_loop W fuel client list_uri acc cur s)) + 100
           = 100 * List.length
                     (get_list_calls
                        (events (get_list_members_loop W fuel client list_uri acc cur s)))
           /\ exists before p,
                events (get_list_members_loop W fuel client list_uri acc cur s)
                = before ++ [GetList client p (Raised e)]
       end.
Proof.
  induction fuel as [|fuel IH]; intros acc cur s.
  - repeat split.
  - rewrite get_list_members_loop_step.
    destruct (api_get_list W client (mk_params list_uri 100 cur) s) as [r s1].
    destruct (listing_goes_on r) eqn:Hgo.
    + specialize (IH (acc ++ match r with
                             | Returned (Some page) => page_dids page
                             | _ => []
                             end) (answered_cursor r) s1).
      destruct (get_list_members_loop W fuel client list_uri _ (answered_cursor r) s1)
        as [[r' s2] t].
      unfold events, result in *. cbn [fst snd] in *.
      destruct IH as (Hchain & Hw & Hl & Hsleep).
      change (GetList client (mk_params list_uri 100 cur) r :: Sleep 100 :: t)
        with ([GetList client (mk_params list_uri 100 cur) r; Sleep 100] ++ t).
      rewrite get_list_exchanges_app, widgets_app, login_attempts_app, total_sleep_app,
        get_list_calls_app, length_app, Hw, Hl.
      cbn [get_list_exchanges flat_map app chained params_list params_limit params_cursor].
      rewrite String.eqb_refl, opt_str_eqb_refl, Hgo, Hchain.
      repeat split.
      destruct r' as [l | e |]; cbn in *.
      * lia.
      * destruct Hsleep as (Hs & before & p & Hev). split; [lia|].
        exists (GetList client (mk_params list_uri 100 cur) r :: Sleep 100 :: before), p.
        now rewrite Hev.
      * lia.
    + unfold events, result. cbn [fst snd get_list_exchanges flat_map app chained
        params_list params_limit params_cursor].
      rewrite String.eqb_refl, opt_str_eqb_refl, Hgo.
      repeat split.
      destruct r as [[page|] | e]; cbn; try reflexivity.
      split; [reflexivity|]. now exists [], (mk_params list_uri 100 cur).
Qed.

End Listing.

Section ListingFacts.
Context {S : Type}.
Variable W : Remote S.
Variable client : Client.
Variable list_uri : string.

(** [get_list_members] is its loop, with an exception of the loop turned
    into [None] and one error shown. *)
Lemma get_list_members_by_loop (fuel : nat) (s : S) :
  get_list_members W fuel client list_uri s
  = match get_list_members_loop W fuel client list_uri [] None s with
    | (Ret members, s1, t) => (Ret (Some members), s1, t)
    | (Raise e, s1, t) => (Ret None, s1, t ++ [Render (fetch_error list_uri e)])
    | (Fuel, s1, t) => (Fuel, s1, t)
    end.
Proof.
  unfold get_list_members, try_except, bind.
  destruct (get_list_members_loop W fuel client list_uri [] None s)
    as [[[members | [msg | cls msg] |] s1] t]; cbn; rewrite ?app_nil_r; reflexivity.
Qed.

End ListingFacts.

(** X1. Whatever the service answers and wherever the run ends, every
    request [get_list_members] makes asks for the given list with limit
    100; the first one carries no cursor and each later one the cursor of
    the answer before it; and after an answer that is an exception, no
    response, a page without items or a page without cursor, no further
    request is made. *)
Theorem get_list_members_requests_chained :
  forall (S : Type) (W : Remote S) (fuel : nat) (client : Client) (list_uri : string)
         (s : S),
    chained list_uri None
      (get_list_exchanges (events (get_list_members W fuel client list_uri s)))
    = true.
Proof.
  intros S W fuel client list_uri s. rewrite get_list_members_by_loop.
  destruct (get_list_members_loop_always W client list_uri fuel [] None s)
    as (Hchain & _).
  destruct (get_list_members_loop W fuel client list_uri [] None s)
    as [[[members | e |] s1] t]; unfold events in *; cbn [snd] in *;
    rewrite ?get_list_exchanges_app, ?app_nil_r; exact Hchain.
Qed.

(** X2. [get_list_members] never raises.  When it returns a list, or is
    cut off, it has shown nothing to the operator; when it returns
    [None], the last request raised some [e] and the one thing shown is
    the error for [e], right after that request. *)
Theorem get_list_members_never_raises :
  forall (S : Type) (W : Remote S) (fuel : nat) (client : Client) (list_uri : string)
         (s : S),
    match result (get_list_members W fuel client list_uri s) with
    | Ret (Some _) | Fuel => widgets (events (get_list_members W fuel client list_uri s)) = []
    | Ret None =>
        exists e before p,
          events (get_list_members W fuel client list_uri s)
          = before ++ [GetList client p (Raised e); Render (fetch_error list_uri e)]
          /\ widgets (events (get_list_members W fuel client list_uri s))
             = [fetch_error list_uri e]
    | Raise _ => False
    end.
Proof.
  intros S W fuel client list_uri s. rewrite get_list_members_by_loop.
  destruct (get_list_members_loop_always W client list_uri fuel [] None s)
    as (_ & Hw & _ & Hres).
  destruct (get_list_members_loop W fuel client list_uri [] None s)
    as [[[members | e |] s1] t]; unfold events, result in *; cbn [fst snd] in *;
    try exact Hw.
  destruct Hres as (_ & before & p & Hev).
  exists e, before, p. rewrite widgets_app, Hw, Hev, <- app_assoc. split; reflexivity.
Qed.

(** X3. [get_list_members] sleeps 100 ms between two requests and not
    after the last one: in a run that ends, by a list or by [None], the
    time slept is 100 ms times the number of requests less one (so at
    least one request was made); in a run cut off, a pause follows every
    request. *)
Theorem get_list_members_pauses :
  forall (S : Type) (W : Remote S) (fuel : nat) (client : Client) (list_uri : string)
         (s : S),
    match result (get_list_members W fuel client list_uri s) with
    | Fuel =>
        total_sleep (events (get_list_members W fuel client list_uri s))
        = 100 * List.length (get_list_calls (events (get_list_members W fuel client list_uri s)))
    | _ =>
        total_sleep (events (get_list_members W fuel client list_uri s)) + 100
        = 100 * List.length (get_list_calls (events (get_list_members W fuel client list_uri s)))
    end.
Proof.
  intros S W fuel client list_uri s. rewrite get_list_members_by_loop.
  destruct (get_list_members_loop_always W client list_uri fuel [] None s)
    as (_ & _ & _ & Hres).
  destruct (get_list_members_loop W fuel client list_uri [] None s)
    as [[[members | e |] s1] t]; unfold events, result in *; cbn [fst snd] in *;
    try exact Hres.
  destruct Hres as (Hsleep & _).
  rewrite total_sleep_app, get_list_calls_app, length_app. cbn. lia.
Qed.

(** X4. A page whose cursor is the empty string ends the listing like a
    page without cursor: after pages with items and a cursor, such a page
    is the last one requested and its members are the last ones
    returned. *)
Theorem get_list_members_empty_string_cursor :
  forall (S : Type) (W : Remote S) (client : Client) (list_uri : string)
         (ps : list GetListResponse) (q : GetListResponse)
         (s0 s1 s2 : S) (cur : option string) (fuel : nat),
    pages_served W client list_uri s0 None ps s1 cur ->
    Forall continues ps ->
    api_get_list W client (mk_params list_uri 100 cur) s1 = (Returned (Some q), s2) ->
    cursor q = Some "" ->
    List.length ps < fuel ->
    get_list_members W fuel client list_uri s0
    = (Ret (Some (List.concat (map page_dids ps) ++ page_dids q)), s2,
       page_requests client list_uri None ps
       ++ [GetList client (mk_params list_uri 100 cur) (Returned (Some q))]).
Proof.
  intros S W client list_uri ps q s0 s1 s2 cur fuel Hserved Hcont Hask Hcur Hfuel.
  replace fuel with (List.length ps + Datatypes.S (fuel - List.length ps - 1)) by lia.
  rewrite get_list_members_by_loop.
  rewrite (get_list_members_loop_pages W client list_uri ps s0 None s1 cur Hserved Hcont).
  rewrite (get_list_members_loop_last W client list_uri _ _ cur s1 s2 q Hask).
  - reflexivity.
  - left. now rewrite Hcur.
Qed.

(** X5. An answer that is no response at all ends the listing without
    an error: after pages with items and a cursor, [get_list_members]
    returns the members of those pages, and shows nothing. *)
Theorem get_list_members_no_response :
  forall (S : Type) (W : Remote S) (client : Client) (list_uri : string)
         (ps : list GetListResponse) (s0 s1 s2 : S) (cur : option string) (fuel : nat),
    pages_served W client list_uri s0 None ps s1 cur ->
    Forall continues ps ->
    api_get_list W client (mk_params list_uri 100 cur) s1 = (Returned None, s2) ->
    List.length ps < fuel ->
    get_list_members W fuel client list_uri s0
    = (Ret (Some (List.concat (map page_dids ps))), s2,
       page_requests client list_uri None ps
       ++ [GetList client (mk_params list_uri 100 cur) (Returned None)]).
Proof.
  intros S W client list_uri ps s0 s1 s2 cur fuel Hserved Hcont Hask Hfuel.
  replace fuel with (List.length ps + Datatypes.S (fuel - List.length ps - 1)) by lia.
  rewrite get_list_members_by_loop.
  rewrite (get_list_members_loop_pages W client list_uri ps s0 None s1 cur Hserved Hcont).
  rewrite (get_list_members_loop_no_response W client list_uri _ _ cur s1 s2 Hask).
  reflexivity.
Qed.

(* ================================================================== *)
(** * More on [add_members_to_list] and [create_new_list] *)
(* ================================================================== *)

Section Adding.
Context {S : Type}.
Variable W : Remote S.
Variable client : Client.
Variable list_uri : string.

(** One turn of the [try] statement, by cases on the login and on the
    answer of the service. *)
Lemma try_add_member_run (member_did : string) (sc fc : nat) (s : S) :
  try_add_member W client list_uri member_did sc fc s
  = match me client with
    | None =>
        (Ret (sc, fc + 1), snd (api_now W s),
         [Render (st_warning (member_warning member_did no_login)); Sleep 1000])
    | Some p =>
        let d := mk_data (did p) AppBskyGraphListitem
                   (ListitemRecord (mk_graph_listitem member_did list_uri
                                      (created_at (fst (api_now W s))))) in
        match api_create_record W client d (snd (api_now W s)) with
        | (Returned created, s2) =>
            (Ret (sc + 1, fc), s2, [CreateRecord client d (Returned created); Sleep 200])
        | (Raised e, s2) =>
            (Ret (sc, fc + 1), s2,
             [CreateRecord client d (Raised e);
              Render (st_warning (member_warning member_did e)); Sleep 1000])
        end
    end.
Proof.
  unfold try_add_member, try_except, bind, datetime_now, client_me, create_record,
    show, sleep, emit, ret, raise.
  destruct (api_now W s) as [now s1]. cbn [fst snd].
  destruct (me client) as [p|]; [|reflexivity].
  cbn zeta.
  destruct (api_create_record W client _ s1) as [[created | [msg | cls msg]] s2];
    reflexivity.
Qed.

(** The loop: the time slept, who the records are sent as, what is
    warned about, and what the loop never does. *)
Lemma add_members_loop_account (total : nat) :
  forall (members : list string) (i sc fc : nat) (s : S),
    i + List.length members <= total ->
    exists sc' fc' s' tr,
      add_members_loop W client list_uri total i members sc fc s = (Ret (sc', fc'), s', tr)
      /\ total_sleep tr + 200 * sc + 1000 * fc = 200 * sc' + 1000 * fc'
      /\ login_attempts tr = []
      /\ get_list_calls tr = []
      /\ match me client with
         | Some p =>
             forallb (sent_as (did p)) (create_calls tr) = true
             /\ warnings tr
                = map (fun x => member_warning (fst x) (snd x)) (failed_members tr)
         | None => warnings tr = map (fun m => member_warning m no_login) members
         end.
Proof.
  induction members as [|member_did rest IH]; intros i sc fc s Hle.
  - exists sc, fc, s, []. cbn. repeat split; try lia.
    destruct (me client); repeat split.
  - cbn [List.length] in Hle. cbn [add_members_loop].
    assert (Hstep : exists sc1 fc1 s1 t1,
      try_add_member W client list_uri member_did sc fc s = (Ret (sc1, fc1), s1, t1)
      /\ total_sleep t1 + 200 * sc + 1000 * fc = 200 * sc1 + 1000 * fc1
      /\ login_attempts t1 = []
      /\ get_list_calls t1 = []
      /\ match me client with
         | Some p =>
             forallb (sent_as (did p)) (create_calls t1) = true
             /\ warnings t1
                = map (fun x => member_warning (fst x) (snd x)) (failed_members t1)
         | None => warnings t1 = [member_warning member_did no_login]
         end).
    { rewrite try_add_member_run.
      destruct (me client) as [p|].
      - cbn zeta.
        destruct (api_create_record W client _ (snd (api_now W s)))
          as [[created | e] s2]; do 4 eexists; (split; [reflexivity|]);
          unfold sent_as; cbn; rewrite ?String.eqb_refl; repeat split; lia.
      - do 4 eexists. split; [reflexivity|]. cbn. repeat split; lia. }
    destruct Hstep as (sc1 & fc1 & s1 & t1 & E1 & Hs1 & Hl1 & Hg1 & Hme1).
    rewrite (bind_ret _ _ _ _ _ _ E1).
    unfold truediv.
    destruct (Nat.eqb total 0) eqn:Ez; [apply Nat.eqb_eq in Ez; lia|].
    unfold bind at 1, ret at 1. unfold bind at 1, show at 1, emit at 1.
    destruct (IH (i + 1) sc1 fc1 s1 ltac:(lia))
      as (sc2 & fc2 & s2 & t2 & E2 & Hs2 & Hl2 & Hg2 & Hme2).
    rewrite E2. cbn [app].
    do 4 eexists. split; [reflexivity|].
    match goal with
    | |- context [t1 ++ ?ev :: t2] => change (t1 ++ ev :: t2) with (t1 ++ [ev] ++ t2)
    end.
    rewrite !total_sleep_app, !login_attempts_app, !get_list_calls_app, Hl1, Hl2, Hg1, Hg2.
    repeat split; [cbn; lia|].
    destruct (me client) as [p|].
    + destruct Hme1 as (Ha1 & Hw1), Hme2 as (Ha2 & Hw2).
      rewrite !create_calls_app, !forallb_app, !warnings_app, !failed_members_app,
        !map_app, Ha1, Ha2, Hw1, Hw2.
      split; reflexivity.
    + rewrite !warnings_app, Hme1, Hme2. reflexivity.
Qed.

Lemma add_members_to_list_account (members : list string) (s : S) :
  exists sc fc s' tr,
    add_members_to_list W client list_uri members s = (Ret (sc, fc), s', tr)
    /\ total_sleep tr = 200 * sc + 1000 * fc
    /\ login_attempts tr = []
    /\ get_list_calls tr = []
    /\ match me client with
       | Some p =>
           forallb (sent_as (did p)) (create_calls tr) = true
           /\ warnings tr
              = map (fun x => member_warning (fst x) (snd x)) (failed_members tr)
       | None => warnings tr = map (fun m => member_warning m no_login) members
       end.
Proof.
  unfold add_members_to_list, bind, show, emit, ret.
  destruct (add_members_loop_account (List.length members) members 0 0 0 s ltac:(lia))
    as (sc & fc & s' & tr & E & Hs & Hl & Hg & Hme).
  rewrite E. do 4 eexists. split; [reflexivity|].
  rewrite app_nil_r.
  change (?e :: tr ++ ?l) with ([e] ++ tr ++ l).
  rewrite !total_sleep_app, !login_attempts_app, !get_list_calls_app, Hl, Hg.
  repeat split; [cbn; lia|].
  destruct (me client) as [p|].
  - destruct Hme as (Ha & Hw).
    rewrite !create_calls_app, !forallb_app, !warnings_app, !failed_members_app,
      !map_app, Ha, Hw.
    split; reflexivity.
  - rewrite !warnings_app, Hme. cbn. now rewrite app_nil_r.
Qed.

End Adding.

(* ================================================================== *)
(** * The timestamps, instant by instant *)
(* ================================================================== *)

Section Readings.
Context {S : Type}.
Variable W : Remote S.
Variable client : Client.
Variable list_uri : string.

(** The loop stamps its records, in order, with the instants it reads;
    a client that never logged in sends nothing. *)
Lemma add_members_loop_clock (total : nat) :
  forall (members : list string) (i sc fc : nat) (s : S),
    i + List.length members <= total ->
    stamps (events (add_members_loop W client list_uri total i members sc fc s))
    = match me client with
      | Some _ => map created_at (clock_readings W client list_uri members s)
      | None => []
      end.
Proof.
  induction members as [|member_did rest IH]; intros i sc fc s Hle.
  - cbn. now destruct (me client).
  - cbn [List.length] in Hle. cbn [add_members_loop clock_readings].
    unfold bind at 1. rewrite try_add_member_run.
    assert (Htotal : Nat.eqb total 0 = false) by (apply Nat.eqb_neq; lia).
    destruct (me client) as [p|] eqn:Hme.
    + cbn zeta.
      destruct (api_create_record W client _ (snd (api_now W s))) as [[created | e] s2];
        unfold truediv; rewrite Htotal;
        unfold bind at 1, ret at 1; unfold bind at 1, show at 1, emit at 1;
        [specialize (IH (i + 1) (sc + 1) fc s2 ltac:(lia))
        |specialize (IH (i + 1) sc (fc + 1) s2 ltac:(lia))];
        rewrite ?Hme in IH;
        match goal with
        | |- context [add_members_loop ?a ?b ?c ?d ?e ?f ?g ?h ?k] =>
            destruct (add_members_loop a b c d e f g h k) as [[r s3] t3]
        end;
        unfold events in *; cbn [snd fst app map] in *;
        destruct r as [[sc2 fc2] | e2 |]; cbn [snd]; cbn -[created_at];
        now rewrite <- IH.
    + unfold truediv; rewrite Htotal.
      unfold bind at 1, ret at 1. unfold bind at 1, show at 1, emit at 1.
      specialize (IH (i + 1) sc (fc + 1) (snd (api_now W s)) ltac:(lia)).
      rewrite ?Hme in IH.
      destruct (add_members_loop W client list_uri total (i + 1) rest sc (fc + 1)
                  (snd (api_now W s))) as [[r s3] t3].
      unfold events in *. cbn [snd] in *.
      destruct r as [[sc2 fc2] | e2 |]; cbn [snd]; exact IH.
Qed.

Lemma add_members_to_list_clock (members : list string) (s : S) :
  stamps (events (add_members_to_list W client list_uri members s))
  = match me client with
    | Some _ => map created_at (clock_readings W client list_uri members s)
    | None => []
    end.
Proof.
  unfold add_members_to_list, bind, show, emit, ret.
  pose proof (add_members_loop_clock (List.length members) members 0 0 0 s ltac:(lia))
    as Hloop.
  destruct (add_members_loop W client list_uri (List.length members) 0 members 0 0 s)
    as [[r s1] t1].
  unfold events in *. cbn [snd] in *.
  destruct r as [[sc fc] | e |]; cbn [snd];
    change (?e :: ?l) with ([e] ++ l); rewrite !stamps_app, Hloop, ?app_nil_r; reflexivity.
Qed.

(** One instant is read for every member, and each is a reading of the
    clock. *)
Lemma clock_readings_length (members : list string) :
  forall s : S, List.length (clock_readings W client list_uri members s) = List.length members.
Proof.
  induction members as [|member_did rest IH]; intro s; [reflexivity|].
  cbn [clock_readings List.length]. now rewrite IH.
Qed.

Lemma clock_readings_read (P : Py.datetime -> Prop) (members : list string) :
  (forall s' : S, P (fst (api_now W s'))) ->
  forall s : S, Forall P (clock_readings W client list_uri members s).
Proof.
  intro HP. induction members as [|member_did rest IH]; intro s; [constructor|].
  cbn [clock_readings]. constructor; [apply HP | apply IH].
Qed.

End Readings.

(** C6, amended. With a clock that reads valid instants, every
    [createdAt] that [create_new_list] and [add_members_to_list] send is
    a UTC ISO-8601 string ending in a literal [Z] (never [+00:00]), of
    the form YYYY-MM-DDTHH:MM:SSZ or YYYY-MM-DDTHH:MM:SS.ffffffZ.  Each is
    [created_at] of an instant read off the clock: the one record of
    [create_new_list], when it is sent, carries the instant the function
    read; the records of [add_members_to_list] carry, in order, the
    instants its loop read, one for every member.  For each of these
    instants the stamp is in the form without a fraction exactly when the
    microseconds of the instant are zero, and in the form with six
    digits of fraction otherwise. *)
Theorem createdAt_utc_Z :
  forall (S : Type) (W : Remote S) (client : Client) (p : ProfileView)
         (name description purpose list_uri : string) (members : list string) (s : S),
    (forall s' : S, Py.valid_datetime (fst (api_now W s')) = true) ->
    forallb utc_Z_form
      (stamps (events (create_new_list W client name description purpose s))) = true
    /\ forallb utc_Z_form
         (stamps (events (add_members_to_list W client list_uri members s))) = true
    /\ (list_accepted W name description purpose = true ->
        stamps (events (create_new_list W (mk_client (Some p)) name description purpose s))
        = [created_at (fst (api_now W s))])
    /\ (seconds_Z_form (created_at (fst (api_now W s)))
        = (Py.microsecond (fst (api_now W s)) =? 0)%N
        /\ microseconds_Z_form (created_at (fst (api_now W s)))
           = negb (Py.microsecond (fst (api_now W s)) =? 0)%N)
    /\ stamps (events (add_members_to_list W (mk_client (Some p)) list_uri members s))
       = map created_at (clock_readings W (mk_client (Some p)) list_uri members s)
    /\ List.length (clock_readings W (mk_client (Some p)) list_uri members s)
       = List.length members
    /\ Forall (fun now =>
                 seconds_Z_form (created_at now) = (Py.microsecond now =? 0)%N
                 /\ microseconds_Z_form (created_at now)
                    = negb (Py.microsecond now =? 0)%N)
         (clock_readings W (mk_client (Some p)) list_uri members s).
Proof.
  intros S W client p name description purpose list_uri members s Hclock.
  assert (HP : forall s' : S, utc_Z_form (created_at (fst (api_now W s'))) = true)
    by (intro s'; apply created_at_utc_Z_form, Hclock).
  split; [now apply create_new_list_stamps|].
  split; [now apply add_members_to_list_stamps|].
  split.
  { intro Hvalid. unfold stamps.
    now rewrite (create_new_list_calls W p name description purpose s Hvalid). }
  split; [apply created_at_forms, Hclock|].
  split; [apply (add_members_to_list_clock W (mk_client (Some p)))|].
  split; [apply clock_readings_length|].
  apply clock_readings_read. intro s'. apply created_at_forms, Hclock.
Qed.

(** The amended C6 on the scripted service, its clock at 12:00:00.123456:
    one list, then two members. *)
Lemma createdAt_utc_Z_witness :
  (forall s' : Scripted.Script,
      Py.valid_datetime (fst (api_now (Scripted.world Scripted.noon_and_a_bit) s')) = true)
  /\ list_accepted (Scripted.world Scripted.noon_and_a_bit) "Friends" "" "curatelist" = true
  /\ forallb utc_Z_form
       (stamps (events (create_new_list (Scripted.world Scripted.noon_and_a_bit)
                          (mk_client (Some Scripted.bob)) "Friends" "" "curatelist"
                          (Scripted.mk_script [] [] [])))) = true
  /\ forallb utc_Z_form
       (stamps (events (add_members_to_list (Scripted.world Scripted.noon_and_a_bit)
                          (mk_client (Some Scripted.bob)) "at://list"
                          ["did:plc:carol"; "did:plc:dave"]
                          (Scripted.mk_script [] [] [])))) = true
  /\ stamps (events (create_new_list (Scripted.world Scripted.noon_and_a_bit)
                       (mk_client (Some Scripted.bob)) "Friends" "" "curatelist"
                       (Scripted.mk_script [] [] [])))
     = [created_at Scripted.noon_and_a_bit]
  /\ stamps (events (add_members_to_list (Scripted.world Scripted.noon_and_a_bit)
                       (mk_client (Some Scripted.bob)) "at://list"
                       ["did:plc:carol"; "did:plc:dave"]
                       (Scripted.mk_script [] [] [])))
     = map created_at [Scripted.noon_and_a_bit; Scripted.noon_and_a_bit]
  /\ seconds_Z_form (created_at Scripted.noon_and_a_bit) = false
  /\ microseconds_Z_form (created_at Scripted.noon_and_a_bit) = true.
Proof.
  assert (Hclock : forall s' : Scripted.Script,
             Py.valid_datetime (fst (api_now (Scripted.world Scripted.noon_and_a_bit) s'))
             = true) by (intro s'; reflexivity).
  destruct (createdAt_utc_Z Scripted.Script (Scripted.world Scripted.noon_and_a_bit)
              (mk_client (Some Scripted.bob)) Scripted.bob "Friends" "" "curatelist"
              "at://list" ["did:plc:carol"; "did:plc:dave"] (Scripted.mk_script [] [] [])
              Hclock)
    as (Hlist & Hitems & Hone & (Hseconds & Hfraction) & Hall & _ & _).
  split; [exact Hclock|]. split; [reflexivity|].
  split; [exact Hlist|]. split; [exact Hitems|].
  split; [exact (Hone eq_refl)|]. split; [exact Hall|].
  split; [exact Hseconds | exact Hfraction].
Defined.


(** X6. Whatever the service answers, the time [add_members_to_list]
    sleeps is 200 ms for every member it counts as added and 1000 ms for
    every member it counts as failed. *)
Theorem add_members_to_list_pauses :
  forall (S : Type) (W : Remote S) (client : Client) (list_uri : string)
         (members : list string) (s : S),
    exists success_count fail_count,
      result (add_members_to_list W client list_uri members s)
      = Ret (success_count, fail_count)
      /\ total_sleep (events (add_members_to_list W client list_uri members s))
         = 200 * success_count + 1000 * fail_count.
Proof.
  intros S W client list_uri members s.
  destruct (add_members_to_list_account W client list_uri members s)
    as (sc & fc & s' & tr & E & Hs & _).
  exists sc, fc. rewrite E. split; [reflexivity | exact Hs].
Qed.

(** X7. The warnings of [add_members_to_list] name what failed: for a
    logged-in client they are, in order, one per create-record call that
    raised, each with the member of that call and the message of its
    exception ("Failed to add member <did>: <message>" for a protocol
    error, "Unexpected error adding member <did>: <message>" otherwise);
    for a client that never logged in there is one per input member, with
    the message of the [AttributeError]. *)
Theorem add_members_to_list_warnings :
  forall (S : Type) (W : Remote S) (client : Client) (list_uri : string)
         (members : list string) (s : S),
    warnings (events (add_members_to_list W client list_uri members s))
    = match me client with
      | Some _ =>
          map (fun x => member_warning (fst x) (snd x))
            (failed_members (events (add_members_to_list W client list_uri members s)))
      | None => map (fun m => member_warning m no_login) members
      end.
Proof.
  intros S W client list_uri members s.
  destruct (add_members_to_list_account W client list_uri members s)
    as (sc & fc & s' & tr & E & _ & _ & _ & Hme).
  rewrite E. unfold events. cbn [snd].
  destruct (me client); [exact (proj2 Hme) | exact Hme].
Qed.

(** X8. [add_members_to_list] does nothing to the service but create
    membership records: every create-record call it makes for a client
    logged in as [p] is in the repository [did p], in the collection
    "app.bsky.graph.listitem", with a record for the given list; and it
    neither logs in nor lists. *)
Theorem add_members_to_list_only_memberships :
  forall (S : Type) (W : Remote S) (p : ProfileView) (list_uri : string)
         (members : list string) (s : S),
    forallb (fun c => sent_as (did p) c && item_of list_uri c)
      (create_calls (events (add_members_to_list W (mk_client (Some p)) list_uri members s)))
    = true
    /\ login_attempts (events (add_members_to_list W (mk_client (Some p)) list_uri members s))
       = []
    /\ get_list_calls (events (add_members_to_list W (mk_client (Some p)) list_uri members s))
       = [].
Proof.
  intros S W p list_uri members s.
  destruct (add_members_to_list_account W (mk_client (Some p)) list_uri members s)
    as (sc & fc & s' & tr & E & _ & Hl & Hg & Hsent & _).
  destruct (add_members_to_list_spec W (mk_client (Some p)) list_uri members s)
    as (sc0 & fc0 & s0 & tr0 & E0 & _ & _ & _ & Hitem & _).
  rewrite E in E0. injection E0 as _ _ _ <-.
  rewrite E. unfold events. cbn [snd me] in *.
  repeat split; try assumption.
  rewrite forallb_forall in *. intros c Hc.
  now rewrite (Hsent c Hc), (Hitem c Hc).
Qed.

(** X9. [create_new_list] never raises and makes at most one call.  It
    returns a reference exactly when its create-record call returned, and
    then the reference of the answer, after showing the success; that
    needs a record the library accepts.  It returns [None] after showing
    exactly one error: because the call raised; or because the client
    never logged in; or because the constructor of the record refused a
    field, shown as an unexpected error with the text of the
    [ValidationError].  In the last two cases no call is made.  The
    constructor refuses an empty name, a name over 64 characters and a
    description over 3000: with any of these, logged in or not,
    [create_new_list] returns [None], calls nothing and shows that one
    error. *)
Theorem create_new_list_outcomes :
  forall (S : Type) (W : Remote S) (client : Client) (name description purpose : string)
         (s : S),
    match result (create_new_list W client name description purpose s) with
    | Ret (Some u) =>
        list_accepted W name description purpose = true
        /\ exists d created,
             create_calls (events (create_new_list W client name description purpose s))
             = [(d, Returned created)]
             /\ uri created = u
             /\ widgets (events (create_new_list W client name description purpose s))
                = [st_success ("Successfully created new list: " ++ u)]
    | Ret None =>
        (list_accepted W name description purpose = true
         /\ exists d e,
              create_calls (events (create_new_list W client name description purpose s))
              = [(d, Raised e)]
              /\ widgets (events (create_new_list W client name description purpose s))
                 = [create_error e])
        \/ (list_accepted W name description purpose = true
            /\ me client = None
            /\ create_calls (events (create_new_list W client name description purpose s))
               = []
            /\ widgets (events (create_new_list W client name description purpose s))
               = [create_error no_login])
        \/ (list_accepted W name description purpose = false
            /\ create_calls (events (create_new_list W client name description purpose s))
               = []
            /\ widgets (events (create_new_list W client name description purpose s))
               = [create_error
                    (invalid_record W name (normalize_purpose purpose) description
                       (created_at (fst (api_now W s))))])
    | _ => False
    end
    /\ (valid_list_fields name description = false ->
        result (create_new_list W client name description purpose s) = Ret None
        /\ events (create_new_list W client name description purpose s)
           = [Render (st_error
                        ("An unexpected error occurred while creating the list: "
                         ++ validation_text W
                              (mk_graph_list name (normalize_purpose purpose) description
                                 (created_at (fst (api_now W s))))))]).
Proof.
  intros S W client name description purpose s. rewrite create_new_list_run. split.
  - destruct (list_accepted W name description purpose).
    + destruct (me client) as [p|].
      * cbn zeta.
        destruct (api_create_record W client _ (snd (api_now W s))) as [[created | e] s2];
          unfold result, events; cbn [fst snd].
        -- split; [reflexivity|]. do 2 eexists. repeat split.
        -- left. split; [reflexivity|]. do 2 eexists. split; reflexivity.
      * right. left. repeat split.
    + right. right. repeat split.
  - intro Hfields.
    rewrite (list_accepted_fields W name description purpose Hfields).
    split; reflexivity.
Qed.

(** X9 on the scripted service: a logged-in client and an empty name. *)
Lemma create_new_list_outcomes_witness :
  valid_list_fields "" "A description" = false
  /\ result (create_new_list (Scripted.world Scripted.noon) (mk_client (Some Scripted.bob))
               "" "A description" "curatelist"
               (Scripted.mk_script [] []
                  [Returned (mk_created "at://did:plc:bob/app.bsky.graph.list/1" "c1")]))
     = Ret None
  /\ events (create_new_list (Scripted.world Scripted.noon) (mk_client (Some Scripted.bob))
               "" "A description" "curatelist"
               (Scripted.mk_script [] []
                  [Returned (mk_created "at://did:plc:bob/app.bsky.graph.list/1" "c1")]))
     = [Render (st_error
                  "An unexpected error occurred while creating the list: 1 validation error for Record")].
Proof.
  split; [reflexivity|].
  apply (create_new_list_outcomes Scripted.Script (Scripted.world Scripted.noon)
           (mk_client (Some Scripted.bob)) "" "A description" "curatelist"
           (Scripted.mk_script [] []
              [Returned (mk_created "at://did:plc:bob/app.bsky.graph.list/1" "c1")])).
  reflexivity.
Defined.

(* ================================================================== *)
(** * More on the "Migrate List" handler *)
(* ================================================================== *)

Lemma result_bind {S A B : Type} (m : M S A) (k : A -> M S B) (s : S) :
  result (bind m k s)
  = match result (m s) with
    | Ret a => result (k a (final (m s)))
    | Raise e => Raise e
    | Fuel => Fuel
    end.
Proof.
  unfold bind, result, final.
  destruct (m s) as [[[a | e |] s1] t1]; cbn [fst snd]; try reflexivity.
  now destruct (k a s1) as [[r s2] t2].
Qed.

Lemma truthy_str_empty (x : string) : Py.truthy_str x = false <-> x = "".
Proof. destruct x; split; intro H; try reflexivity; discriminate. Qed.

(** The form is rejected exactly when a required field is empty. *)
Lemma all_required_fields_false (f : Form) :
  all_required_fields f = false
  <-> source_handle f = "" \/ source_password f = "" \/ source_list_uri f = ""
      \/ dest_handle f = "" \/ dest_password f = "" \/ dest_list_name f = ""
      \/ dest_list_purpose f = "".
Proof.
  unfold all_required_fields.
  rewrite !andb_false_iff, !truthy_str_empty. tauto.
Qed.

Lemma login_attempts_login_events (status_label account handle_ password : string)
    (r : outcome ProfileView) :
  login_attempts (login_events status_label account handle_ password r)
  = [(handle_, password, negb (is_raised r))].
Proof. destruct r as [p | [msg | cls msg]]; reflexivity. Qed.

Section MoreStages.
Context {S : Type}.
Variable W : Remote S.

Lemma get_list_members_no_login (fuel : nat) (client : Client) (list_uri : string) (s : S) :
  login_attempts (events (get_list_members W fuel client list_uri s)) = [].
Proof.
  rewrite get_list_members_by_loop.
  destruct (get_list_members_loop_always W client list_uri fuel [] None s)
    as (_ & _ & Hl & _).
  destruct (get_list_members_loop W fuel client list_uri [] None s)
    as [[[members | e |] s1] t]; unfold events in *; cbn [snd] in *;
    rewrite ?login_attempts_app, ?Hl; reflexivity.
Qed.

Lemma fetch_members_no_login (fuel : nat) (f : Form) (client : Client) (s : S) :
  login_attempts (events (fetch_members W fuel f client s)) = [].
Proof.
  unfold fetch_members, bind, show, emit, ret.
  pose proof (get_list_members_no_login fuel client (source_list_uri f) s) as Hl.
  destruct (get_list_members W fuel client (source_list_uri f) s) as [[r s1] t1].
  unfold events in *. cbn [snd] in *.
  destruct r as [[l|] | e |]; cbn [snd]; rewrite ?login_attempts_app, ?Hl; reflexivity.
Qed.

(** 2. on a listing that failed. *)
Lemma fetch_members_failed (fuel : nat) (f : Form) (client : Client) (s s1 : S)
    (listing : list Event) :
  get_list_members W fuel client (source_list_uri f) s = (Ret None, s1, listing) ->
  fetch_members W fuel f client s = (Ret (None, false), s1, fetch_failed_events f listing).
Proof.
  intro E. unfold fetch_members, bind, show, emit, ret. rewrite E.
  unfold fetch_failed_events. cbn [app]. rewrite ?app_nil_r. reflexivity.
Qed.

(** A form that passes the basic validation gives a list record the
    library accepts: the name is not empty, the widgets bound the lengths
    of the name and of the description, and the selectbox offers two known
    purposes. *)
Lemma form_fields_valid (f : Form) :
  all_required_fields f = true ->
  list_accepted W (dest_list_name f) (dest_list_desc f) (dest_list_purpose f) = true.
Proof.
  intro Hvalid. apply list_accepted_known.
  - unfold all_required_fields in Hvalid. rewrite !andb_true_iff in Hvalid.
    destruct Hvalid as ((_ & Hname) & _).
    pose proof (dest_list_name_max_chars f) as Hmax.
    pose proof (dest_list_desc_max_chars f) as Hdesc.
    apply Nat.leb_le in Hdesc.
    unfold valid_list_fields. rewrite !andb_true_iff. repeat split.
    + destruct (dest_list_name f); [discriminate Hname | reflexivity].
    + exact Hmax.
    + apply Nat.leb_le. lia.
  - pose proof (dest_list_purpose_option f) as Hoption.
    cbn [existsb] in Hoption. rewrite !orb_true_iff, !String.eqb_eq in Hoption.
    destruct Hoption as [-> | [-> | Hnone]];
      [reflexivity | reflexivity | discriminate Hnone].
Qed.

(** 4. for a logged-in client and a validated form, by cases on the
    answer to the one call. *)
Lemma create_destination_list_exact (f : Form) (owner : ProfileView) (s : S) :
  all_required_fields f = true ->
  create_destination_list W f (mk_client (Some owner)) s
  = match api_create_record W (mk_client (Some owner))
            (list_data f owner (fst (api_now W s))) (snd (api_now W s)) with
    | (r, s2) =>
        (Ret (match r with
              | Returned created => (Some (uri created), Py.truthy_str (uri created))
              | Raised _ => (None, false)
              end), s2,
         creation_events f (mk_client (Some owner))
           (list_data f owner (fst (api_now W s))) r)
    end.
Proof.
  intro Hvalid. unfold create_destination_list.
  rewrite (bind_ret _ _ s s _ [Render (st_status
             ("Creating new list '" ++ dest_list_name f ++ "' on Account B..."))]
             eq_refl).
  unfold bind at 1. rewrite create_new_list_run, (form_fields_valid f Hvalid).
  cbn [me]. cbn zeta.
  unfold list_data, creation_events.
  destruct (api_create_record W (mk_client (Some owner)) _ (snd (api_now W s)))
    as [[created | e] s2].
  - destruct (Py.truthy_str (uri created)); reflexivity.
  - destruct e; reflexivity.
Qed.

(** 5. never raises, never logs in, and sends its records as the client. *)
Lemma add_members_always (client : Client) (ok : bool) (mo : option (list string))
    (uo : option string) (s : S) :
  result (add_members W client ok mo uo s) = Ret tt
  /\ login_attempts (events (add_members W client ok mo uo s)) = []
  /\ match me client with
     | Some p =>
         forallb (sent_as (did p)) (create_calls (events (add_members W client ok mo uo s)))
         = true
     | None => True
     end.
Proof.
  unfold add_members.
  destruct mo as [members|], uo as [u|];
    try (destruct ok; cbn; repeat split; now destruct (me client)).
  destruct (ok && Py.truthy_list members && Py.truthy_str u);
    [|destruct ok; cbn; repeat split; now destruct (me client)].
  destruct (add_members_to_list_account W client u members s)
    as (sc & fc & s' & tr & E & _ & Hl & _ & Hme).
  rewrite (bind_ret _ _ s s _ _ eq_refl).
  rewrite (bind_ret _ _ _ _ _ _ E).
  unfold bind, show, emit, result, events. cbn [fst snd].
  rewrite !login_attempts_app, Hl.
  repeat split.
  destruct (me client) as [p|]; [|exact I].
  destruct Hme as [Hsent _].
  now rewrite !create_calls_app, !forallb_app, Hsent.
Qed.

Lemma create_destination_list_no_login (f : Form) (client : Client) (s : S) :
  login_attempts (events (create_destination_list W f client s)) = [].
Proof.
  unfold create_destination_list, bind at 1, show at 1, emit at 1.
  unfold bind at 1. rewrite create_new_list_run.
  destruct (list_accepted W (dest_list_name f) (dest_list_desc f) (dest_list_purpose f));
    [| reflexivity].
  destruct (me client) as [p|].
  - cbn zeta.
    destruct (api_create_record W client _ (snd (api_now W s))) as [[created | e] s2].
    + destruct (Py.truthy_str (uri created)); reflexivity.
    + reflexivity.
  - reflexivity.
Qed.

End MoreStages.

Section MoreRuns.
Context {S : Type}.
Variable W : Remote S.
Variable fuel : nat.
Variable f : Form.

(** The run when the source login raises. *)
Lemma migrate_list_source_login_raised (s s1 : S) (e : exn) :
  all_required_fields f = true ->
  api_login W (source_handle f) (source_password f) s = (Raised e, s1) ->
  migrate_list W fuel f s
  = (Ret tt, s1, source_login_events f (Raised e) ++ [Render migration_stopped]).
Proof.
  intros Hvalid Hlogin. unfold migrate_list. rewrite Hvalid. cbn [negb].
  unfold login_source.
  rewrite (bind_ret _ _ _ _ _ _ (login_block_run W _ _ _ _ _ s)), Hlogin. cbn [fst snd].
  reflexivity.
Qed.

(** The run when the listing returns [None]. *)
Lemma migrate_list_listing_failed (s s1 s2 : S) (pa : ProfileView) (listing : list Event) :
  all_required_fields f = true ->
  api_login W (source_handle f) (source_password f) s = (Returned pa, s1) ->
  get_list_members W fuel (mk_client (Some pa)) (source_list_uri f) s1
  = (Ret None, s2, listing) ->
  migrate_list W fuel f s
  = (Ret tt, s2,
     source_login_events f (Returned pa) ++ fetch_failed_events f listing
     ++ [Render migration_stopped]).
Proof.
  intros Hvalid Hlogin Hfetch. unfold migrate_list. rewrite Hvalid. cbn [negb].
  unfold login_source.
  rewrite (bind_ret _ _ _ _ _ _ (login_block_run W _ _ _ _ _ s)), Hlogin. cbn [fst snd].
  rewrite (bind_ret _ _ _ _ _ _ (fetch_members_failed W fuel f _ s1 s2 listing Hfetch)).
  unfold source_login_events. cbn -[login_events fetch_failed_events migration_stopped].
  reflexivity.
Qed.

(** The run up to the answer on the list record, when both logins and
    the listing went well. *)
Lemma migrate_list_after_creation (s s1 s2 s3 s5 : S) (pa pb : ProfileView)
    (members : list string) (listing : list Event) (r : outcome CreateRecordResponse) :
  all_required_fields f = true ->
  api_login W (source_handle f) (source_password f) s = (Returned pa, s1) ->
  get_list_members W fuel (mk_client (Some pa)) (source_list_uri f) s1
  = (Ret (Some members), s2, listing) ->
  api_login W (dest_handle f) (dest_password f) s2 = (Returned pb, s3) ->
  api_create_record W (mk_client (Some pb)) (list_data f pb (fst (api_now W s3)))
    (snd (api_now W s3)) = (r, s5) ->
  migrate_list W fuel f s
  = match
      bind (add_members W (mk_client (Some pb))
              (match r with
               | Returned created => Py.truthy_str (uri created)
               | Raised _ => false
               end)
              (Some members)
              (match r with Returned created => Some (uri created) | Raised _ => None end))
        (fun _ =>
           if negb (match r with
                    | Returned created => Py.truthy_str (uri created)
                    | Raised _ => false
                    end)
           then show migration_stopped else ret tt) s5
    with
    | (r', s', rest) =>
        (r', s',
         source_login_events f (Returned pa)
         ++ fetch_events f listing members
         ++ dest_login_events f (Returned pb)
         ++ creation_events f (mk_client (Some pb)) (list_data f pb (fst (api_now W s3))) r
         ++ rest)
    end.
Proof.
  intros Hvalid Hlogin Hfetch Hdest Hcreate.
  rewrite (migrate_list_after_fetch W fuel f s s1 s2 pa members listing Hvalid Hlogin Hfetch).
  rewrite Hdest. cbn [fst].
  pose proof (create_destination_list_exact W f pb s3 Hvalid) as Hstage.
  rewrite Hcreate in Hstage.
  rewrite (bind_ret _ _ _ _ _ _ Hstage).
  destruct r as [created | e].
  - destruct (bind _ _ s5) as [[r' s'] rest]. reflexivity.
  - destruct (bind _ _ s5) as [[r' s'] rest]. reflexivity.
Qed.

End MoreRuns.

(** X10. When one of the seven required fields of the form is empty
    (the description is not one of them), the handler shows "Please fill
    in all required fields." and does nothing else: no login, no request,
    the service is left as it was. *)
Theorem migrate_list_rejects_incomplete_form :
  forall (S : Type) (W : Remote S) (fuel : nat) (f : Form) (s : S),
    source_handle f = "" \/ source_password f = "" \/ source_list_uri f = ""
    \/ dest_handle f = "" \/ dest_password f = "" \/ dest_list_name f = ""
    \/ dest_list_purpose f = "" ->
    migrate_list W fuel f s
    = (Ret tt, s, [Render (st_error "Please fill in all required fields.")]).
Proof.
  intros S W fuel f s Hempty. apply all_required_fields_false in Hempty.
  unfold migrate_list. now rewrite Hempty.
Qed.

(** X11. When the source login raises [e], the run ends normally after
    the login block: the error "Login failed for Account A: <message>"
    (or "An unexpected error occurred during Account A login: <message>"),
    the label "Login Failed!", and "Migration process stopped due to
    errors.".  Nothing is listed, the destination login is not attempted
    and no record is sent. *)
Theorem source_login_failure_stops_run :
  forall (S : Type) (W : Remote S) (fuel : nat) (f : Form) (s s1 : S) (e : exn),
    all_required_fields f = true ->
    api_login W (source_handle f) (source_password f) s = (Raised e, s1) ->
    migrate_list W fuel f s
    = (Ret tt, s1,
       [Render (st_status "Logging into Source Account (Account A)...");
        Render (st_write ("Attempting login for " ++ source_handle f ++ "..."));
        Login (source_handle f) (source_password f) (Raised e);
        Render (login_error "Account A" e);
        Render (status_update "Login Failed!" "error" true);
        Render (st_error "Migration process stopped due to errors.")])
    /\ login_attempts (events (migrate_list W fuel f s))
       = [(source_handle f, source_password f, false)]
    /\ get_list_calls (events (migrate_list W fuel f s)) = []
    /\ create_calls (events (migrate_list W fuel f s)) = [].
Proof.
  intros S W fuel f s s1 e Hvalid Hlogin.
  rewrite (migrate_list_source_login_raised W fuel f s s1 e Hvalid Hlogin).
  repeat split.
Qed.

(** X12. When the source login succeeds and the listing returns [None],
    the run ends normally with "Failed to fetch members. Cannot
    continue.", the label "Fetching Members Failed!" and "Migration
    process stopped due to errors.".  The source login is the only login
    attempted and no record is sent. *)
Theorem listing_failure_stops_run :
  forall (S : Type) (W : Remote S) (fuel : nat) (f : Form) (s s1 s2 : S)
         (pa : ProfileView) (listing : list Event),
    all_required_fields f = true ->
    api_login W (source_handle f) (source_password f) s = (Returned pa, s1) ->
    get_list_members W fuel (mk_client (Some pa)) (source_list_uri f) s1
    = (Ret None, s2, listing) ->
    migrate_list W fuel f s
    = (Ret tt, s2,
       source_login_events f (Returned pa)
       ++ [Render (st_status ("Fetching members from list " ++ source_list_uri f ++ "..."))]
       ++ listing
       ++ [Render (st_error "Failed to fetch members. Cannot continue.");
           Render (status_update "Fetching Members Failed!" "error" true);
           Render (st_error "Migration process stopped due to errors.")])
    /\ login_attempts (events (migrate_list W fuel f s))
       = [(source_handle f, source_password f, true)]
    /\ create_calls (events (migrate_list W fuel f s)) = [].
Proof.
  intros S W fuel f s s1 s2 pa listing Hvalid Hlogin Hfetch.
  rewrite (migrate_list_listing_failed W fuel f s s1 s2 pa listing Hvalid Hlogin Hfetch).
  pose proof (get_list_members_no_login W fuel (mk_client (Some pa)) (source_list_uri f) s1)
    as Hl.
  destruct (get_list_members_run W fuel (mk_client (Some pa)) (source_list_uri f) s1)
    as (Hc & _).
  rewrite Hfetch in Hl, Hc. unfold events in *. cbn [snd] in *.
  unfold fetch_failed_events, source_login_events.
  split; [now rewrite <- !app_assoc|].
  rewrite !login_attempts_app, !create_calls_app, login_attempts_login_events,
    create_calls_login_events, Hl, Hc.
  split; reflexivity.
Qed.

(** X13. When both logins and the listing succeed and the call that
    creates the list record raises [e], the run ends normally with the
    error of [create_new_list] for [e], "Failed to create the new list.
    Cannot continue.", the label "List Creation Failed!" and "Migration
    process stopped due to errors."; the list record is the only record
    sent. *)
Theorem list_creation_failure_stops_run :
  forall (S : Type) (W : Remote S) (fuel : nat) (f : Form) (s s1 s2 s3 s5 : S)
         (pa pb : ProfileView) (members : list string) (listing : list Event) (e : exn),
    all_required_fields f = true ->
    api_login W (source_handle f) (source_password f) s = (Returned pa, s1) ->
    get_list_members W fuel (mk_client (Some pa)) (source_list_uri f) s1
    = (Ret (Some members), s2, listing) ->
    api_login W (dest_handle f) (dest_password f) s2 = (Returned pb, s3) ->
    api_create_record W (mk_client (Some pb)) (list_data f pb (fst (api_now W s3)))
      (snd (api_now W s3)) = (Raised e, s5) ->
    migrate_list W fuel f s
    = (Ret tt, s5,
       source_login_events f (Returned pa)
       ++ fetch_events f listing members
       ++ dest_login_events f (Returned pb)
       ++ [Render (st_status ("Creating new list '" ++ dest_list_name f
                              ++ "' on Account B..."));
           CreateRecord (mk_client (Some pb)) (list_data f pb (fst (api_now W s3)))
             (Raised e);
           Render (create_error e);
           Render (st_error "Failed to create the new list. Cannot continue.");
           Render (status_update "List Creation Failed!" "error" true);
           Render (st_error "Migration process stopped due to errors.")])
    /\ attempted_members (events (migrate_list W fuel f s)) = [].
Proof.
  intros S W fuel f s s1 s2 s3 s5 pa pb members listing e
    Hvalid Hlogin Hfetch Hdest Hcreate.
  rewrite (migrate_list_after_creation W fuel f s s1 s2 s3 s5 pa pb members listing _
             Hvalid Hlogin Hfetch Hdest Hcreate).
  cbn -[source_login_events fetch_events dest_login_events list_data].
  split; [reflexivity|].
  destruct (get_list_members_run W fuel (mk_client (Some pa)) (source_list_uri f) s1)
    as (Hc & _).
  rewrite Hfetch in Hc. unfold events in *. cbn [snd] in *.
  unfold attempted_members, source_login_events, dest_login_events, fetch_events.
  rewrite !create_calls_app, !create_calls_login_events, Hc. reflexivity.
Qed.

(** X14. When the call that creates the list record returns an answer
    whose reference is the empty string, the handler treats the creation
    as failed although [create_new_list] has shown its success: after
    "Successfully created new list: " it shows "Failed to create the new
    list. Cannot continue." and stops; no membership record is sent. *)
Theorem empty_list_reference_stops_run :
  forall (S : Type) (W : Remote S) (fuel : nat) (f : Form) (s s1 s2 s3 s5 : S)
         (pa pb : ProfileView) (members : list string) (listing : list Event)
         (created : CreateRecordResponse),
    all_required_fields f = true ->
    api_login W (source_handle f) (source_password f) s = (Returned pa, s1) ->
    get_list_members W fuel (mk_client (Some pa)) (source_list_uri f) s1
    = (Ret (Some members), s2, listing) ->
    api_login W (dest_handle f) (dest_password f) s2 = (Returned pb, s3) ->
    api_create_record W (mk_client (Some pb)) (list_data f pb (fst (api_now W s3)))
      (snd (api_now W s3)) = (Returned created, s5) ->
    uri created = "" ->
    migrate_list W fuel f s
    = (Ret tt, s5,
       source_login_events f (Returned pa)
       ++ fetch_events f listing members
       ++ dest_login_events f (Returned pb)
       ++ [Render (st_status ("Creating new list '" ++ dest_list_name f
                              ++ "' on Account B..."));
           CreateRecord (mk_client (Some pb)) (list_data f pb (fst (api_now W s3)))
             (Returned created);
           Render (st_success "Successfully created new list: ");
           Render (st_error "Failed to create the new list. Cannot continue.");
           Render (status_update "List Creation Failed!" "error" true);
           Render (st_error "Migration process stopped due to errors.")])
    /\ attempted_members (events (migrate_list W fuel f s)) = [].
Proof.
  intros S W fuel f s s1 s2 s3 s5 pa pb members listing created
    Hvalid Hlogin Hfetch Hdest Hcreate Huri.
  rewrite (migrate_list_after_creation W fuel f s s1 s2 s3 s5 pa pb members listing _
             Hvalid Hlogin Hfetch Hdest Hcreate).
  unfold creation_events. rewrite Huri.
  cbn -[source_login_events fetch_events dest_login_events list_data].
  split; [reflexivity|].
  destruct (get_list_members_run W fuel (mk_client (Some pa)) (source_list_uri f) s1)
    as (Hc & _).
  rewrite Hfetch in Hc. unfold events in *. cbn [snd] in *.
  unfold attempted_members, source_login_events, dest_login_events, fetch_events.
  rewrite !create_calls_app, !create_calls_login_events, Hc. reflexivity.
Qed.

(** X15. When both logins succeed, the listing returns a non-empty list
    of members and the list record is created with a non-empty
    reference, the handler hands exactly these members and that reference
    to [add_members_to_list] as the destination client: one membership
    record is sent per member, in the members' order, and the run ends
    with "Finished adding members. Successfully added: s, Failed: f" and
    the balloons, where s + f is the number of members found; the closing
    error is not shown. *)
Theorem migrate_list_adds_all_members :
  forall (S : Type) (W : Remote S) (fuel : nat) (f : Form) (s s1 s2 s3 s5 : S)
         (pa pb : ProfileView) (members : list string) (listing : list Event)
         (created : CreateRecordResponse),
    all_required_fields f = true ->
    api_login W (source_handle f) (source_password f) s = (Returned pa, s1) ->
    get_list_members W fuel (mk_client (Some pa)) (source_list_uri f) s1
    = (Ret (Some members), s2, listing) ->
    members <> [] ->
    api_login W (dest_handle f) (dest_password f) s2 = (Returned pb, s3) ->
    api_create_record W (mk_client (Some pb)) (list_data f pb (fst (api_now W s3)))
      (snd (api_now W s3)) = (Returned created, s5) ->
    uri created <> "" ->
    exists success failed s6 adding,
      add_members_to_list W (mk_client (Some pb)) (uri created) members s5
      = (Ret (success, failed), s6, adding)
      /\ success + failed = List.length members
      /\ attempted_members (events (migrate_list W fuel f s)) = members
      /\ migrate_list W fuel f s
         = (Ret tt, s6,
            source_login_events f (Returned pa)
            ++ fetch_events f listing members
            ++ dest_login_events f (Returned pb)
            ++ creation_events f (mk_client (Some pb))
                 (list_data f pb (fst (api_now W s3))) (Returned created)
            ++ [Render (st_info ("Starting to add " ++ Py.str_of_nat (List.length members)
                                 ++ " members to the new list. This may take a while..."))]
            ++ adding
            ++ summary success failed).
Proof.
  intros S W fuel f s s1 s2 s3 s5 pa pb members listing created
    Hvalid Hlogin Hfetch Hmembers Hdest Hcreate Huri.
  destruct (add_members_to_list_spec W (mk_client (Some pb)) (uri created) members s5)
    as (sc & fc & s6 & adding & E & Hsum & _ & _ & _ & Hattempted & _).
  exists sc, fc, s6, adding.
  split; [exact E|]. split; [exact Hsum|].
  assert (Hrun : migrate_list W fuel f s
    = (Ret tt, s6,
       source_login_events f (Returned pa)
       ++ fetch_events f listing members
       ++ dest_login_events f (Returned pb)
       ++ creation_events f (mk_client (Some pb))
            (list_data f pb (fst (api_now W s3))) (Returned created)
       ++ [Render (st_info ("Starting to add " ++ Py.str_of_nat (List.length members)
                            ++ " members to the new list. This may take a while..."))]
       ++ adding
       ++ summary sc fc)).
  { rewrite (migrate_list_after_creation W fuel f s s1 s2 s3 s5 pa pb members listing _
               Hvalid Hlogin Hfetch Hdest Hcreate).
    assert (Htruthy : Py.truthy_str (uri created) = true).
    { destruct (Py.truthy_str (uri created)) eqn:Ht; [reflexivity|].
      apply truthy_str_empty in Ht. contradiction. }
    rewrite Htruthy. cbn [negb].
    unfold add_members.
    rewrite (truthy_list_nonempty members Hmembers), Htruthy. cbn [andb].
    rewrite (bind_ret _ _ s5 s6 tt
               ([Render (st_info ("Starting to add " ++ Py.str_of_nat (List.length members)
                                  ++ " members to the new list. This may take a while..."))]
                ++ adding ++ summary sc fc)).
    - unfold ret. cbn [app]. rewrite !app_nil_r. reflexivity.
    - rewrite (bind_ret _ _ s5 s5 tt
                 [Render (st_info ("Starting to add " ++ Py.str_of_nat (List.length members)
                                   ++ " members to the new list. This may take a while..."))]
                 eq_refl).
      rewrite (bind_ret _ _ _ _ _ _ E).
      unfold summary, bind, show, emit. cbn [app]. reflexivity. }
  split; [|exact Hrun].
  rewrite Hrun. unfold events. cbn [snd].
  destruct (get_list_members_run W fuel (mk_client (Some pa)) (source_list_uri f) s1)
    as (Hc & _).
  rewrite Hfetch in Hc. unfold events in Hc. cbn [snd] in Hc.
  cbn [me] in Hattempted.
  unfold source_login_events, dest_login_events, fetch_events.
  rewrite !attempted_members_app, Hattempted.
  assert (Hl : attempted_members listing = [])
    by (unfold attempted_members; now rewrite Hc).
  rewrite Hl. unfold creation_events.
  destruct (Py.truthy_str (uri created)); cbn; now rewrite app_nil_r.
Qed.

Section EveryRun.
Context {S : Type}.
Variable W : Remote S.
Variable fuel : nat.
Variable f : Form.

(** The run when the listing is cut off. *)
Lemma migrate_list_cut_off (s s1 s2 : S) (pa : ProfileView) (listing : list Event) :
  all_required_fields f = true ->
  api_login W (source_handle f) (source_password f) s = (Returned pa, s1) ->
  get_list_members W fuel (mk_client (Some pa)) (source_list_uri f) s1
  = (Fuel, s2, listing) ->
  migrate_list W fuel f s
  = (Fuel, s2,
     source_login_events f (Returned pa)
     ++ [Render (st_status ("Fetching members from list " ++ source_list_uri f ++ "..."))]
     ++ listing).
Proof.
  intros Hvalid Hlogin Hfetch. unfold migrate_list. rewrite Hvalid. cbn [negb].
  unfold login_source.
  rewrite (bind_ret _ _ _ _ _ _ (login_block_run W _ _ _ _ _ s)), Hlogin. cbn [fst snd].
  assert (Hstage : fetch_members W fuel f (mk_client (Some pa)) s1
                   = (Fuel, s2,
                      [Render (st_status ("Fetching members from list "
                                          ++ source_list_uri f ++ "..."))] ++ listing)).
  { unfold fetch_members, bind, show, emit. now rewrite Hfetch. }
  rewrite (bind_fuel _ _ _ _ _ Hstage). reflexivity.
Qed.

(** What holds of every run of the handler. *)
Lemma migrate_list_always (s : S) :
  is_raise (result (migrate_list W fuel f s)) = false
  /\ (login_attempts (events (migrate_list W fuel f s)) = []
      \/ (exists succeeded,
            login_attempts (events (migrate_list W fuel f s))
            = [(source_handle f, source_password f, succeeded)])
      \/ (exists succeeded,
            login_attempts (events (migrate_list W fuel f s))
            = [(source_handle f, source_password f, true);
               (dest_handle f, dest_password f, succeeded)]))
  /\ (create_calls (events (migrate_list W fuel f s)) = []
      \/ exists pb,
           In (Login (dest_handle f) (dest_password f) (Returned pb))
              (events (migrate_list W fuel f s))
           /\ forallb (sent_as (did pb)) (create_calls (events (migrate_list W fuel f s)))
              = true).
Proof.
  destruct (all_required_fields f) eqn:Hvalid.
  2: { unfold migrate_list. rewrite Hvalid. cbn. repeat split; now left. }
  destruct (api_login W (source_handle f) (source_password f) s) as [[pa | e] s1] eqn:Hlogin.
  2: { rewrite (migrate_list_source_login_raised W fuel f s s1 e Hvalid Hlogin).
       unfold events, result. cbn [fst snd]. unfold source_login_events.
       rewrite !login_attempts_app, !create_calls_app, login_attempts_login_events,
         create_calls_login_events.
       repeat split; [right; left; now exists false | now left]. }
  pose proof (get_list_members_no_login W fuel (mk_client (Some pa)) (source_list_uri f) s1)
    as Hl.
  destruct (get_list_members_run W fuel (mk_client (Some pa)) (source_list_uri f) s1)
    as (Hc & _ & Hr).
  destruct (get_list_members W fuel (mk_client (Some pa)) (source_list_uri f) s1)
    as [[[[members|] | e |] s2] listing] eqn:Hfetch;
    unfold events, result in Hl, Hc, Hr; cbn [fst snd] in Hl, Hc, Hr; try contradiction.
  - (* the listing returned members *)
    destruct (api_login W (dest_handle f) (dest_password f) s2) as [[pb | e] s3] eqn:Hdest.
    + destruct (api_create_record W (mk_client (Some pb))
                  (list_data f pb (fst (api_now W s3))) (snd (api_now W s3)))
        as [r s5] eqn:Hcreate.
      rewrite (migrate_list_after_creation W fuel f s s1 s2 s3 s5 pa pb members listing r
                 Hvalid Hlogin Hfetch Hdest Hcreate).
      set (ok := match r with
                 | Returned created => Py.truthy_str (uri created)
                 | Raised _ => false
                 end).
      set (uo := match r with Returned created => Some (uri created) | Raised _ => None end).
      destruct (add_members_always W (mk_client (Some pb)) ok (Some members) uo s5)
        as (Hres & Hlog & Hsent).
      cbn [me] in Hsent.
      destruct (add_members W (mk_client (Some pb)) ok (Some members) uo s5)
        as [[ra sa] ta] eqn:Hadd.
      unfold events, result in Hres, Hlog, Hsent. cbn [fst snd] in Hres, Hlog, Hsent.
      subst ra. rewrite (bind_ret _ _ _ _ _ _ Hadd).
      assert (Hlast : exists last,
                (if negb ok then show migration_stopped else ret tt) sa = (Ret tt, sa, last)
                /\ login_attempts last = [] /\ create_calls last = []).
      { destruct ok; eexists; repeat split. }
      destruct Hlast as (last & -> & Hll & Hlc).
      unfold events, result. cbn [fst snd].
      unfold source_login_events, dest_login_events, fetch_events.
      repeat split.
      * right. right. exists true.
        rewrite !login_attempts_app, !login_attempts_login_events, Hl, Hlog, Hll.
        assert (Hcreation : login_attempts
                  (creation_events f (mk_client (Some pb))
                     (list_data f pb (fst (api_now W s3))) r) = []).
        { unfold creation_events.
          destruct r as [created | e]; [destruct (Py.truthy_str (uri created))|];
            reflexivity. }
        rewrite Hcreation. reflexivity.
      * right. exists pb. split.
        -- apply in_or_app. right. apply in_or_app. right. apply in_or_app. left.
           cbn. auto.
        -- rewrite !create_calls_app, !forallb_app, !create_calls_login_events, Hc, Hsent,
             Hlc.
           assert (Hcreation : forallb (sent_as (did pb))
                     (create_calls
                        (creation_events f (mk_client (Some pb))
                           (list_data f pb (fst (api_now W s3))) r)) = true).
           { unfold creation_events, sent_as.
             destruct r as [created | e]; [destruct (Py.truthy_str (uri created))|];
               cbn; now rewrite String.eqb_refl. }
           rewrite Hcreation. reflexivity.
    + rewrite (migrate_list_after_fetch W fuel f s s1 s2 pa members listing
                 Hvalid Hlogin Hfetch), Hdest.
      unfold events, result. cbn [fst snd].
      unfold source_login_events, dest_login_events, fetch_events.
      rewrite !login_attempts_app, !create_calls_app, !login_attempts_login_events,
        !create_calls_login_events, Hl, Hc.
      repeat split; [right; right; now exists false | now left].
  - (* the listing returned None *)
    rewrite (migrate_list_listing_failed W fuel f s s1 s2 pa listing Hvalid Hlogin Hfetch).
    unfold events, result. cbn [fst snd].
    unfold source_login_events, fetch_failed_events.
    rewrite !login_attempts_app, !create_calls_app, !login_attempts_login_events,
      !create_calls_login_events, Hl, Hc.
    repeat split; [right; left; now exists true | now left].
  - (* the listing was cut off *)
    rewrite (migrate_list_cut_off s s1 s2 pa listing Hvalid Hlogin Hfetch).
    unfold events, result. cbn [fst snd].
    unfold source_login_events.
    rewrite !login_attempts_app, !create_calls_app, !login_attempts_login_events,
      !create_calls_login_events, Hl, Hc.
    repeat split; [right; left; now exists true | now left].
Qed.

End EveryRun.

(** X16. Every record a run of the handler sends, the list record and
    the membership records alike, is sent in the repository of the
    profile the destination login returned: a run sends nothing unless
    the login with the destination handle and password returned some
    profile, and then every create-record call names that profile's DID
    as the repository.  Nothing is ever written as the source account. *)
Theorem records_sent_as_destination :
  forall (S : Type) (W : Remote S) (fuel : nat) (f : Form) (s : S),
    create_calls (events (migrate_list W fuel f s)) = []
    \/ exists pb,
         In (Login (dest_handle f) (dest_password f) (Returned pb))
            (events (migrate_list W fuel f s))
         /\ forallb (sent_as (did pb)) (create_calls (events (migrate_list W fuel f s)))
            = true.
Proof.
  intros S W fuel f s. exact (proj2 (proj2 (migrate_list_always W fuel f s))).
Qed.

(** X17. The handler never raises: whatever the service does, every
    exception is caught by one of its stages, so a run either ends
    normally or is cut off inside the listing. *)
Theorem migrate_list_never_raises :
  forall (S : Type) (W : Remote S) (fuel : nat) (f : Form) (s : S),
    is_raise (result (migrate_list W fuel f s)) = false.
Proof.
  intros S W fuel f s. exact (proj1 (migrate_list_always W fuel f s)).
Qed.

(** X18. A run of the handler logs in at most twice: first with the
    source handle and password, and with the destination handle and
    password only after the source login returned; no credential is used
    for the other account, and no login is repeated. *)
Theorem migrate_list_logins :
  forall (S : Type) (W : Remote S) (fuel : nat) (f : Form) (s : S),
    login_attempts (events (migrate_list W fuel f s)) = []
    \/ (exists succeeded,
          login_attempts (events (migrate_list W fuel f s))
          = [(source_handle f, source_password f, succeeded)])
    \/ (exists succeeded,
          login_attempts (events (migrate_list W fuel f s))
          = [(source_handle f, source_password f, true);
             (dest_handle f, dest_password f, succeeded)]).
Proof.
  intros S W fuel f s. exact (proj1 (proj2 (migrate_list_always W fuel f s))).
Qed.

(* ================================================================== *)
(** * More on the [createdAt] timestamp *)
(* ================================================================== *)

Lemma digit_char_inj (a b : N) :
  Py.digit_char (a mod 10) = Py.digit_char (b mod 10) -> (a mod 10 = b mod 10)%N.
Proof.
  unfold Py.digit_char. intro H.
  assert (Ha : (a mod 10 < 10)%N) by (apply N.mod_lt; discriminate).
  assert (Hb : (b mod 10 < 10)%N) by (apply N.mod_lt; discriminate).
  apply (f_equal N_of_ascii) in H.
  rewrite !N_ascii_embedding in H by lia. lia.
Qed.

Lemma digit_char_not_Z (a : N) : Py.digit_char (a mod 10) <> "Z"%char.
Proof.
  apply (digit_char_cases (fun c => c <> "Z"%char)); discriminate.
Qed.

Lemma digit_char_not_dot (a : N) : "."%char <> Py.digit_char (a mod 10).
Proof.
  apply (digit_char_cases (fun c => "."%char <> c)); discriminate.
Qed.

Ltac split_digit x :=
  pose proof (N.div_mod' x 10);
  pose proof (N.mod_lt x 10 ltac:(discriminate)).

Lemma two_digits_inj (n m : N) :
  (n < 100)%N -> (m < 100)%N ->
  ((n / 10) mod 10 = (m / 10) mod 10)%N -> (n mod 10 = m mod 10)%N -> n = m.
Proof.
  intros Hn Hm H1 H0.
  split_digit n. split_digit (n / 10)%N. split_digit m. split_digit (m / 10)%N.
  lia.
Qed.

Lemma four_digits_inj (n m : N) :
  (n < 10000)%N -> (m < 10000)%N ->
  ((n / 10 / 10 / 10) mod 10 = (m / 10 / 10 / 10) mod 10)%N ->
  ((n / 10 / 10) mod 10 = (m / 10 / 10) mod 10)%N ->
  ((n / 10) mod 10 = (m / 10) mod 10)%N -> (n mod 10 = m mod 10)%N -> n = m.
Proof.
  intros Hn Hm H3 H2 H1 H0.
  split_digit n. split_digit (n / 10)%N. split_digit (n / 10 / 10)%N.
  split_digit (n / 10 / 10 / 10)%N.
  split_digit m. split_digit (m / 10)%N. split_digit (m / 10 / 10)%N.
  split_digit (m / 10 / 10 / 10)%N.
  lia.
Qed.

Lemma six_digits_inj (n m : N) :
  (n < 1000000)%N -> (m < 1000000)%N ->
  ((n / 10 / 10 / 10 / 10 / 10) mod 10 = (m / 10 / 10 / 10 / 10 / 10) mod 10)%N ->
  ((n / 10 / 10 / 10 / 10) mod 10 = (m / 10 / 10 / 10 / 10) mod 10)%N ->
  ((n / 10 / 10 / 10) mod 10 = (m / 10 / 10 / 10) mod 10)%N ->
  ((n / 10 / 10) mod 10 = (m / 10 / 10) mod 10)%N ->
  ((n / 10) mod 10 = (m / 10) mod 10)%N -> (n mod 10 = m mod 10)%N -> n = m.
Proof.
  intros Hn Hm H5 H4 H3 H2 H1 H0.
  split_digit n. split_digit (n / 10)%N. split_digit (n / 10 / 10)%N.
  split_digit (n / 10 / 10 / 10)%N. split_digit (n / 10 / 10 / 10 / 10)%N.
  split_digit (n / 10 / 10 / 10 / 10 / 10)%N.
  split_digit m. split_digit (m / 10)%N. split_digit (m / 10 / 10)%N.
  split_digit (m / 10 / 10 / 10)%N. split_digit (m / 10 / 10 / 10 / 10)%N.
  split_digit (m / 10 / 10 / 10 / 10 / 10)%N.
  lia.
Qed.

(** X19. The timestamp keeps the whole instant: two valid instants that
    are stamped with the same [createdAt] are the same instant, to the
    microsecond.  Replacing the offset by [Z] loses nothing. *)
Theorem created_at_injective :
  forall a b : Py.datetime,
    Py.valid_datetime a = true ->
    Py.valid_datetime b = true ->
    created_at a = created_at b ->
    a = b.
Proof.
  intros a b Ha Hb Heq.
  rewrite (created_at_valid a Ha), (created_at_valid b Hb) in Heq.
  destruct (valid_datetime_bounds a Ha) as (Hy & Hmo & Hd & Hh & Hmi & Hs & Hus).
  destruct (valid_datetime_bounds b Hb) as (Hy' & Hmo' & Hd' & Hh' & Hmi' & Hs' & Hus').
  destruct a as [y mo d h mi s us], b as [y' mo' d' h' mi' s' us'].
  cbn [Py.year Py.month Py.day Py.hour Py.minute Py.second Py.microsecond] in *.
  cbn in Hy, Hmo, Hd, Hh, Hmi, Hs, Hus, Hy', Hmo', Hd', Hh', Hmi', Hs', Hus'.
  destruct (us =? 0)%N eqn:Ez, (us' =? 0)%N eqn:Ez';
    cbn [low_digits append] in Heq.
  - apply N.eqb_eq in Ez, Ez'. subst us us'.
    injection Heq as Hy1 Hy2 Hy3 Hy4 Hm1 Hm2 Hd1 Hd2 Hh1 Hh2 Hi1 Hi2 Hs1 Hs2.
    apply digit_char_inj in Hy1, Hy2, Hy3, Hy4, Hm1, Hm2, Hd1, Hd2, Hh1, Hh2, Hi1, Hi2,
      Hs1, Hs2.
    f_equal; auto using two_digits_inj, four_digits_inj.
  - exfalso. injection Heq as _ _ _ _ _ _ _ _ _ _ _ _ _ _ Hbad. discriminate Hbad.
  - exfalso. injection Heq as _ _ _ _ _ _ _ _ _ _ _ _ _ _ Hbad. discriminate Hbad.
  - injection Heq as Hy1 Hy2 Hy3 Hy4 Hm1 Hm2 Hd1 Hd2 Hh1 Hh2 Hi1 Hi2 Hs1 Hs2
      Hu1 Hu2 Hu3 Hu4 Hu5 Hu6.
    apply digit_char_inj in Hy1, Hy2, Hy3, Hy4, Hm1, Hm2, Hd1, Hd2, Hh1, Hh2, Hi1, Hi2,
      Hs1, Hs2, Hu1, Hu2, Hu3, Hu4, Hu5, Hu6.
    f_equal; auto using two_digits_inj, four_digits_inj, six_digits_inj.
Qed.

(** X20. An empty source list does not keep the handler from creating
    the destination list: when both logins succeed and the listing
    returns no member, the list record is still sent, and it is the only
    record sent; the run then ends with the warning that there is nothing
    to add, or, when the creation failed, with "Migration process stopped
    due to errors.". *)
Theorem empty_source_list_still_creates_list :
  forall (S : Type) (W : Remote S) (fuel : nat) (f : Form) (s s1 s2 s3 s5 : S)
         (pa pb : ProfileView) (listing : list Event) (r : outcome CreateRecordResponse),
    all_required_fields f = true ->
    api_login W (source_handle f) (source_password f) s = (Returned pa, s1) ->
    get_list_members W fuel (mk_client (Some pa)) (source_list_uri f) s1
    = (Ret (Some []), s2, listing) ->
    api_login W (dest_handle f) (dest_password f) s2 = (Returned pb, s3) ->
    api_create_record W (mk_client (Some pb)) (list_data f pb (fst (api_now W s3)))
      (snd (api_now W s3)) = (r, s5) ->
    create_calls (events (migrate_list W fuel f s))
    = [(list_data f pb (fst (api_now W s3)), r)]
    /\ migrate_list W fuel f s
       = (Ret tt, s5,
          source_login_events f (Returned pa)
          ++ fetch_events f listing []
          ++ dest_login_events f (Returned pb)
          ++ creation_events f (mk_client (Some pb)) (list_data f pb (fst (api_now W s3))) r
          ++ [Render (match r with
                      | Returned created =>
                          if Py.truthy_str (uri created) then nothing_to_add
                          else migration_stopped
                      | Raised _ => migration_stopped
                      end)]).
Proof.
  intros S W fuel f s s1 s2 s3 s5 pa pb listing r Hvalid Hlogin Hfetch Hdest Hcreate.
  assert (Hrun : migrate_list W fuel f s
    = (Ret tt, s5,
       source_login_events f (Returned pa)
       ++ fetch_events f listing []
       ++ dest_login_events f (Returned pb)
       ++ creation_events f (mk_client (Some pb)) (list_data f pb (fst (api_now W s3))) r
       ++ [Render (match r with
                   | Returned created =>
                       if Py.truthy_str (uri created) then nothing_to_add
                       else migration_stopped
                   | Raised _ => migration_stopped
                   end)])).
  { rewrite (migrate_list_after_creation W fuel f s s1 s2 s3 s5 pa pb [] listing r
               Hvalid Hlogin Hfetch Hdest Hcreate).
    rewrite (bind_ret _ _ _ _ _ _ (add_members_none W _ _ _ s5)).
    destruct r as [created | e]; [destruct (Py.truthy_str (uri created))|]; reflexivity. }
  split; [|exact Hrun].
  rewrite Hrun. unfold events. cbn [snd].
  destruct (get_list_members_run W fuel (mk_client (Some pa)) (source_list_uri f) s1)
    as (Hc & _).
  rewrite Hfetch in Hc. unfold events in Hc. cbn [snd] in Hc.
  unfold source_login_events, dest_login_events, fetch_events, creation_events.
  rewrite !create_calls_app, !create_calls_login_events, Hc.
  destruct r as [created | e]; [destruct (Py.truthy_str (uri created))|]; reflexivity.
Qed.

(* ================================================================== *)
(** * The further properties on concrete runs *)
(* ================================================================== *)

Import Scripted Scenarios.

(** X4 on a script whose second page has an empty cursor: the third page
    is never asked for. *)
Lemma get_list_members_empty_string_cursor_witness :
  get_list_members (world noon) 5 source_client "at://list" empty_cursor_then_more
  = (Ret (Some (List.concat (map page_dids [first_page]) ++ page_dids page_with_empty_cursor)),
     mk_script [] [Returned (Some last_page)] [],
     page_requests source_client "at://list" None [first_page]
     ++ [GetList source_client (mk_params "at://list" 100 (Some "cursor-1"))
           (Returned (Some page_with_empty_cursor))]).
Proof.
  apply (get_list_members_empty_string_cursor Script (world noon) source_client "at://list"
           [first_page] page_with_empty_cursor empty_cursor_then_more
           (after_requests 1 empty_cursor_then_more)
           (after_requests 2 empty_cursor_then_more) (Some "cursor-1") 5).
  - apply served_page with (s1 := after_requests 1 empty_cursor_then_more);
      [reflexivity | apply served_nothing].
  - constructor; [split; [discriminate | reflexivity] | constructor].
  - reflexivity.
  - reflexivity.
  - cbn. lia.
Defined.

(** X5 on a script that answers with a page and then with no response. *)
Lemma get_list_members_no_response_witness :
  get_list_members (world noon) 5 source_client "at://list" page_then_no_response
  = (Ret (Some (List.concat (map page_dids [first_page]))), mk_script [] [] [],
     page_requests source_client "at://list" None [first_page]
     ++ [GetList source_client (mk_params "at://list" 100 (Some "cursor-1"))
           (Returned None)]).
Proof.
  apply (get_list_members_no_response Script (world noon) source_client "at://list"
           [first_page] page_then_no_response
           (after_requests 1 page_then_no_response)
           (after_requests 2 page_then_no_response) (Some "cursor-1") 5).
  - apply served_page with (s1 := after_requests 1 page_then_no_response);
      [reflexivity | apply served_nothing].
  - constructor; [split; [discriminate | reflexivity] | constructor].
  - reflexivity.
  - cbn. lia.
Defined.

(** X10 on a form whose list name is empty. *)
Lemma migrate_list_rejects_incomplete_form_witness :
  migrate_list (world noon) 5 form_without_name second_member_rejected
  = (Ret tt, second_member_rejected,
     [Render (st_error "Please fill in all required fields.")]).
Proof.
  apply (migrate_list_rejects_incomplete_form Script (world noon) 5 form_without_name
           second_member_rejected).
  do 5 right. left. reflexivity.
Defined.

(** X11 on a rejected source login. *)
Lemma source_login_failure_stops_run_witness :
  migrate_list (world noon) 5 form source_login_rejected
  = (Ret tt, after_login source_login_rejected,
     [Render (st_status "Logging into Source Account (Account A)...");
      Render (st_write ("Attempting login for " ++ source_handle form ++ "..."));
      Login (source_handle form) (source_password form) (Raised rejected);
      Render (login_error "Account A" rejected);
      Render (status_update "Login Failed!" "error" true);
      Render (st_error "Migration process stopped due to errors.")])
  /\ login_attempts (events (migrate_list (world noon) 5 form source_login_rejected))
     = [(source_handle form, source_password form, false)]
  /\ get_list_calls (events (migrate_list (world noon) 5 form source_login_rejected)) = []
  /\ create_calls (events (migrate_list (world noon) 5 form source_login_rejected)) = [].
Proof.
  apply (source_login_failure_stops_run Script (world noon) 5 form source_login_rejected
           (after_login source_login_rejected) rejected);
    reflexivity.
Defined.

(** X12 on a listing that fails on its first request. *)
Lemma listing_failure_stops_run_witness :
  migrate_list (world noon) 5 form listing_rate_limited
  = (Ret tt, after_requests 1 (after_login listing_rate_limited),
     source_login_events form (Returned alice)
     ++ [Render (st_status ("Fetching members from list " ++ source_list_uri form ++ "..."))]
     ++ [GetList source_client (mk_params (source_list_uri form) 100 None)
           (Raised rate_limited);
         Render (fetch_error (source_list_uri form) rate_limited)]
     ++ [Render (st_error "Failed to fetch members. Cannot continue.");
         Render (status_update "Fetching Members Failed!" "error" true);
         Render (st_error "Migration process stopped due to errors.")])
  /\ login_attempts (events (migrate_list (world noon) 5 form listing_rate_limited))
     = [(source_handle form, source_password form, true)]
  /\ create_calls (events (migrate_list (world noon) 5 form listing_rate_limited)) = [].
Proof.
  apply (listing_failure_stops_run Script (world noon) 5 form listing_rate_limited
           (after_login listing_rate_limited)
           (after_requests 1 (after_login listing_rate_limited)) alice
           [GetList source_client (mk_params (source_list_uri form) 100 None)
              (Raised rate_limited);
            Render (fetch_error (source_list_uri form) rate_limited)]);
    reflexivity.
Defined.

(** X13 on a rejected list record. *)
Lemma list_creation_failure_stops_run_witness :
  migrate_list (world noon) 5 form list_record_rejected
  = (Ret tt, mk_script [] [] [],
     source_login_events form (Returned alice)
     ++ fetch_events form one_page_listing ["did:plc:d3"]
     ++ dest_login_events form (Returned bob)
     ++ [Render (st_status ("Creating new list '" ++ dest_list_name form
                            ++ "' on Account B..."));
         CreateRecord (mk_client (Some bob))
           (list_data form bob
              (fst (api_now (world noon)
                      (after_login (after_requests 1 (after_login list_record_rejected))))))
           (Raised (AtProtocolError "Invalid record"));
         Render (create_error (AtProtocolError "Invalid record"));
         Render (st_error "Failed to create the new list. Cannot continue.");
         Render (status_update "List Creation Failed!" "error" true);
         Render (st_error "Migration process stopped due to errors.")])
  /\ attempted_members (events (migrate_list (world noon) 5 form list_record_rejected)) = [].
Proof.
  apply (list_creation_failure_stops_run Script (world noon) 5 form list_record_rejected
           (after_login list_record_rejected)
           (after_requests 1 (after_login list_record_rejected))
           (after_login (after_requests 1 (after_login list_record_rejected)))
           (mk_script [] [] [])
           alice bob ["did:plc:d3"] one_page_listing (AtProtocolError "Invalid record"));
    reflexivity.
Defined.

(** X14 on an answer without a reference. *)
Lemma empty_list_reference_stops_run_witness :
  migrate_list (world noon) 5 form list_without_reference
  = (Ret tt,
     after_creation (after_login (after_requests 1 (after_login list_without_reference))),
     source_login_events form (Returned alice)
     ++ fetch_events form one_page_listing ["did:plc:d3"]
     ++ dest_login_events form (Returned bob)
     ++ [Render (st_status ("Creating new list '" ++ dest_list_name form
                            ++ "' on Account B..."));
         CreateRecord (mk_client (Some bob))
           (list_data form bob
              (fst (api_now (world noon)
                      (after_login (after_requests 1 (after_login list_without_reference))))))
           (Returned (mk_created "" "cid-1"));
         Render (st_success "Successfully created new list: ");
         Render (st_error "Failed to create the new list. Cannot continue.");
         Render (status_update "List Creation Failed!" "error" true);
         Render (st_error "Migration process stopped due to errors.")])
  /\ attempted_members (events (migrate_list (world noon) 5 form list_without_reference)) = [].
Proof.
  apply (empty_list_reference_stops_run Script (world noon) 5 form list_without_reference
           (after_login list_without_reference)
           (after_requests 1 (after_login list_without_reference))
           (after_login (after_requests 1 (after_login list_without_reference)))
           (after_creation
              (after_login (after_requests 1 (after_login list_without_reference))))
           alice bob ["did:plc:d3"] one_page_listing (mk_created "" "cid-1"));
    reflexivity.
Defined.

(** X15 on the run with three members, the second one rejected. *)
Lemma migrate_list_adds_all_members_witness :
  exists success failed s6 adding,
    add_members_to_list (world noon) (mk_client (Some bob)) (uri new_list)
      ["did:plc:d1"; "did:plc:d2"; "did:plc:d3"]
      (after_creation (after_login (after_requests 2 (after_login second_member_rejected))))
    = (Ret (success, failed), s6, adding)
    /\ success + failed = List.length ["did:plc:d1"; "did:plc:d2"; "did:plc:d3"]
    /\ attempted_members (events (migrate_list (world noon) 5 form second_member_rejected))
       = ["did:plc:d1"; "did:plc:d2"; "did:plc:d3"]
    /\ migrate_list (world noon) 5 form second_member_rejected
       = (Ret tt, s6,
          source_login_events form (Returned alice)
          ++ fetch_events form two_page_listing ["did:plc:d1"; "did:plc:d2"; "did:plc:d3"]
          ++ dest_login_events form (Returned bob)
          ++ creation_events form (mk_client (Some bob))
               (list_data form bob
                  (fst (api_now (world noon)
                          (after_login (after_requests 2 (after_login second_member_rejected))))))
               (Returned new_list)
          ++ [Render (st_info ("Starting to add "
                               ++ Py.str_of_nat
                                    (List.length ["did:plc:d1"; "did:plc:d2"; "did:plc:d3"])
                               ++ " members to the new list. This may take a while..."))]
          ++ adding
          ++ summary success failed).
Proof.
  apply (migrate_list_adds_all_members Script (world noon) 5 form second_member_rejected
           (after_login second_member_rejected)
           (after_requests 2 (after_login second_member_rejected))
           (after_login (after_requests 2 (after_login second_member_rejected)))
           (after_creation
              (after_login (after_requests 2 (after_login second_member_rejected))))
           alice bob ["did:plc:d1"; "did:plc:d2"; "did:plc:d3"] two_page_listing new_list);
    try reflexivity; discriminate.
Defined.

(** X19 on two readings of the scripted clock. *)
Lemma created_at_injective_witness : noon = noon.
Proof.
  apply (created_at_injective noon noon); reflexivity.
Defined.

(** X20 on the run with an empty source list. *)
Lemma empty_source_list_still_creates_list_witness :
  create_calls (events (migrate_list (world noon) 5 form empty_source_list))
  = [(list_data form bob
        (fst (api_now (world noon)
                (after_login (after_requests 1 (after_login empty_source_list))))),
      Returned new_list)]
  /\ migrate_list (world noon) 5 form empty_source_list
     = (Ret tt, mk_script [] [] [],
        source_login_events form (Returned alice)
        ++ fetch_events form
             [GetList source_client (mk_params (source_list_uri form) 100 None)
                (Returned (Some empty_page))] []
        ++ dest_login_events form (Returned bob)
        ++ creation_events form (mk_client (Some bob))
             (list_data form bob
                (fst (api_now (world noon)
                        (after_login (after_requests 1 (after_login empty_source_list))))))
             (Returned new_list)
        ++ [Render (match Returned new_list with
                    | Returned created =>
                        if Py.truthy_str (uri created) then nothing_to_add
                        else migration_stopped
                    | Raised _ => migration_stopped
                    end)]).
Proof.
  apply (empty_source_list_still_creates_list Script (world noon) 5 form empty_source_list
           (after_login empty_source_list)
           (after_requests 1 (after_login empty_source_list))
           (after_login (after_requests 1 (after_login empty_source_list)))
           (mk_script [] [] [])
           alice bob
           [GetList source_client (mk_params (source_list_uri form) 100 None)
              (Returned (Some empty_page))]
           (Returned new_list));
    reflexivity.
Defined.
